(** * The quiz client: a shallow embedding of its four components

    The program is a single-page quiz client written as four custom
    elements ([countdown-timer], [quiz-question], [high-score],
    [nickname-form]) wired together by [quiz-application] through DOM
    events, [localStorage] and [fetch].

    The embedding follows the source function by function:
    - [JS] holds the part of the JavaScript platform the program calls
      (numbers, truthiness, [parseInt], [trim], [JSON.parse],
      [JSON.stringify], [Array.prototype.sort]);
    - [CountdownTimer], [QuizQuestion], [NicknameForm] and [HighScore] hold
      the state and the methods of the components;
    - [QuizApplication] holds the orchestrator, over a [world] made of the
      components, the web storage, the console and the log of dispatched
      events. Methods are computations of a state-and-exception monad: a
      thrown error keeps the mutations made before it, as in the source.

    An [async] method is cut at its [await]s: the part up to the request is
    one computation, the part that runs when the response arrives is
    another one that takes the response as an argument.

    Conventions of the model.
    - Strings are byte strings, read as the UTF-8 text of the JavaScript
      string.
    - A finite number is kept exactly, as an integer or as a decimal
      fraction; the rounding of doubles to 53 bits is not modelled, so the
      model is exact for the seconds, scores and limits of the program
      (integers of magnitude below 2^53). [NaN] and the two infinities are
      values of their own, and a JSON literal too large for a double reads as
      an infinity, as in [JSON.parse]. *)

From Stdlib Require Import ZArith String Ascii List Bool Lia Sorted Permutation.
From stdpp Require Import base gmap strings list.

Local Open Scope Z_scope.
Set Warnings "-register-all".

(* ================================================================== *)
(** * The JavaScript platform *)
(* ================================================================== *)

Module JS.

(** ** Numbers *)

(** [Frac m e] is [m / 10^e] with [m] not a multiple of ten. *)
Inductive num : Type :=
| Int (z : Z)
| Frac (m : Z) (e : positive)
| NaN
| PInf
| NInf.

(** [m / 10^e] in normal form. *)
Fixpoint norm (m : Z) (e : nat) : num :=
  match e with
  | O => Int m
  | S e' => if m mod 10 =? 0 then norm (m / 10) e' else Frac m (Pos.of_succ_nat e')
  end.

(** A finite number as mantissa and number of decimals. *)
Definition decimal (n : num) : option (Z * nat) :=
  match n with
  | Int z => Some (z, O)
  | Frac m e => Some (m, Pos.to_nat e)
  | _ => None
  end.

Definition dec_add (a b : Z * nat) : num :=
  let e := Nat.max (snd a) (snd b) in
  norm (fst a * 10 ^ Z.of_nat (e - snd a) + fst b * 10 ^ Z.of_nat (e - snd b)) e.

Definition nneg (n : num) : num :=
  match n with
  | Int z => Int (- z)
  | Frac m e => Frac (- m) e
  | NaN => NaN
  | PInf => NInf
  | NInf => PInf
  end.

(** [a + b] on numbers. *)
Definition nadd (a b : num) : num :=
  match a, b with
  | Int x, Int y => Int (x + y)
  | NaN, _ | _, NaN => NaN
  | PInf, NInf | NInf, PInf => NaN
  | PInf, _ | _, PInf => PInf
  | NInf, _ | _, NInf => NInf
  | Int x, Frac m e => dec_add (x, O) (m, Pos.to_nat e)
  | Frac m e, Int y => dec_add (m, Pos.to_nat e) (y, O)
  | Frac m e, Frac m' e' => dec_add (m, Pos.to_nat e) (m', Pos.to_nat e')
  end.

(** [a - b] on numbers. *)
Definition nsub (a b : num) : num :=
  match a, b with
  | Int x, Int y => Int (x - y)
  | _, _ => nadd a (nneg b)
  end.

(** The sign of a number: [None] for [NaN]. *)
Definition nsign (n : num) : option comparison :=
  match n with
  | Int z => Some (z ?= 0)
  | Frac m _ => Some (m ?= 0)
  | NaN => None
  | PInf => Some Gt
  | NInf => Some Lt
  end.

(** [n > 0]. *)
Definition gt0 (n : num) : bool :=
  match nsign n with Some Gt => true | _ => false end.

(** [n < 0]. *)
Definition lt0 (n : num) : bool :=
  match nsign n with Some Lt => true | _ => false end.

Definition isNaN (n : num) : bool :=
  match n with NaN => true | _ => false end.

Definition isFinite (n : num) : bool :=
  match n with Int _ | Frac _ _ => true | _ => false end.

(** [a === b] on numbers: [NaN] equals nothing. *)
Definition num_eqb (a b : num) : bool :=
  match a, b with
  | Int x, Int y => x =? y
  | Frac m e, Frac m' e' => (m =? m') && (e =? e')%positive
  | PInf, PInf | NInf, NInf => true
  | _, _ => false
  end.

(** ** Text *)

Definition code (c : ascii) : nat := nat_of_ascii c.

Definition dquote : ascii := ascii_of_nat 34.
Definition backslash : ascii := ascii_of_nat 92.

(** A white space character of one byte: TAB, LF, VT, FF, CR, SP. *)
Definition ws1 (c : ascii) : bool :=
  let n := code c in ((9 <=? n) && (n <=? 13))%nat || (n =? 32)%nat.

(** U+00A0. *)
Definition ws2 (c1 c2 : ascii) : bool :=
  ((code c1 =? 194) && (code c2 =? 160))%nat.

(** U+1680, U+2000..U+200A, U+2028, U+2029, U+202F, U+205F, U+3000 and
    U+FEFF. *)
Definition ws3 (c1 c2 c3 : ascii) : bool :=
  let '(a, b, c) := (code c1, code c2, code c3) in
  (((a =? 225) && (b =? 154) && (c =? 128))
   || ((a =? 226) && (b =? 128)
       && (((128 <=? c) && (c <=? 138)) || (c =? 168) || (c =? 169) || (c =? 175)))
   || ((a =? 226) && (b =? 129) && (c =? 159))
   || ((a =? 227) && (b =? 128) && (c =? 128))
   || ((a =? 239) && (b =? 187) && (c =? 191)))%nat.

Fixpoint trimStart (s : list ascii) : list ascii :=
  match s with
  | [] => []
  | c1 :: r1 =>
      if ws1 c1 then trimStart r1 else
      match r1 with
      | [] => s
      | c2 :: r2 =>
          if ws2 c1 c2 then trimStart r2 else
          match r2 with
          | [] => s
          | c3 :: r3 => if ws3 c1 c2 c3 then trimStart r3 else s
          end
      end
  end.

(** [trimStart] on the reversed text. *)
Fixpoint trimStart_rev (s : list ascii) : list ascii :=
  match s with
  | [] => []
  | c1 :: r1 =>
      if ws1 c1 then trimStart_rev r1 else
      match r1 with
      | [] => s
      | c2 :: r2 =>
          if ws2 c2 c1 then trimStart_rev r2 else
          match r2 with
          | [] => s
          | c3 :: r3 => if ws3 c3 c2 c1 then trimStart_rev r3 else s
          end
      end
  end.

Definition trimEnd (s : list ascii) : list ascii := rev (trimStart_rev (rev s)).

(** [String.prototype.trim]. *)
Definition trim (s : string) : string :=
  string_of_list_ascii (trimEnd (trimStart (list_ascii_of_string s))).

(** ** Digits *)

Definition digit_char (d : Z) : ascii := ascii_of_nat (48 + Z.to_nat d).

(** The value of a digit in a radix up to 16. *)
Definition digit_val (radix : Z) (c : ascii) : option Z :=
  let n := Z.of_nat (code c) in
  let v := if (48 <=? n) && (n <=? 57) then Some (n - 48)
           else if (97 <=? n) && (n <=? 102) then Some (n - 87)
           else if (65 <=? n) && (n <=? 70) then Some (n - 55)
           else None in
  match v with
  | Some d => if d <? radix then Some d else None
  | None => None
  end.

(** The longest prefix of digits: its value from [acc], how many digits
    were read, and the rest. *)
Fixpoint read_digits (radix : Z) (s : list ascii) (acc : Z) (count : nat)
  : Z * nat * list ascii :=
  match s with
  | [] => (acc, count, [])
  | c :: r =>
      match digit_val radix c with
      | Some d => read_digits radix r (radix * acc + d) (S count)
      | None => (acc, count, s)
      end
  end.

(** The decimal digits of [n], most significant first, before [acc]. *)
Fixpoint digits_fuel (fuel : nat) (n : Z) (acc : list ascii) : list ascii :=
  match fuel with
  | O => acc
  | S f =>
      let acc' := digit_char (n mod 10) :: acc in
      if n / 10 =? 0 then acc' else digits_fuel f (n / 10) acc'
  end.

Definition digits (n : Z) : list ascii :=
  digits_fuel (S (Z.to_nat (Z.log2 n))) n [].

(** [Number.prototype.toString] in positional notation. *)
Definition num_text (n : num) : list ascii :=
  match n with
  | Int z => (if z <? 0 then ["-"%char] else []) ++ digits (Z.abs z)
  | Frac m e =>
      let p := 10 ^ Z.pos e in
      let f := digits (Z.abs m mod p) in
      (if m <? 0 then ["-"%char] else []) ++ digits (Z.abs m / p) ++ "."%char
        :: repeat "0"%char (Pos.to_nat e - length f) ++ f
  | NaN => list_ascii_of_string "NaN"
  | PInf => list_ascii_of_string "Infinity"
  | NInf => list_ascii_of_string "-Infinity"
  end.

(** The largest magnitude that does not round to an infinity is below
    [2^1024 - 2^970]. *)
Definition overflow_bound : Z := 2 ^ 1024 - 2 ^ 970.

(** The number [sign * m * 10^k], as a double. *)
Definition scale (negative : bool) (m k : Z) : num :=
  let s := if negative then (-1) else 1 in
  if m =? 0 then Int 0
  else if 0 <=? k then
    if overflow_bound <=? m * 10 ^ k then (if negative then NInf else PInf)
    else Int (s * (m * 10 ^ k))
  else if m * 2 ^ 1075 <=? 10 ^ (- k) then Int 0
  else norm (s * m) (Z.to_nat (- k)).

(** An optional exponent part [e], [E] followed by a signed integer. [None]
    when [e] is not followed by an integer. *)
Definition read_exponent (s : list ascii) : option (Z * list ascii) :=
  match s with
  | c :: r =>
      if (code c =? 101)%nat || (code c =? 69)%nat then
        let '(negative, r') :=
          match r with
          | "-"%char :: r' => (true, r')
          | "+"%char :: r' => (false, r')
          | _ => (false, r)
          end in
        let '(x, count, rest) := read_digits 10 r' 0 O in
        match count with
        | O => None
        | S _ => Some (if negative then - x else x, rest)
        end
      else Some (0, s)
  | [] => Some (0, s)
  end.

(** ** Values *)

Inductive value : Type :=
| Undefined
| Null
| Bool (b : bool)
| Num (n : num)
| Str (s : string)
| Arr (items : list value)
| Obj (fields : list (string * value)).

(** What [if (v)], [v && _], [v || _], [!v] and [v ? _ : _] test. *)
Definition truthy (v : value) : bool :=
  match v with
  | Undefined | Null => false
  | Bool b => b
  | Num (Int z) => negb (z =? 0)
  | Num NaN => false
  | Num _ => true
  | Str s => negb (String.eqb s "")
  | Arr _ | Obj _ => true
  end.

Inductive type_name : Type :=
| TUndefined | TObject | TBoolean | TNumber | TString.

Definition typeof (v : value) : type_name :=
  match v with
  | Undefined => TUndefined
  | Null | Arr _ | Obj _ => TObject
  | Bool _ => TBoolean
  | Num _ => TNumber
  | Str _ => TString
  end.

Definition is_number (v : value) : bool :=
  match v with Num _ => true | _ => false end.

(** [a === b]. An array or an object is identical to itself only; the
    program compares the fields of entries read from storage with strings
    and numbers of its own, so two operands are never the same object. *)
Definition strict_eq (a b : value) : bool :=
  match a, b with
  | Undefined, Undefined | Null, Null => true
  | Bool x, Bool y => Bool.eqb x y
  | Num x, Num y => num_eqb x y
  | Str x, Str y => String.eqb x y
  | _, _ => false
  end.

Fixpoint lookup_field (k : string) (fields : list (string * value)) : option value :=
  match fields with
  | [] => None
  | (k', v) :: r => if String.eqb k k' then Some v else lookup_field k r
  end.

(** [v.k] for a [v] that is neither [null] nor [undefined], and a name [k]
    that no prototype defines (the program reads [question],
    [alternatives], [nextURL], [limit], [nickname] and [score]). *)
Definition prop (v : value) (k : string) : value :=
  match v with
  | Obj fields => default Undefined (lookup_field k fields)
  | _ => Undefined
  end.

(** [o[k] = v] on the fields of an object. *)
Fixpoint set_field (k : string) (v : value) (fields : list (string * value))
  : list (string * value) :=
  match fields with
  | [] => [(k, v)]
  | (k', v') :: r =>
      if String.eqb k k' then (k, v) :: r else (k', v') :: set_field k v r
  end.

Definition is_nullish (v : value) : bool :=
  match v with Undefined | Null => true | _ => false end.

(** [Array.prototype.join] with a comma, over the texts of the items. *)
Fixpoint join (texts : list (list ascii)) : list ascii :=
  match texts with
  | [] => []
  | [t] => t
  | t :: r => t ++ ","%char :: join r
  end.

(** [String(v)], as a template literal and [parseInt] apply it. *)
Fixpoint to_text (v : value) : list ascii :=
  match v with
  | Undefined => list_ascii_of_string "undefined"
  | Null => list_ascii_of_string "null"
  | Bool true => list_ascii_of_string "true"
  | Bool false => list_ascii_of_string "false"
  | Num n => num_text n
  | Str s => list_ascii_of_string s
  | Arr items =>
      join (map (fun i => if is_nullish i then [] else to_text i) items)
  | Obj _ => list_ascii_of_string "[object Object]"
  end.

Definition ToString (v : value) : string := string_of_list_ascii (to_text v).

(** [parseInt(v)] without a radix: leading white space, a sign, [0x] for
    radix 16, then the longest run of digits. *)
Definition parseInt_text (s : list ascii) : num :=
  let s := trimStart s in
  let '(negative, s) :=
    match s with
    | "-"%char :: r => (true, r)
    | "+"%char :: r => (false, r)
    | _ => (false, s)
    end in
  let '(radix, s) :=
    match s with
    | "0"%char :: x :: r =>
        if (code x =? 120)%nat || (code x =? 88)%nat then (16, r) else (10, s)
    | _ => (10, s)
    end in
  let '(x, count, _) := read_digits radix s 0 O in
  match count with
  | O => NaN
  | S _ => Int (if negative then - x else x)
  end.

Definition parseInt (v : value) : num := parseInt_text (to_text v).

(** A decimal literal of [StringToNumber]: digits, an optional fraction, an
    optional exponent, up to the end of the text. *)
Definition read_decimal (negative : bool) (s : list ascii) : num :=
  let '(i, ci, r) := read_digits 10 s 0 O in
  let '(m, cf, r) :=
    match r with
    | "."%char :: r' =>
        let '(m, cf, r'') := read_digits 10 r' i O in (m, cf, r'')
    | _ => (i, O, r)
    end in
  match (ci + cf)%nat, read_exponent r with
  | S _, Some (x, []) => scale negative m (x - Z.of_nat cf)
  | _, _ => NaN
  end.

(** A literal of [StringToNumber] in radix 2, 8 or 16. *)
Definition read_radix (radix : Z) (s : list ascii) : num :=
  match read_digits radix s 0 O with
  | (x, S _, []) => Int x
  | _ => NaN
  end.

(** [Number(s)] for a string. *)
Definition StringToNumber (s : string) : num :=
  let t := trimEnd (trimStart (list_ascii_of_string s)) in
  match t with
  | [] => Int 0
  | "0"%char :: x :: r =>
      if (code x =? 120)%nat || (code x =? 88)%nat then read_radix 16 r
      else if (code x =? 111)%nat || (code x =? 79)%nat then read_radix 8 r
      else if (code x =? 98)%nat || (code x =? 66)%nat then read_radix 2 r
      else read_decimal false t
  | "-"%char :: r =>
      if String.eqb (string_of_list_ascii r) "Infinity" then NInf
      else read_decimal true r
  | "+"%char :: r =>
      if String.eqb (string_of_list_ascii r) "Infinity" then PInf
      else read_decimal false r
  | _ =>
      if String.eqb (string_of_list_ascii t) "Infinity" then PInf
      else read_decimal false t
  end.

(** [Number(v)], as the operands of [-] are converted. *)
Definition ToNumber (v : value) : num :=
  match v with
  | Undefined => NaN
  | Null => Int 0
  | Bool b => Int (if b then 1 else 0)
  | Num n => n
  | Str s => StringToNumber s
  | Arr _ => StringToNumber (ToString v)
  | Obj _ => NaN
  end.

(** ** Exceptions *)

Inductive error : Type :=
| SyntaxError
| TypeError.

Inductive outcome (A : Type) : Type :=
| Ret (a : A)
| Throw (e : error).
Arguments Ret {A} a.
Arguments Throw {A} e.

(** ** JSON *)

Definition json_ws (c : ascii) : bool :=
  let n := code c in ((n =? 32) || (n =? 9) || (n =? 10) || (n =? 13))%nat.

Fixpoint skip_ws (s : list ascii) : list ascii :=
  match s with
  | c :: r => if json_ws c then skip_ws r else s
  | [] => []
  end.

(** [Some rest] when [s] is [prefix] followed by [rest]. *)
Fixpoint after (prefix s : list ascii) : option (list ascii) :=
  match prefix, s with
  | [], _ => Some s
  | p :: prefix', c :: r => if Ascii.eqb p c then after prefix' r else None
  | _ :: _, [] => None
  end.

Definition byte (n : Z) : ascii := ascii_of_nat (Z.to_nat n).

(** The UTF-8 bytes of a code point. *)
Definition utf8 (cp : Z) : list ascii :=
  if cp <? 128 then [byte cp]
  else if cp <? 2048 then [byte (192 + cp / 64); byte (128 + cp mod 64)]
  else if cp <? 65536 then
    [byte (224 + cp / 4096); byte (128 + cp / 64 mod 64); byte (128 + cp mod 64)]
  else
    [byte (240 + cp / 262144); byte (128 + cp / 4096 mod 64);
     byte (128 + cp / 64 mod 64); byte (128 + cp mod 64)].

(** Four hexadecimal digits. *)
Definition hex4 (a b c d : ascii) : option Z :=
  match digit_val 16 a, digit_val 16 b, digit_val 16 c, digit_val 16 d with
  | Some x, Some y, Some z, Some w => Some (((x * 16 + y) * 16 + z) * 16 + w)
  | _, _, _, _ => None
  end.

(** The text of a string literal after its opening quote, and what
    follows its closing quote. *)
Fixpoint parse_string (s : list ascii) : option (list ascii * list ascii) :=
  let cons_to (bytes : list ascii) (r : option (list ascii * list ascii)) :=
    match r with
    | Some (t, rest) => Some (bytes ++ t, rest)
    | None => None
    end in
  match s with
  | [] => None
  | c :: r =>
      if (code c =? 34)%nat then Some ([], r)
      else if (code c =? 92)%nat then
        match r with
        | [] => None
        | e :: r1 =>
            let n := code e in
            if (n =? 34)%nat then cons_to [dquote] (parse_string r1)
            else if (n =? 92)%nat then cons_to [backslash] (parse_string r1)
            else if (n =? 47)%nat then cons_to ["/"%char] (parse_string r1)
            else if (n =? 98)%nat then cons_to [byte 8] (parse_string r1)
            else if (n =? 102)%nat then cons_to [byte 12] (parse_string r1)
            else if (n =? 110)%nat then cons_to [byte 10] (parse_string r1)
            else if (n =? 114)%nat then cons_to [byte 13] (parse_string r1)
            else if (n =? 116)%nat then cons_to [byte 9] (parse_string r1)
            else if (n =? 117)%nat then
              match r1 with
              | h1 :: h2 :: h3 :: h4 :: r5 =>
                  match hex4 h1 h2 h3 h4 with
                  | None => None
                  | Some hi =>
                      let single := cons_to (utf8 hi) (parse_string r5) in
                      if (55296 <=? hi) && (hi <? 56320) then
                        match r5 with
                        | b :: u :: l1 :: l2 :: l3 :: l4 :: r11 =>
                            if (code b =? 92)%nat && (code u =? 117)%nat then
                              match hex4 l1 l2 l3 l4 with
                              | Some lo =>
                                  if (56320 <=? lo) && (lo <? 57344) then
                                    cons_to
                                      (utf8 (65536 + (hi - 55296) * 1024 + (lo - 56320)))
                                      (parse_string r11)
                                  else single
                              | None => single
                              end
                            else single
                        | _ => single
                        end
                      else single
                  end
              | _ => None
              end
            else None
        end
      else if (code c <? 32)%nat then None
      else cons_to [c] (parse_string r)
  end.

(** A number literal: [-]? digits, an optional fraction, an optional
    exponent. *)
Definition parse_number (s : list ascii) : option (num * list ascii) :=
  let '(negative, s1) :=
    match s with
    | "-"%char :: r => (true, r)
    | _ => (false, s)
    end in
  match s1 with
  | [] => None
  | c :: r =>
      match digit_val 10 c with
      | None => None
      | Some d =>
          let '(i, r1) :=
            if d =? 0 then (0, r)
            else let '(i, _, r1) := read_digits 10 s1 0 O in (i, r1) in
          let fraction :=
            match r1 with
            | "."%char :: r2 =>
                match read_digits 10 r2 i O with
                | (_, O, _) => None
                | (m, cf, r3) => Some (m, cf, r3)
                end
            | _ => Some (i, O, r1)
            end in
          match fraction with
          | None => None
          | Some (m, cf, r3) =>
              match read_exponent r3 with
              | None => None
              | Some (x, r4) => Some (scale negative m (x - Z.of_nat cf), r4)
              end
          end
      end
  end.

(** The fields of an object literal, a later member replacing an earlier
    one of the same name. Fields are kept in the order of the text. *)
Definition fields_of (members : list (string * value)) : list (string * value) :=
  fold_left (fun fields m => set_field (fst m) (snd m) fields) members [].

Fixpoint parse_value (fuel : nat) (s : list ascii) : option (value * list ascii) :=
  match fuel with
  | O => None
  | S f =>
      match skip_ws s with
      | [] => None
      | c :: r =>
          let n := code c in
          if (n =? 34)%nat then
            match parse_string r with
            | Some (t, rest) => Some (Str (string_of_list_ascii t), rest)
            | None => None
            end
          else if (n =? 91)%nat then
            match skip_ws r with
            | c' :: r' =>
                if (code c' =? 93)%nat then Some (Arr [], r')
                else
                  match parse_elements f (c' :: r') with
                  | Some (items, rest) => Some (Arr items, rest)
                  | None => None
                  end
            | [] => None
            end
          else if (n =? 123)%nat then
            match skip_ws r with
            | c' :: r' =>
                if (code c' =? 125)%nat then Some (Obj [], r')
                else
                  match parse_members f (c' :: r') with
                  | Some (members, rest) => Some (Obj (fields_of members), rest)
                  | None => None
                  end
            | [] => None
            end
          else
            match after (list_ascii_of_string "null") (c :: r),
                  after (list_ascii_of_string "true") (c :: r),
                  after (list_ascii_of_string "false") (c :: r) with
            | Some rest, _, _ => Some (Null, rest)
            | _, Some rest, _ => Some (Bool true, rest)
            | _, _, Some rest => Some (Bool false, rest)
            | None, None, None =>
                match parse_number (c :: r) with
                | Some (x, rest) => Some (Num x, rest)
                | None => None
                end
            end
      end
  end

with parse_elements (fuel : nat) (s : list ascii) : option (list value * list ascii) :=
  match fuel with
  | O => None
  | S f =>
      match parse_value f s with
      | None => None
      | Some (v, r) =>
          match skip_ws r with
          | c :: r' =>
              if (code c =? 93)%nat then Some ([v], r')
              else if (code c =? 44)%nat then
                match parse_elements f r' with
                | Some (items, rest) => Some (v :: items, rest)
                | None => None
                end
              else None
          | [] => None
          end
      end
  end

with parse_members (fuel : nat) (s : list ascii)
  : option (list (string * value) * list ascii) :=
  match fuel with
  | O => None
  | S f =>
      match skip_ws s with
      | q :: r0 =>
          if (code q =? 34)%nat then
            match parse_string r0 with
            | None => None
            | Some (k, r1) =>
                match skip_ws r1 with
                | colon :: r2 =>
                    if (code colon =? 58)%nat then
                      match parse_value f r2 with
                      | None => None
                      | Some (v, r3) =>
                          let m := (string_of_list_ascii k, v) in
                          match skip_ws r3 with
                          | c :: r4 =>
                              if (code c =? 125)%nat then Some ([m], r4)
                              else if (code c =? 44)%nat then
                                match parse_members f r4 with
                                | Some (members, rest) => Some (m :: members, rest)
                                | None => None
                                end
                              else None
                          | [] => None
                          end
                      end
                    else None
                | [] => None
                end
            end
          else None
      | [] => None
      end
  end.

Definition parse_text (s : list ascii) : outcome value :=
  match parse_value (2 * length s + 2) s with
  | Some (v, rest) =>
      match skip_ws rest with
      | [] => Ret v
      | _ :: _ => Throw SyntaxError
      end
  | None => Throw SyntaxError
  end.

(** [JSON.parse(v)]: the argument is converted to a string first, so
    [JSON.parse(null)] is [null]. *)
Definition JSON_parse (v : value) : outcome value := parse_text (to_text v).

Definition hex_digit (n : Z) : ascii :=
  if n <? 10 then digit_char n else ascii_of_nat (Z.to_nat (87 + n)).

Definition escape (c : ascii) : list ascii :=
  let n := Z.of_nat (code c) in
  if n =? 34 then [backslash; dquote]
  else if n =? 92 then [backslash; backslash]
  else if n =? 8 then [backslash; "b"%char]
  else if n =? 12 then [backslash; "f"%char]
  else if n =? 10 then [backslash; "n"%char]
  else if n =? 13 then [backslash; "r"%char]
  else if n =? 9 then [backslash; "t"%char]
  else if n <? 32 then
    [backslash; "u"%char; "0"%char; "0"%char; hex_digit (n / 16); hex_digit (n mod 16)]
  else [c].

Definition quote (s : string) : list ascii :=
  dquote :: flat_map escape (list_ascii_of_string s) ++ [dquote].

(** The JSON text of a value; [None] where [JSON.stringify] gives
    [undefined]. In an array such an item is written [null]; in an object
    such a field is left out. *)
Fixpoint stringify (v : value) : option (list ascii) :=
  match v with
  | Undefined => None
  | Null => Some (list_ascii_of_string "null")
  | Bool true => Some (list_ascii_of_string "true")
  | Bool false => Some (list_ascii_of_string "false")
  | Num n => Some (if isFinite n then num_text n else list_ascii_of_string "null")
  | Str s => Some (quote s)
  | Arr items =>
      Some ("["%char
              :: join (map (fun i => default (list_ascii_of_string "null") (stringify i))
                         items)
              ++ ["]"%char])
  | Obj fields =>
      Some ("{"%char
              :: join (flat_map (fun kv =>
                                   match stringify (snd kv) with
                                   | Some t => [quote (fst kv) ++ ":"%char :: t]
                                   | None => []
                                   end) fields)
              ++ ["}"%char])
  end.

(** [JSON.stringify(v)] as [localStorage.setItem] and [fetch] store it. *)
Definition JSON_stringify (v : value) : string :=
  string_of_list_ascii (default (list_ascii_of_string "undefined") (stringify v)).

(** ** Arrays *)

(** [Array.prototype.sort(compare)]: a stable sort; [a] goes after [b] when
    [compare(a, b) > 0]. *)
Fixpoint insert (compare : value -> value -> num) (a : value) (l : list value)
  : list value :=
  match l with
  | [] => [a]
  | b :: r =>
      if gt0 (compare a b) then b :: insert compare a r else a :: b :: r
  end.

Fixpoint sort (compare : value -> value -> num) (l : list value) : list value :=
  match l with
  | [] => []
  | a :: r => insert compare a (sort compare r)
  end.

(** [Array.prototype.find] and [findIndex]: the first item, with its
    index, on which the callback says yes; the callback may throw. *)
Fixpoint find_from (i : nat) (f : value -> outcome bool) (l : list value)
  : outcome (option (nat * value)) :=
  match l with
  | [] => Ret None
  | x :: r =>
      match f x with
      | Throw e => Throw e
      | Ret true => Ret (Some (i, x))
      | Ret false => find_from (S i) f r
      end
  end.

Definition find (f : value -> outcome bool) (l : list value)
  : outcome (option (nat * value)) := find_from O f l.

(** [Object.entries] of an array or an object. *)
Definition entries (v : value) : list (string * value) :=
  match v with
  | Obj fields => fields
  | Arr items =>
      imap (fun i x => (string_of_list_ascii (digits (Z.of_nat i)), x)) items
  | _ => []
  end.

End JS.

Import JS.

(* ================================================================== *)
(** * The page: component state, storage, console and events *)
(* ================================================================== *)

Module Page.

(** The fields of a [CountdownTimer]. [display] is the text of
    [#timer-display], [None] until [render] has run. *)
Record countdown_timer : Type := {
  timeLeft : num;
  intervalId : option positive;
  totalTimeSpent : num;
  accumulatedTime : num;
  display : option string
}.

(** What [#options-container] holds. *)
Inductive options : Type :=
| NoOptions
| ChoiceForm (radios : list (string * value)) (checked : option string)
| TextInput (text : string).

(** The fields of a [QuizQuestion] and its rendered question. *)
Record quiz_question : Type := {
  currentQuestion : value;
  currentSelectedAnswer : value;
  questionContainer : string;
  optionsContainer : options
}.

(** The text field of the [Nicknameform]. *)
Record nickname_form : Type := {
  input : string
}.

(** The fields of a [highScore]: [items] are the rendered lines,
    [listening] tells that the [high-score] listener is registered. *)
Record high_score : Type := {
  scores : value;
  items : list (string * string);
  listening : bool
}.

(** The fields of the [QuizApplication] and the [hidden] class of its four
    children. [highScoreShown] is a flag tested for truth only. *)
Record quiz_application : Type := {
  score : value;
  highScores : value;
  allowTimeoutAction : bool;
  nickname : value;
  totalTime : value;
  app_currentQuestion : value;
  currentQuestionIndex : value;
  highScoreShown : bool;
  form_hidden : bool;
  question_hidden : bool;
  timer_hidden : bool;
  board_hidden : bool
}.

Inductive request : Type :=
| GET (url : value)
| POST (url : value) (body : string).

(** What a request brings back: [fetch] rejects, or a body arrives. *)
Inductive response : Type :=
| NetworkError
| Body (text : string).

(** The custom events of the program, with their [detail]. *)
Inductive event : Type :=
| SetQuestion (question duration : value)
| StopTimer
| HighScoreEvent (nickname score : value)
| TotalTimeSpent (totalTime : num)
| AnswerSelected (selectedAnswer : value)
| Nickname (nickname : string)
| TryAgain.

Inductive log_entry : Type :=
| Log (text : string)
| LogError (text : string)
| LogException (e : error)
| Uncaught (e : error).

Record world : Type := {
  app : quiz_application;
  timer : countdown_timer;
  question : quiz_question;
  form : nickname_form;
  board : high_score;
  localStorage : gmap string string;
  console : list log_entry;
  events : list event;
  requests : list request;
  intervals : positive
}.

Definition set_app (f : quiz_application -> quiz_application) (w : world) : world :=
  {| app := f (app w); timer := timer w; question := question w; form := form w;
     board := board w; localStorage := localStorage w; console := console w;
     events := events w; requests := requests w; intervals := intervals w |}.

Definition set_timer (f : countdown_timer -> countdown_timer) (w : world) : world :=
  {| app := app w; timer := f (timer w); question := question w; form := form w;
     board := board w; localStorage := localStorage w; console := console w;
     events := events w; requests := requests w; intervals := intervals w |}.

Definition set_question (f : quiz_question -> quiz_question) (w : world) : world :=
  {| app := app w; timer := timer w; question := f (question w); form := form w;
     board := board w; localStorage := localStorage w; console := console w;
     events := events w; requests := requests w; intervals := intervals w |}.

Definition set_form (f : nickname_form -> nickname_form) (w : world) : world :=
  {| app := app w; timer := timer w; question := question w; form := f (form w);
     board := board w; localStorage := localStorage w; console := console w;
     events := events w; requests := requests w; intervals := intervals w |}.

Definition set_board (f : high_score -> high_score) (w : world) : world :=
  {| app := app w; timer := timer w; question := question w; form := form w;
     board := f (board w); localStorage := localStorage w; console := console w;
     events := events w; requests := requests w; intervals := intervals w |}.

Definition set_localStorage (f : gmap string string -> gmap string string) (w : world)
  : world :=
  {| app := app w; timer := timer w; question := question w; form := form w;
     board := board w; localStorage := f (localStorage w); console := console w;
     events := events w; requests := requests w; intervals := intervals w |}.

Definition set_console (f : list log_entry -> list log_entry) (w : world) : world :=
  {| app := app w; timer := timer w; question := question w; form := form w;
     board := board w; localStorage := localStorage w; console := f (console w);
     events := events w; requests := requests w; intervals := intervals w |}.

Definition set_events (f : list event -> list event) (w : world) : world :=
  {| app := app w; timer := timer w; question := question w; form := form w;
     board := board w; localStorage := localStorage w; console := console w;
     events := f (events w); requests := requests w; intervals := intervals w |}.

Definition set_requests (f : list request -> list request) (w : world) : world :=
  {| app := app w; timer := timer w; question := question w; form := form w;
     board := board w; localStorage := localStorage w; console := console w;
     events := events w; requests := f (requests w); intervals := intervals w |}.

Definition set_intervals (f : positive -> positive) (w : world) : world :=
  {| app := app w; timer := timer w; question := question w; form := form w;
     board := board w; localStorage := localStorage w; console := console w;
     events := events w; requests := requests w; intervals := f (intervals w) |}.

(** ** Computations: state and exceptions *)

Definition M (A : Type) : Type := world -> outcome A * world.

Definition ret {A} (a : A) : M A := fun w => (Ret a, w).

Definition bind {A B} (m : M A) (k : A -> M B) : M B :=
  fun w =>
    match m w with
    | (Ret a, w') => k a w'
    | (Throw e, w') => (Throw e, w')
    end.

Definition throw {A} (e : error) : M A := fun w => (Throw e, w).

(** [try { m } catch (e) { handler e }]. *)
Definition try_catch {A} (m : M A) (handler : error -> M A) : M A :=
  fun w =>
    match m w with
    | (Ret a, w') => (Ret a, w')
    | (Throw e, w') => handler e w'
    end.

Definition gets {A} (f : world -> A) : M A := fun w => (Ret (f w), w).

Definition modify (f : world -> world) : M unit := fun w => (Ret tt, f w).

Definition lift {A} (o : outcome A) : M A := fun w => (o, w).

Definition when (b : bool) (m : M unit) : M unit := if b then m else ret tt.

#[global] Instance M_ret : MRet M := @ret.
#[global] Instance M_bind : MBind M := fun A B k m => bind m k.

(** The world a computation leaves, and its outcome. *)
Definition exec {A} (m : M A) (w : world) : world := snd (m w).
Definition result {A} (m : M A) (w : world) : outcome A := fst (m w).

(** ** The console *)

Definition console_log (text : string) : M unit :=
  modify (set_console (fun c => c ++ [Log text])).

Definition console_error (text : string) : M unit :=
  modify (set_console (fun c => c ++ [LogError text])).

(** [console.error(error)] in a [catch]. *)
Definition console_error_exn (e : error) : M unit :=
  modify (set_console (fun c => c ++ [LogException e])).

(** ** Events *)

(** A listener that throws is reported as an uncaught error; the
    dispatch goes on with the next listener. *)
Definition listener (m : M unit) : M unit :=
  try_catch m (fun e => modify (set_console (fun c => c ++ [Uncaught e]))).

Fixpoint run_listeners (listeners : list (M unit)) : M unit :=
  match listeners with
  | [] => ret tt
  | l :: r => bind (listener l) (fun _ => run_listeners r)
  end.

(** [dispatchEvent]: the event is logged in [events], then the
    registered listeners run, in the order of their registration. *)
Definition dispatchEvent (e : event) (listeners : list (M unit)) : M unit :=
  bind (modify (set_events (fun l => l ++ [e]))) (fun _ => run_listeners listeners).

(** ** Web storage *)

(** [localStorage.getItem(key)]: the text, or [null]. *)
Definition getItem (key : string) : M value :=
  gets (fun w => match localStorage w !! key with
                 | Some text => Str text
                 | None => Null
                 end).

Definition setItem (key text : string) : M unit :=
  modify (set_localStorage (fun s => <[key := text]> s)).

Definition removeItem (key : string) : M unit :=
  modify (set_localStorage (fun s => delete key s)).

(** The expression [JSON.parse(localStorage.getItem('highScores')) || []]
    of the constructor of [QuizApplication], of [showHighScore], and of
    [connectedCallback] and [render] of [highScore]. *)
Definition read_highScores : M value :=
  text ← getItem "highScores";
  parsed ← lift (JSON_parse text);
  mret (if truthy parsed then parsed else Arr []).

(** [v.k]: a [TypeError] on [null] and [undefined]. *)
Definition get_prop (v : value) (k : string) : M value :=
  if is_nullish v then throw TypeError else ret (prop v k).

(** ** The network *)

(** [fetch]: the request is logged; the response comes later. *)
Definition fetch (r : request) : M unit :=
  modify (set_requests (fun l => l ++ [r])).

(** [await response.json()] on what came back. *)
Definition json (r : response) : M value :=
  match r with
  | NetworkError => throw TypeError
  | Body text => lift (JSON_parse (Str text))
  end.

End Page.

Import Page.

(* ================================================================== *)
(** * countdown-timer.js *)
(* ================================================================== *)

Module CountdownTimer.

Definition set_timeLeft (n : num) (t : countdown_timer) : countdown_timer :=
  {| timeLeft := n; intervalId := intervalId t; totalTimeSpent := totalTimeSpent t;
     accumulatedTime := accumulatedTime t; display := display t |}.

Definition set_intervalId (i : option positive) (t : countdown_timer) : countdown_timer :=
  {| timeLeft := timeLeft t; intervalId := i; totalTimeSpent := totalTimeSpent t;
     accumulatedTime := accumulatedTime t; display := display t |}.

Definition set_totalTimeSpent (n : num) (t : countdown_timer) : countdown_timer :=
  {| timeLeft := timeLeft t; intervalId := intervalId t; totalTimeSpent := n;
     accumulatedTime := accumulatedTime t; display := display t |}.

Definition set_accumulatedTime (n : num) (t : countdown_timer) : countdown_timer :=
  {| timeLeft := timeLeft t; intervalId := intervalId t;
     totalTimeSpent := totalTimeSpent t; accumulatedTime := n; display := display t |}.

Definition set_display (d : option string) (t : countdown_timer) : countdown_timer :=
  {| timeLeft := timeLeft t; intervalId := intervalId t;
     totalTimeSpent := totalTimeSpent t; accumulatedTime := accumulatedTime t;
     display := d |}.

Definition constructor : M unit :=
  modify (set_timer (fun _ =>
    {| timeLeft := Int 0; intervalId := None; totalTimeSpent := Int 0;
       accumulatedTime := Int 0; display := None |})).

(** The text [render] puts in [#timer-display] (without the white space
    around it). *)
Definition render : M unit :=
  modify (set_timer (fun t =>
    set_display (Some ("Time Left: " +:+ ToString (Num (timeLeft t)) +:+ "s")) t)).

Definition updateDisplay : M unit :=
  modify (set_timer (fun t =>
    match display t with
    | Some _ =>
        set_display (Some ("Time Left: " +:+ ToString (Num (timeLeft t)) +:+ " s")) t
    | None => t
    end)).

Definition stopTimer : M unit :=
  t ← gets timer;
  match intervalId t with
  | Some _ =>
      modify (set_timer (set_intervalId None));;
      modify (set_timer (fun t =>
        set_accumulatedTime (nadd (accumulatedTime t) (totalTimeSpent t)) t));;
      t ← gets timer;
      console_log
        ("Timer Stopped. Total Time Spent: " +:+ ToString (Num (totalTimeSpent t)));;
      console_log ("Accumulated Time: " +:+ ToString (Num (accumulatedTime t)));;
      modify (set_timer (set_totalTimeSpent (Int 0)))
  | None => mret tt
  end.

(** [setInterval]: a fresh identifier; the callback is [interval] below. *)
Definition setInterval : M positive :=
  id ← gets intervals;
  modify (set_intervals Pos.succ);;
  mret id.

Definition startTimer (duration : value) : M unit :=
  duration ←
    match duration with
    | Num n =>
        if isNaN n then
          console_error "Invalid duration value, using default of 20 seconds";;
          mret (Int 20)
        else mret n
    | _ =>
        console_error "Invalid duration value, using default of 20 seconds";;
        mret (Int 20)
    end;
  stopTimer;;
  modify (set_timer (set_timeLeft duration));;
  updateDisplay;;
  id ← setInterval;
  modify (set_timer (set_intervalId (Some id))).

(** The listeners of [total-time-spent] are those of the application;
    they are passed in. *)
Definition dispatchTotalTimeSpentEvent (listeners : num -> list (M unit)) : M unit :=
  t ← gets timer;
  dispatchEvent (TotalTimeSpent (accumulatedTime t)) (listeners (accumulatedTime t)).

(** The callback [startTimer] gives to [setInterval]. *)
Definition interval (listeners : num -> list (M unit)) : M unit :=
  t ← gets timer;
  if gt0 (timeLeft t) then
    modify (set_timer (fun t => set_timeLeft (nsub (timeLeft t) (Int 1)) t));;
    modify (set_timer (fun t => set_totalTimeSpent (nadd (totalTimeSpent t) (Int 1)) t));;
    updateDisplay
  else
    stopTimer;;
    dispatchTotalTimeSpentEvent listeners.

(** One second passes: the callback runs when an interval is set. *)
Definition tick (listeners : num -> list (M unit)) : M unit :=
  t ← gets timer;
  match intervalId t with
  | Some _ => interval listeners
  | None => mret tt
  end.

Definition resetTotalTimeSpent : M unit :=
  modify (set_timer (set_totalTimeSpent (Int 0))).

Definition resetAccumulatedTime : M unit :=
  modify (set_timer (set_accumulatedTime (Int 0))).

Definition resetAll : M unit :=
  stopTimer;;
  resetTotalTimeSpent;;
  resetAccumulatedTime;;
  updateDisplay.

(** [connectedCallback] renders and listens on [window] to
    [set-question] ([startTimer]), [stop-timer] ([stopTimer]) and
    [try-again] ([resetAll]). *)
Definition connectedCallback : M unit := render.

(** [accumulateTime]: the time spent is reset before it is added. *)
Definition accumulateTime : M unit :=
  resetTotalTimeSpent;;
  modify (set_timer (fun t =>
    set_accumulatedTime (nadd (accumulatedTime t) (totalTimeSpent t)) t));;
  t ← gets timer;
  console_log ("Accumulated Time: " +:+ ToString (Num (accumulatedTime t))).

(** [getTotalTimeSpent]: the listeners of [total-time-spent] are passed
    in, as for [dispatchTotalTimeSpentEvent]. *)
Definition getTotalTimeSpent (listeners : num -> list (M unit)) : M unit :=
  t ← gets timer;
  (if gt0 (timeLeft t) then
     modify (set_timer (fun t =>
       set_totalTimeSpent (nadd (totalTimeSpent t) (timeLeft t)) t))
   else mret tt);;
  t ← gets timer;
  dispatchEvent (TotalTimeSpent (totalTimeSpent t)) (listeners (totalTimeSpent t)).

End CountdownTimer.

(* ================================================================== *)
(** * quiz-question.js *)
(* ================================================================== *)

Module QuizQuestion.

Definition set_currentQuestion (v : value) (q : quiz_question) : quiz_question :=
  {| currentQuestion := v; currentSelectedAnswer := currentSelectedAnswer q;
     questionContainer := questionContainer q; optionsContainer := optionsContainer q |}.

Definition set_currentSelectedAnswer (v : value) (q : quiz_question) : quiz_question :=
  {| currentQuestion := currentQuestion q; currentSelectedAnswer := v;
     questionContainer := questionContainer q; optionsContainer := optionsContainer q |}.

Definition set_questionContainer (s : string) (q : quiz_question) : quiz_question :=
  {| currentQuestion := currentQuestion q;
     currentSelectedAnswer := currentSelectedAnswer q;
     questionContainer := s; optionsContainer := optionsContainer q |}.

Definition set_optionsContainer (o : options) (q : quiz_question) : quiz_question :=
  {| currentQuestion := currentQuestion q;
     currentSelectedAnswer := currentSelectedAnswer q;
     questionContainer := questionContainer q; optionsContainer := o |}.

Definition constructor : M unit :=
  modify (set_question (fun _ =>
    {| currentQuestion := Null; currentSelectedAnswer := Undefined;
       questionContainer := ""; optionsContainer := NoOptions |})).

Definition render : M unit :=
  modify (set_question (set_questionContainer ""));;
  modify (set_question (set_optionsContainer NoOptions)).

(** The test of [setQuestion] on [question.alternatives]. *)
Definition choice_mode (alternatives : value) : bool :=
  truthy alternatives
  && match typeof alternatives with TObject => true | _ => false end
  && (2 <=? length (entries alternatives))%nat
  && (length (entries alternatives) <=? 10)%nat.

Definition setQuestion (question : value) : M unit :=
  if negb (truthy question) then mret tt
  else
    modify (set_question (set_currentQuestion question));;
    modify (set_question (set_questionContainer
      ("<p>" +:+ ToString (prop question "question") +:+ "</p>")));;
    modify (set_question (set_optionsContainer NoOptions));;
    let alternatives := prop question "alternatives" in
    if choice_mode alternatives then
      modify (set_question (set_optionsContainer (ChoiceForm (entries alternatives) None)))
    else
      modify (set_question (set_optionsContainer (TextInput ""))).

(** The element an answer event comes from. *)
Inductive target : Type :=
| Radio
| Input.

(** The listeners of [answer-selected] are those of the application; they
    are passed in. The test [selectedRadio === 'radio'] compares an
    element with a string, so it fails. *)
Definition handleAnswerClick (event : option target)
    (listeners : value -> list (M unit)) : M unit :=
  match event with
  | None => mret tt
  | Some _ =>
      q ← gets question;
      alternatives ← get_prop (currentQuestion q) "alternatives";
      selectedAnswer ←
        (if truthy alternatives then
           match optionsContainer q with
           | ChoiceForm _ (Some key) => mret (Str key)
           | _ => mret Null
           end
         else
           match optionsContainer q with
           | TextInput text => mret (Str (trim text))
           | _ => throw TypeError
           end);
      modify (set_question (set_currentSelectedAnswer selectedAnswer));;
      dispatchEvent (AnswerSelected selectedAnswer) (listeners selectedAnswer)
  end.

(** The user types in the text field. *)
Definition type (text : string) : M unit :=
  modify (set_question (fun q =>
    match optionsContainer q with
    | TextInput _ => set_optionsContainer (TextInput text) q
    | _ => q
    end)).

(** The user checks the radio button of an alternative. *)
Definition check (key : string) : M unit :=
  modify (set_question (fun q =>
    match optionsContainer q with
    | ChoiceForm radios _ =>
        if existsb (fun r => String.eqb (fst r) key) radios
        then set_optionsContainer (ChoiceForm radios (Some key)) q
        else q
    | _ => q
    end)).

(** A click on [Submit Answer]. *)
Definition click (listeners : value -> list (M unit)) : M unit :=
  q ← gets question;
  match optionsContainer q with
  | ChoiceForm _ (Some _) => handleAnswerClick (Some Radio) listeners
  | ChoiceForm _ None => mret tt
  | TextInput _ => handleAnswerClick (Some Input) listeners
  | NoOptions => mret tt
  end.

(** A key pressed in the answer control. The text field has the
    [keydown] listener of [setQuestion]. The radio buttons have none, but
    they are in a form whose button is its submit button: Enter there
    submits the form, which the browser does by a click on that button. *)
Definition keydown (key : string) (listeners : value -> list (M unit)) : M unit :=
  q ← gets question;
  match optionsContainer q with
  | TextInput _ =>
      if String.eqb key "Enter" then handleAnswerClick (Some Input) listeners
      else mret tt
  | ChoiceForm _ _ =>
      if String.eqb key "Enter" then click listeners else mret tt
  | NoOptions => mret tt
  end.

(** [connectedCallback] renders and listens on [window] to
    [set-question] ([setQuestion]). *)
Definition connectedCallback : M unit := render.

(** [question && typeof question.question === 'string' && question.nextURL]:
    the value of the last operand that was evaluated. *)
Definition validateQuestionFormat (question : value) : value :=
  if truthy question then
    if match typeof (prop question "question") with TString => true | _ => false end
    then prop question "nextURL"
    else Bool false
  else question.

(** [handleTextAnswer]: the listeners of [answer-selected] are passed in. *)
Definition handleTextAnswer (listeners : value -> list (M unit)) : M unit :=
  q ← gets question;
  match optionsContainer q with
  | TextInput text =>
      let userAnswer := trim text in
      if String.eqb userAnswer "" then mret tt
      else dispatchEvent (AnswerSelected (Str userAnswer)) (listeners (Str userAnswer))
  | _ => mret tt
  end.

End QuizQuestion.

(* ================================================================== *)
(** * nickname-form.js *)
(* ================================================================== *)

Module NicknameForm.

Definition render : M unit := modify (set_form (fun _ => {| input := "" |})).

Definition connectedCallback : M unit := render.

(** The user types in the field. *)
Definition type (text : string) : M unit :=
  modify (set_form (fun _ => {| input := text |})).

(** The [submit] listener. The listeners of [nickname] are those of the
    application; they are passed in. *)
Definition submit (listeners : string -> list (M unit)) : M unit :=
  f ← gets form;
  let nickname := trim (input f) in
  if truthy (Str nickname) then dispatchEvent (Nickname nickname) (listeners nickname)
  else mret tt.

End NicknameForm.

(* ================================================================== *)
(** * high-score.js *)
(* ================================================================== *)

Module HighScore.

Definition set_scores (v : value) (b : high_score) : high_score :=
  {| scores := v; items := items b; listening := listening b |}.

Definition set_items (l : list (string * string)) (b : high_score) : high_score :=
  {| scores := scores b; items := l; listening := listening b |}.

Definition set_listening (x : bool) (b : high_score) : high_score :=
  {| scores := scores b; items := items b; listening := x |}.

(** The constructor sets [this.score], a field nothing reads;
    [this.scores] is undefined until [connectedCallback]. *)
Definition constructor : M unit :=
  modify (set_board (fun _ => {| scores := Undefined; items := []; listening := false |})).

(** The filter of [render]:
    [entry && typeof entry.score === 'number' && !isNaN(entry.score)]. *)
Definition has_score (entry : value) : bool :=
  truthy entry
  && match prop entry "score" with
     | Num n => negb (isNaN n)
     | _ => false
     end.

(** The comparison [(a, b) => a.score - b.score]. *)
Definition by_score (a b : value) : num :=
  nsub (ToNumber (prop a "score")) (ToNumber (prop b "score")).

(** [topFiveScores] of [render]. *)
Definition topFiveScores (scores : list value) : list value :=
  take 5 (sort by_score (filter (fun entry => has_score entry = true) scores)).

(** A line of the list: [`${index + 1}. ${entry.nickname}`] and
    [`${entry.score}`]. *)
Definition line (index : nat) (entry : value) : string * string :=
  (ToString (Num (Int (Z.of_nat index + 1))) +:+ ". " +:+ ToString (prop entry "nickname"),
   ToString (prop entry "score")).

(** [this.scores.filter] is not a function unless [this.scores] is an
    array. *)
Definition render : M unit :=
  s ← read_highScores;
  modify (set_board (set_scores s));;
  match s with
  | Arr l => modify (set_board (set_items (imap line (topFiveScores l))))
  | _ => throw TypeError
  end.

(** The callback of [find] and [findIndex]:
    [score.nickname === nickname && score.score === score]. *)
Definition same_entry (nickname score entry : value) : outcome bool :=
  if is_nullish entry then Throw TypeError
  else Ret (strict_eq (prop entry "nickname") nickname
            && strict_eq (prop entry "score") score).

(** The listener of [high-score] on [window]. *)
Definition on_high_score (nickname score : value) : M unit :=
  b ← gets board;
  match scores b with
  | Arr l =>
      existingEntry ← lift (find (same_entry nickname score) l);
      if negb (match existingEntry with
               | Some (_, entry) => truthy entry
               | None => false
               end)
      then
        modify (set_board (set_scores
          (Arr (l ++ [Obj [("nickname", nickname); ("score", score)]]))));;
        b ← gets board;
        setItem "highScores" (JSON_stringify (scores b));;
        render
      else mret tt
  | _ => throw TypeError
  end.

Definition connectedCallback : M unit :=
  s ← read_highScores;
  modify (set_board (set_scores s));;
  modify (set_board (set_scores (Arr [])));;
  render;;
  modify (set_board (set_listening true)).

(** The listeners of [high-score] on [window], for a board in state [b]. *)
Definition high_score_listeners (b : high_score) (nickname score : value)
  : list (M unit) :=
  if listening b then [on_high_score nickname score] else [].

(** [tryAgain]: the listeners of [try-again] are [restartQuiz] of the
    application, passed in, then [resetAll] of the timer on [window]. *)
Definition tryAgain (restartQuiz : M unit) : M unit :=
  dispatchEvent TryAgain [restartQuiz; CountdownTimer.resetAll].

End HighScore.

(* ================================================================== *)
(** * quiz-application.js *)
(* ================================================================== *)

Module QuizApplication.

Definition set_score (v : value) (a : quiz_application) : quiz_application :=
  {| score := v; highScores := highScores a; allowTimeoutAction := allowTimeoutAction a;
     nickname := nickname a; totalTime := totalTime a;
     app_currentQuestion := app_currentQuestion a;
     currentQuestionIndex := currentQuestionIndex a; highScoreShown := highScoreShown a;
     form_hidden := form_hidden a; question_hidden := question_hidden a;
     timer_hidden := timer_hidden a; board_hidden := board_hidden a |}.

Definition set_nickname (v : value) (a : quiz_application) : quiz_application :=
  {| score := score a; highScores := highScores a;
     allowTimeoutAction := allowTimeoutAction a;
     nickname := v; totalTime := totalTime a;
     app_currentQuestion := app_currentQuestion a;
     currentQuestionIndex := currentQuestionIndex a; highScoreShown := highScoreShown a;
     form_hidden := form_hidden a; question_hidden := question_hidden a;
     timer_hidden := timer_hidden a; board_hidden := board_hidden a |}.

Definition set_totalTime (v : value) (a : quiz_application) : quiz_application :=
  {| score := score a; highScores := highScores a;
     allowTimeoutAction := allowTimeoutAction a;
     nickname := nickname a; totalTime := v;
     app_currentQuestion := app_currentQuestion a;
     currentQuestionIndex := currentQuestionIndex a; highScoreShown := highScoreShown a;
     form_hidden := form_hidden a; question_hidden := question_hidden a;
     timer_hidden := timer_hidden a; board_hidden := board_hidden a |}.

Definition set_currentQuestion (v : value) (a : quiz_application) : quiz_application :=
  {| score := score a; highScores := highScores a;
     allowTimeoutAction := allowTimeoutAction a;
     nickname := nickname a; totalTime := totalTime a;
     app_currentQuestion := v;
     currentQuestionIndex := currentQuestionIndex a; highScoreShown := highScoreShown a;
     form_hidden := form_hidden a; question_hidden := question_hidden a;
     timer_hidden := timer_hidden a; board_hidden := board_hidden a |}.

Definition set_currentQuestionIndex (v : value) (a : quiz_application)
  : quiz_application :=
  {| score := score a; highScores := highScores a;
     allowTimeoutAction := allowTimeoutAction a;
     nickname := nickname a; totalTime := totalTime a;
     app_currentQuestion := app_currentQuestion a;
     currentQuestionIndex := v; highScoreShown := highScoreShown a;
     form_hidden := form_hidden a; question_hidden := question_hidden a;
     timer_hidden := timer_hidden a; board_hidden := board_hidden a |}.

Definition set_highScoreShown (x : bool) (a : quiz_application) : quiz_application :=
  {| score := score a; highScores := highScores a;
     allowTimeoutAction := allowTimeoutAction a;
     nickname := nickname a; totalTime := totalTime a;
     app_currentQuestion := app_currentQuestion a;
     currentQuestionIndex := currentQuestionIndex a; highScoreShown := x;
     form_hidden := form_hidden a; question_hidden := question_hidden a;
     timer_hidden := timer_hidden a; board_hidden := board_hidden a |}.

(** [classList.add('hidden')] and [classList.remove('hidden')] on the four
    children. *)
Definition set_form_hidden (x : bool) (a : quiz_application) : quiz_application :=
  {| score := score a; highScores := highScores a;
     allowTimeoutAction := allowTimeoutAction a;
     nickname := nickname a; totalTime := totalTime a;
     app_currentQuestion := app_currentQuestion a;
     currentQuestionIndex := currentQuestionIndex a; highScoreShown := highScoreShown a;
     form_hidden := x; question_hidden := question_hidden a;
     timer_hidden := timer_hidden a; board_hidden := board_hidden a |}.

Definition set_question_hidden (x : bool) (a : quiz_application) : quiz_application :=
  {| score := score a; highScores := highScores a;
     allowTimeoutAction := allowTimeoutAction a;
     nickname := nickname a; totalTime := totalTime a;
     app_currentQuestion := app_currentQuestion a;
     currentQuestionIndex := currentQuestionIndex a; highScoreShown := highScoreShown a;
     form_hidden := form_hidden a; question_hidden := x;
     timer_hidden := timer_hidden a; board_hidden := board_hidden a |}.

Definition set_timer_hidden (x : bool) (a : quiz_application) : quiz_application :=
  {| score := score a; highScores := highScores a;
     allowTimeoutAction := allowTimeoutAction a;
     nickname := nickname a; totalTime := totalTime a;
     app_currentQuestion := app_currentQuestion a;
     currentQuestionIndex := currentQuestionIndex a; highScoreShown := highScoreShown a;
     form_hidden := form_hidden a; question_hidden := question_hidden a;
     timer_hidden := x; board_hidden := board_hidden a |}.

Definition set_board_hidden (x : bool) (a : quiz_application) : quiz_application :=
  {| score := score a; highScores := highScores a;
     allowTimeoutAction := allowTimeoutAction a;
     nickname := nickname a; totalTime := totalTime a;
     app_currentQuestion := app_currentQuestion a;
     currentQuestionIndex := currentQuestionIndex a; highScoreShown := highScoreShown a;
     form_hidden := form_hidden a; question_hidden := question_hidden a;
     timer_hidden := timer_hidden a; board_hidden := x |}.

Definition constructor : M unit :=
  modify (set_app (fun _ =>
    {| score := Undefined; highScores := Undefined; allowTimeoutAction := false;
       nickname := Undefined; totalTime := Undefined; app_currentQuestion := Undefined;
       currentQuestionIndex := Undefined; highScoreShown := false;
       form_hidden := false; question_hidden := false; timer_hidden := false;
       board_hidden := false |}));;
  modify (set_app (set_score (Num (Int 0))));;
  s ← read_highScores;
  modify (set_app (fun a =>
    {| score := score a; highScores := s; allowTimeoutAction := true;
       nickname := nickname a; totalTime := totalTime a;
       app_currentQuestion := app_currentQuestion a;
       currentQuestionIndex := currentQuestionIndex a;
       highScoreShown := highScoreShown a;
       form_hidden := form_hidden a; question_hidden := question_hidden a;
       timer_hidden := timer_hidden a; board_hidden := board_hidden a |})).

(** [render] creates the four children, in this order; an error in one
    of them is reported and the others go on. *)
Definition render : M unit :=
  run_listeners
    [NicknameForm.connectedCallback;
     QuizQuestion.constructor;; QuizQuestion.connectedCallback;
     CountdownTimer.constructor;; CountdownTimer.connectedCallback;
     HighScore.constructor;; HighScore.connectedCallback].

(** [initializeComponents], without its listeners, which are the
    definitions [on_nickname], [on_timeout], [on_answer_selected] and
    [on_quiz_completed] below. *)
Definition initializeComponents : M unit :=
  modify (set_app (set_board_hidden true));;
  modify (set_app (set_timer_hidden true)).

Definition connectedCallback : M unit :=
  render;;
  initializeComponents.

(** The listeners of [set-question] on [window], in the order the
    children were connected. *)
Definition set_question_listeners (question duration : value) : list (M unit) :=
  [QuizQuestion.setQuestion question; CountdownTimer.startTimer duration].

Definition showHighScore (accumulatedTime : value) : M unit :=
  a ← gets app;
  if highScoreShown a then mret tt
  else
    dispatchEvent StopTimer [CountdownTimer.stopTimer];;
    modify (set_app (set_highScoreShown true));;
    modify (set_app (set_question_hidden true));;
    modify (set_app (set_timer_hidden true));;
    modify (set_app (set_form_hidden true));;
    let newHighScore := Obj [("nickname", nickname a); ("score", accumulatedTime)] in
    highScores ← read_highScores;
    trimmed ←
      match nickname a with
      | Str s => mret (trim s)
      | _ => throw TypeError
      end;
    (if negb (String.eqb trimmed "") then
       l ← match highScores with
            | Arr l => mret l
            | _ => throw TypeError
            end;
       existingEntryIndex ←
         lift (find (HighScore.same_entry (nickname a) accumulatedTime) l);
       match existingEntryIndex with
       | None =>
           let highScores := sort HighScore.by_score (l ++ [newHighScore]) in
           setItem "highScores" (JSON_stringify (Arr highScores));;
           b ← gets board;
           dispatchEvent (HighScoreEvent (nickname a) accumulatedTime)
             (HighScore.high_score_listeners b (nickname a) accumulatedTime)
       | Some _ => mret tt
       end
     else mret tt);;
    modify (set_app (set_board_hidden false)).

(** [fetchQuestions] up to its [await]. *)
Definition fetchQuestions (url : value) : M unit :=
  fetch (GET url).

(** [fetchQuestions] from the response on. *)
Definition fetchQuestions_resume (r : response) : M unit :=
  try_catch
    (data ← json r;
     modify (set_app (set_currentQuestion data));;
     limit ← get_prop data "limit";
     let duration := if truthy limit then Num (parseInt limit) else Num (Int 20) in
     dispatchEvent (SetQuestion data duration) (set_question_listeners data duration))
    console_error_exn.

(** [fetchNextQuestion] up to its [await]. *)
Definition fetchNextQuestion (url : value) : M unit :=
  fetch (GET url).

(** [fetchNextQuestion] from the response on. *)
Definition fetchNextQuestion_resume (r : response) : M unit :=
  try_catch
    (data ← json r;
     modify (set_app (set_currentQuestion data));;
     limit ← get_prop data "limit";
     let duration :=
       if truthy (Num (parseInt limit)) then Num (parseInt limit) else Num (Int 20) in
     if truthy data then
       dispatchEvent (SetQuestion data duration) (set_question_listeners data duration)
     else mret tt)
    (fun e =>
       console_error_exn e;;
       a ← gets app;
       showHighScore (totalTime a)).

(** [submitAnswer] up to its first [await]. *)
Definition submitAnswer (answer : value) : M unit :=
  try_catch
    (a ← gets app;
     nextURL ← get_prop (app_currentQuestion a) "nextURL";
     fetch (POST nextURL (JSON_stringify (Obj [("answer", answer)]))))
    console_error_exn.

(** [submitAnswer] from the response to its request on, up to the
    [await] of [fetchNextQuestion]. *)
Definition submitAnswer_resume (r : response) : M unit :=
  try_catch
    (data ← json r;
     if truthy data && truthy (prop data "nextURL") then
       try_catch (fetchNextQuestion (prop data "nextURL")) console_error_exn
     else
       CountdownTimer.stopTimer;;
       t ← gets timer;
       showHighScore (Num (accumulatedTime t)))
    console_error_exn.

(** [submitAnswer] from the response to the request of
    [fetchNextQuestion] on: what [fetchNextQuestion] throws is caught by
    the inner [try] of [submitAnswer]. *)
Definition submitAnswer_next (r : response) : M unit :=
  try_catch (fetchNextQuestion_resume r) console_error_exn.

Definition restartQuiz : M unit :=
  dispatchEvent StopTimer [CountdownTimer.stopTimer];;
  CountdownTimer.resetAll;;
  modify (set_app (set_board_hidden true));;
  modify (set_app (set_currentQuestionIndex (Num (Int 0))));;
  modify (set_app (set_score (Num (Int 0))));;
  removeItem "quizScore";;
  removeItem "nickname";;
  modify (set_form (fun _ => {| input := "" |}));;
  modify (set_app (set_question_hidden true));;
  modify (set_app (set_timer_hidden true));;
  modify (set_app (set_form_hidden false));;
  modify (set_app (set_highScoreShown false)).

(** The listener of [nickname], up to the [await] of [fetchQuestions]. *)
Definition on_nickname (nickname : string) : M unit :=
  modify (set_app (set_form_hidden true));;
  modify (set_app (set_question_hidden false));;
  modify (set_app (set_timer_hidden false));;
  modify (set_app (set_nickname (Str nickname)));;
  setItem "nickname" nickname;;
  modify (set_app (set_score (Num (Int 0))));;
  fetchQuestions (Str "https://courselab.lnu.se/quiz/question/1").

(** The listener of [timeout]. *)
Definition on_timeout : M unit :=
  a ← gets app;
  if allowTimeoutAction a then
    t ← gets timer;
    showHighScore (Num (accumulatedTime t))
  else mret tt.

(** The listener of [answer-selected]. *)
Definition on_answer_selected (selectedAnswer : value) : M unit :=
  submitAnswer selectedAnswer.

(** The listener of [quiz-completed]. *)
Definition on_quiz_completed (accumulatedTime : value) : M unit :=
  showHighScore accumulatedTime.

(** The listener of [total-time-spent]. *)
Definition on_total_time_spent (accumulatedTime : num) : M unit :=
  modify (set_app (set_totalTime (Num accumulatedTime)));;
  a ← gets app;
  showHighScore (totalTime a).

(** The listener of [try-again]. *)
Definition on_try_again : M unit := restartQuiz.

Definition handleTimeout : M unit :=
  CountdownTimer.stopTimer;;
  t ← gets timer;
  let accumulatedTime :=
    if truthy (Num (accumulatedTime t)) then accumulatedTime t else accumulatedTime t in
  console_log ("Timeout occurred. Total Time Spent: " +:+ ToString (Num accumulatedTime));;
  t ← gets timer;
  showHighScore (Num (Page.accumulatedTime t)).

End QuizApplication.

(* ================================================================== *)
(** * The page at work: what the browser and the user do *)
(* ================================================================== *)

Module Browser.

Definition empty_world (storage : gmap string string) : world :=
  {| app := {| score := Undefined; highScores := Undefined; allowTimeoutAction := false;
               nickname := Undefined; totalTime := Undefined;
               app_currentQuestion := Undefined; currentQuestionIndex := Undefined;
               highScoreShown := false; form_hidden := false; question_hidden := false;
               timer_hidden := false; board_hidden := false |};
     timer := {| timeLeft := Int 0; intervalId := None; totalTimeSpent := Int 0;
                 accumulatedTime := Int 0; display := None |};
     question := {| currentQuestion := Null; currentSelectedAnswer := Undefined;
                    questionContainer := ""; optionsContainer := NoOptions |};
     form := {| input := "" |};
     board := {| scores := Undefined; items := []; listening := false |};
     localStorage := storage;
     console := [];
     events := [];
     requests := [];
     intervals := 1%positive |}.

(** The page is loaded: [<quiz-application>] is created and connected. *)
Definition load_page : M unit :=
  QuizApplication.constructor;;
  QuizApplication.connectedCallback.

(** A second passes. *)
Definition tick : M unit :=
  CountdownTimer.tick (fun acc => [QuizApplication.on_total_time_spent acc]).

(** The user submits the nickname form. *)
Definition submit_nickname : M unit :=
  NicknameForm.submit (fun n => [QuizApplication.on_nickname n]).

(** The user clicks [Submit Answer]. *)
Definition click_submit : M unit :=
  QuizQuestion.click (fun a => [QuizApplication.on_answer_selected a]).

(** The user presses a key in the answer control. *)
Definition press (key : string) : M unit :=
  QuizQuestion.keydown key (fun a => [QuizApplication.on_answer_selected a]).

(** The user clicks [Try Again]. *)
Definition click_try_again : M unit :=
  HighScore.tryAgain QuizApplication.on_try_again.

(** Several computations in a row, as long as none throws. *)
Fixpoint seq (l : list (M unit)) : M unit :=
  match l with
  | [] => mret tt
  | m :: r => m;; seq r
  end.

(** [n] seconds pass, with the given listeners of [total-time-spent]. *)
Definition ticks (listeners : num -> list (M unit)) (n : nat) : M unit :=
  seq (repeat (CountdownTimer.tick listeners) n).

(** What can happen to the page once it is loaded: the user acts, a second
    passes, a response arrives, one of the completion events is
    dispatched. *)
Inductive action : Type :=
| Second
| TypeNickname (text : string)
| SubmitNickname
| TypeAnswer (text : string)
| CheckAnswer (key : string)
| ClickSubmit
| Press (key : string)
| ClickTryAgain
| QuestionArrives (r : response)
| AnswerJudged (r : response)
| NextQuestionArrives (r : response)
| Timeout
| QuizCompleted (accumulatedTime : value).

(** The handler of an action; what it throws is reported to the console. *)
Definition run (a : action) : M unit :=
  listener
    match a with
    | Second => tick
    | TypeNickname text => NicknameForm.type text
    | SubmitNickname => submit_nickname
    | TypeAnswer text => QuizQuestion.type text
    | CheckAnswer key => QuizQuestion.check key
    | ClickSubmit => click_submit
    | Press key => press key
    | ClickTryAgain => click_try_again
    | QuestionArrives r => QuizApplication.fetchQuestions_resume r
    | AnswerJudged r => QuizApplication.submitAnswer_resume r
    | NextQuestionArrives r => QuizApplication.submitAnswer_next r
    | Timeout => QuizApplication.on_timeout
    | QuizCompleted accumulatedTime => QuizApplication.on_quiz_completed accumulatedTime
    end.

Definition is_restart (a : action) : bool :=
  match a with ClickTryAgain => true | _ => false end.

End Browser.

(* ================================================================== *)
(** * The vocabulary of the specification *)
(* ================================================================== *)

Module Spec.

(** A high-score entry [{nickname, score}] with a score in seconds. *)
Definition entry_value (e : string * Z) : value :=
  Obj [("nickname", Str (fst e)); ("score", Num (Int (snd e)))].

(** A high-score history, as the array the program keeps. *)
Definition history (h : list (string * Z)) : value := Arr (map entry_value h).

(** Recording a result: appended unless the same pair is there. *)
Definition record (e : string * Z) (h : list (string * Z)) : list (string * Z) :=
  if decide (e ∈ h) then h else h ++ [e].

(** The history [h] is the persisted one: it is under the key
    [highScores] (or the key is absent and [h] is empty), and the board
    holds it and listens. *)
Definition persisted (w : world) (h : list (string * Z)) : Prop :=
  (localStorage w !! "highScores" = Some (JSON_stringify (history h))
   \/ (localStorage w !! "highScores" = None /\ h = []))
  /\ scores (board w) = history h
  /\ listening (board w) = true.

(** [a <= b] on numbers; [NaN] is below and above nothing. *)
Definition num_leb (a b : num) : bool :=
  match a, b with
  | NaN, _ | _, NaN => false
  | NInf, _ | _, PInf => true
  | PInf, _ | _, NInf => false
  | _, _ =>
      match decimal a, decimal b with
      | Some (ma, ea), Some (mb, eb) =>
          ma * 10 ^ Z.of_nat eb <=? mb * 10 ^ Z.of_nat ea
      | _, _ => false
      end
  end.

Definition score_of (entry : value) : num := ToNumber (prop entry "score").

(** Ascending by score. *)
Definition score_le (a b : value) : Prop :=
  num_leb (score_of a) (score_of b) = true.

(** The error of a response that cannot be read as JSON: [fetch]
    rejected, or the body is not JSON text. *)
Definition failure (r : response) : option error :=
  match r with
  | NetworkError => Some TypeError
  | Body text =>
      match JSON_parse (Str text) with
      | Throw e => Some e
      | Ret _ => None
      end
  end.

(** A JSON string literal, and the JSON text of an entry whose score is
    written [score]. *)
Definition lit (s : string) : string := string_of_list_ascii (quote s).

Definition entry_text (nickname score : string) : string :=
  "{" +:+ lit "nickname" +:+ ":" +:+ lit nickname +:+ ","
      +:+ lit "score" +:+ ":" +:+ score +:+ "}".

(** The JSON text of a question, with its limit written [limit]. *)
Definition question_text (question nextURL limit : string) : string :=
  "{" +:+ lit "question" +:+ ":" +:+ lit question +:+ ","
      +:+ lit "nextURL" +:+ ":" +:+ lit nextURL +:+ ","
      +:+ lit "limit" +:+ ":" +:+ limit +:+ "}".

(** The JSON text of the answer of the server that names the next
    question. *)
Definition next_text (nextURL : string) : string :=
  "{" +:+ lit "nextURL" +:+ ":" +:+ lit nextURL +:+ "}".

(** Integers that a double holds exactly. *)
Definition safe (z : Z) : Prop := Z.abs z < 2 ^ 53.

(** The scores of a history are such integers. *)
Definition safe_scores (h : list (string * Z)) : Prop :=
  Forall (fun e => safe (snd e)) h.

(** The JSON text of an entry. *)
Definition entry_chars (e : string * Z) : list ascii :=
  "{"%char :: quote "nickname" ++ ":"%char :: quote (fst e) ++ ","%char
    :: quote "score" ++ ":"%char :: num_text (Int (snd e)) ++ ["}"%char].

(** What the broadcast of question [q] with duration [d] leaves. *)
Definition broadcast (w w' : world) (q : value) (d : Z) : Prop :=
  events w' = events w ++ [SetQuestion q (Num (Int d))]
  /\ timeLeft (timer w') = Int d
  /\ intervalId (timer w') <> None
  /\ currentQuestion (question w') = q
  /\ app_currentQuestion (app w') = q.

(** [m] keeps [P]: from a world where [P] holds, [m] leaves one where it
    holds, whether it returns or throws. *)
Definition preserves {A} (P : world -> Prop) (m : M A) : Prop :=
  forall w, P w -> P (exec m w).

(** The timer counts down: [n] seconds left, [k] spent on this question,
    [a] accumulated, and the events [ev] so far. *)
Definition counting (w : world) (n k a : Z) (ev : list event) : Prop :=
  intervalId (timer w) <> None /\ timeLeft (timer w) = Int n /\
  totalTimeSpent (timer w) = Int k /\ accumulatedTime (timer w) = Int a /\
  events w = ev.

(** What the completion handling writes: the persisted history, the
    board, and whether the board is shown. *)
Definition completion_state (w : world) : option string * high_score * bool :=
  (localStorage w !! "highScores", board w, board_hidden (app w)).

(** The session is completed, with [x] as what completion left. *)
Definition completed_as (x : option string * high_score * bool) (w : world) : Prop :=
  highScoreShown (app w) = true /\ completion_state w = x.

(** The display shows the time left, as [updateDisplay] writes it. *)
Definition shows_time_left (w : world) : Prop :=
  display (timer w)
  = Some ("Time Left: " +:+ ToString (Num (timeLeft (timer w))) +:+ " s").

(** The timer is stopped. *)
Definition stopped (w : world) : Prop := intervalId (timer w) = None.

(** The answer of the server names no next question. *)
Definition names_no_next (data : value) : Prop :=
  truthy data && truthy (prop data "nextURL") = false.

(** A text does not begin with white space; [no_space_after] says the
    same of the reversed text, that is, it does not end with white
    space. *)
Definition no_space_before (s : list ascii) : Prop :=
  match s with
  | [] => True
  | c1 :: r1 =>
      ws1 c1 = false /\
      match r1 with
      | [] => True
      | c2 :: r2 =>
          ws2 c1 c2 = false /\
          match r2 with
          | [] => True
          | c3 :: _ => ws3 c1 c2 c3 = false
          end
      end
  end.

Definition no_space_after (s : list ascii) : Prop :=
  match s with
  | [] => True
  | c1 :: r1 =>
      ws1 c1 = false /\
      match r1 with
      | [] => True
      | c2 :: r2 =>
          ws2 c2 c1 = false /\
          match r2 with
          | [] => True
          | c3 :: _ => ws3 c3 c2 c1 = false
          end
      end
  end.

(** A session of [n] is under way over the history [h]: the history is
    the persisted one, the application holds the nickname, and the
    session is not completed. *)
Definition in_session (w : world) (h : list (string * Z)) (n : string) : Prop :=
  persisted w h /\ nickname (app w) = Str n /\ highScoreShown (app w) = false.

(** What a second of a running countdown leaves alone. *)
Definition frame_of (w : world) : quiz_application * high_score * gmap string string :=
  (app w, board w, localStorage w).

(** The form, the question and the timer are hidden. *)
Definition others_hidden (w : world) : Prop :=
  form_hidden (app w) = true /\ question_hidden (app w) = true
  /\ timer_hidden (app w) = true.

(** The events so far are [pre] and then none that is
    [total-time-spent]. *)
Definition fired_once (pre : list event) (w : world) : Prop :=
  exists rest,
    events w = pre ++ rest /\ Forall (fun e => forall t, e <> TotalTimeSpent t) rest.

End Spec.

Import Spec.

(* ================================================================== *)
(** * Sessions used as examples *)
(* ================================================================== *)

Module Scenario.

Import Browser.

(** Ada has given her nickname and the first question, a free-text one
    with a limit of ten seconds, is on the page. *)
Definition playing : world :=
  exec (seq [load_page;
             NicknameForm.type "Ada";
             submit_nickname;
             QuizApplication.fetchQuestions_resume
               (Body (question_text "2+2?" "/q/2" "10"))])
    (empty_world ∅).

(** Three seconds later she has answered, the server has named the next
    question, and the request for it is under way. *)
Definition answered : world :=
  exec (seq [tick; tick; tick;
             QuizQuestion.type "4";
             click_submit;
             QuizApplication.submitAnswer_resume (Body (next_text "/q/3"))])
    playing.

(** She did not answer: the ten seconds have run out and the session is
    completed. *)
Definition timed_out : world :=
  exec (ticks (fun acc => [QuizApplication.on_total_time_spent acc]) 11) playing.

End Scenario.

Import Browser.

(* ================================================================== *)
(** * Computations: equations and invariants *)
(* ================================================================== *)

Lemma exec_bind {A B} (m : M A) (k : A -> M B) w :
  exec (m ≫= k) w =
    match result m w with
    | Ret a => exec (k a) (exec m w)
    | Throw _ => exec m w
    end.
Proof.
  unfold exec, result, mbind, M_bind, bind. destruct (m w) as [[a|e] w']; reflexivity.
Qed.
Lemma result_bind {A B} (m : M A) (k : A -> M B) w :
  result (m ≫= k) w =
    match result m w with
    | Ret a => result (k a) (exec m w)
    | Throw e => Throw e
    end.
Proof.
  unfold exec, result, mbind, M_bind, bind. destruct (m w) as [[a|e] w']; reflexivity.
Qed.

(** ** Invariants of computations *)


Section Preserves.
Variable P : world -> Prop.

Lemma preserves_ret {A} (a : A) : preserves P (mret a).
Proof. intros w H. exact H. Qed.

Lemma preserves_throw {A} e : preserves P (@throw A e).
Proof. intros w H. exact H. Qed.

Lemma preserves_gets {A} (f : world -> A) : preserves P (gets f).
Proof. intros w H. exact H. Qed.

Lemma preserves_lift {A} (o : outcome A) : preserves P (lift o).
Proof. intros w H. exact H. Qed.

Lemma preserves_modify f : (forall w, P w -> P (f w)) -> preserves P (modify f).
Proof. intros Hf w H. apply Hf, H. Qed.

Lemma preserves_bind {A B} (m : M A) (k : A -> M B) :
  preserves P m -> (forall a, preserves P (k a)) -> preserves P (m ≫= k).
Proof.
  intros Hm Hk w H. specialize (Hm w H). specialize (Hk) .
  unfold exec, mbind, M_bind, bind in *.
  destruct (m w) as [[a|e] w']; cbn in *; [apply (Hk a), Hm | exact Hm].
Qed.

Lemma preserves_try_catch {A} (m : M A) handler :
  preserves P m -> (forall e, preserves P (handler e)) -> preserves P (try_catch m handler).
Proof.
  intros Hm Hh w H. specialize (Hm w H).
  unfold exec, try_catch in *.
  destruct (m w) as [[a|e] w']; cbn in *; [exact Hm | apply (Hh e), Hm].
Qed.

Hypothesis console_free : forall f w, P w -> P (set_console f w).

Lemma preserves_listener m : preserves P m -> preserves P (listener m).
Proof.
  intros Hm. apply preserves_try_catch; [exact Hm|].
  intros e. apply preserves_modify. intros w. apply console_free.
Qed.

Lemma preserves_run_listeners l :
  Forall (preserves P) l -> preserves P (run_listeners l).
Proof.
  induction 1 as [|m l Hm Hl IH]; cbn [run_listeners].
  - apply (preserves_ret tt).
  - apply (preserves_bind (listener m)); [apply preserves_listener, Hm | intros _; exact IH].
Qed.

Hypothesis events_free : forall f w, P w -> P (set_events f w).

Lemma preserves_dispatchEvent e l :
  Forall (preserves P) l -> preserves P (dispatchEvent e l).
Proof.
  intros Hl. apply (preserves_bind (modify _)).
  - apply preserves_modify. intros w. apply events_free.
  - intros _. apply preserves_run_listeners, Hl.
Qed.
End Preserves.


Lemma showHighScore_dropped acc w :
  highScoreShown (app w) = true -> QuizApplication.showHighScore acc w = (Ret tt, w).
Proof.
  intros H. unfold QuizApplication.showHighScore, mbind, M_bind, bind, gets. cbn.
  rewrite H. reflexivity.
Qed.

Lemma completed_showHighScore x acc :
  preserves (completed_as x) (QuizApplication.showHighScore acc).
Proof.
  intros w H. unfold exec. rewrite showHighScore_dropped by apply H. exact H.
Qed.

Lemma completed_setItem x k text :
  k <> "highScores" -> preserves (completed_as x) (setItem k text).
Proof.
  intros Hk w [Hg Hx]. split; [exact Hg|].
  unfold completion_state, exec, setItem, modify, set_localStorage in *. cbn [snd localStorage board app].
  rewrite lookup_insert_ne by exact Hk. exact Hx.
Qed.

Lemma completed_removeItem x k :
  k <> "highScores" -> preserves (completed_as x) (removeItem k).
Proof.
  intros Hk w [Hg Hx]. split; [exact Hg|].
  unfold completion_state, exec, removeItem, modify, set_localStorage in *. cbn [snd localStorage board app].
  rewrite lookup_delete_ne by exact Hk. exact Hx.
Qed.

Ltac head t :=
  lazymatch t with
  | ?f _ => head f
  | _ => t
  end.

Ltac each_listener :=
  cbv beta;
  try unfold QuizApplication.set_question_listeners;
  try unfold HighScore.high_score_listeners;
  lazymatch goal with
  | |- Forall _ (if ?c then _ else _) => destruct c; each_listener
  | |- Forall _ [] => constructor
  | |- Forall _ (_ :: _) => constructor; [|each_listener]
  end.

(** One step of a proof that a computation keeps an invariant; [special]
    closes the goals on the steps that the invariant depends on. *)
Ltac preserve_step special :=
  first
    [ special
    | lazymatch goal with
      | |- preserves _ (mbind _ _) => apply preserves_bind; [|intros ?]
      | |- preserves _ (mret _) => apply preserves_ret
      | |- preserves _ (ret _) => apply preserves_ret
      | |- preserves _ (throw _) => apply preserves_throw
      | |- preserves _ (gets _) => apply preserves_gets
      | |- preserves _ (lift _) => apply preserves_lift
      | |- preserves _ (modify _) =>
          apply preserves_modify; let w := fresh "w" in let H := fresh "H" in
          intros w H; first [exact H | reflexivity]
      | |- preserves _ (try_catch _ _) => apply preserves_try_catch; [|intros ?]
      | |- preserves _ (listener _) =>
          apply preserves_listener; [intros ? ? H; exact H|]
      | |- preserves _ (dispatchEvent _ _) =>
          apply preserves_dispatchEvent;
          [intros ? ? H; exact H | intros ? ? H; exact H
          | each_listener]
      | |- preserves _ (match ?x with _ => _ end) => destruct x
      | |- preserves _ ?m => let h := head m in unfold h
      end ].

Ltac completed_special :=
  lazymatch goal with
  | |- preserves _ (QuizApplication.showHighScore _) => apply completed_showHighScore
  | |- preserves _ (setItem _ _) => apply completed_setItem; discriminate
  | |- preserves _ (removeItem _) => apply completed_removeItem; discriminate
  end.

Lemma completed_run x a :
  is_restart a = false -> preserves (completed_as x) (run a).
Proof.
  intros Ha. destruct a; try discriminate Ha; unfold run;
    repeat preserve_step ltac:(idtac; completed_special).
Qed.

Lemma result_listener m w : result (listener m) w = Ret tt.
Proof.
  unfold result, listener, try_catch, modify. destruct (m w) as [[[]|e] w']; reflexivity.
Qed.

Lemma result_run_listeners l w : result (run_listeners l) w = Ret tt.
Proof.
  revert w. induction l as [|m l IH]; intros w; cbn [run_listeners]; [reflexivity|].
  unfold result, bind. pose proof (result_listener m w) as Hm. unfold result in Hm.
  destruct (listener m w) as [[[]|e] w']; cbn in Hm; [apply IH | discriminate].
Qed.

Lemma result_dispatchEvent e l w : result (dispatchEvent e l) w = Ret tt.
Proof. unfold dispatchEvent, result, bind, modify. apply result_run_listeners. Qed.

Ltac no_special := fail.

Lemma showHighScore_keeps_requests x acc :
  preserves (fun w => requests w = x) (QuizApplication.showHighScore acc).
Proof. repeat preserve_step ltac:(idtac; no_special). Qed.

Lemma showHighScore_sets_guard acc w :
  highScoreShown (app (exec (QuizApplication.showHighScore acc) w)) = true.
Proof.
  destruct (highScoreShown (app w)) eqn:Hg.
  - unfold exec. rewrite showHighScore_dropped by exact Hg. exact Hg.
  - unfold QuizApplication.showHighScore.
    rewrite exec_bind. cbn [result exec gets fst snd]. rewrite Hg.
    rewrite exec_bind, result_dispatchEvent.
    rewrite exec_bind. cbn [result modify fst].
    match goal with
    | |- highScoreShown (app (exec ?m ?w0)) = true =>
        enough (H : preserves (fun w => highScoreShown (app w) = true) m)
          by (apply (H w0); reflexivity)
    end.
    repeat preserve_step ltac:(idtac; no_special).
Qed.


(* ================================================================== *)
(** * The countdown timer *)
(* ================================================================== *)

Ltac run_timer :=
  cbv beta iota zeta delta
    [exec result mbind mret M_bind M_ret bind ret gets modify lift throw try_catch when
     console_log console_error console_error_exn
     CountdownTimer.stopTimer CountdownTimer.startTimer CountdownTimer.updateDisplay
     CountdownTimer.setInterval CountdownTimer.tick CountdownTimer.interval
     CountdownTimer.resetAll CountdownTimer.resetTotalTimeSpent
     CountdownTimer.resetAccumulatedTime CountdownTimer.dispatchTotalTimeSpentEvent
     fst snd];
  cbn.

(** What [resetAll] does, from any timer state: it stops the countdown and
    clears the seconds spent on the question and the accumulated time, both
    to zero; it never assigns the remaining time, and the display, when
    rendered, is rewritten with that unchanged remaining time. *)
Theorem resetAll_clears_elapsed_and_accumulated (w : world) :
  let w' := exec CountdownTimer.resetAll w in
  result CountdownTimer.resetAll w = Ret tt /\
  intervalId (timer w') = None /\
  totalTimeSpent (timer w') = Int 0 /\
  accumulatedTime (timer w') = Int 0 /\
  timeLeft (timer w') = timeLeft (timer w) /\
  display (timer w') =
    match display (timer w) with
    | Some _ => Some ("Time Left: " +:+ ToString (Num (timeLeft (timer w))) +:+ " s")
    | None => None
    end.
Proof.
  destruct w as [a [tl [id|] tts acc [d|]] q f b s c e r i]; cbn; auto 10.
Qed.

(** C2. The code at the failing input: three seconds into a countdown from
    ten, [resetAll] leaves seven seconds left and the display reads seven.
    The remaining time is not cleared to zero, as the claim says it is and
    as the doc comment of [resetAll] (all timer-related properties are
    reset) promises. *)
Lemma resetAll_keeps_timeLeft :
  let w := exec (seq [load_page; CountdownTimer.startTimer (Num (Int 10)); tick; tick; tick])
             (empty_world ∅) in
  timeLeft (timer w) = Int 7 /\
  timeLeft (timer (exec CountdownTimer.resetAll w)) = Int 7 /\
  timeLeft (timer (exec CountdownTimer.resetAll w)) <> Int 0 /\
  display (timer (exec CountdownTimer.resetAll w)) = Some "Time Left: 7 s".
Proof. vm_compute. repeat split; congruence. Qed.


Lemma startTimer_counting w d a k :
  accumulatedTime (timer w) = Int a -> totalTimeSpent (timer w) = Int k ->
  exists a' k', a' + k' = a + k /\
    counting (exec (CountdownTimer.startTimer (Num (Int d))) w) d k' a' (events w) /\
    result (CountdownTimer.startTimer (Num (Int d))) w = Ret tt.
Proof.
  destruct w as [ap [tl [id|] tts acc [dsp|]] q f b s c e r i]; cbn; intros -> ->;
    unfold counting; run_timer.
  1,2: exists (a + k), 0.
  3,4: exists a, k.
  all: repeat split; try congruence; lia.
Qed.

Lemma tick_counting listeners w n k a ev :
  counting w n k a ev -> 0 < n ->
  counting (exec (CountdownTimer.tick listeners) w) (n - 1) (k + 1) a ev /\
  result (CountdownTimer.tick listeners) w = Ret tt.
Proof.
  destruct w as [ap [tl [id|] tts acc [dsp|]] q f b s c e r i];
    unfold counting; cbn; intros (Hid & -> & -> & -> & ->) Hn; try congruence.
  all: run_timer; unfold gt0; cbn; destruct (Z.compare_spec n 0); try lia; run_timer.
  all: repeat split; congruence.
Qed.

Lemma exec_seq_cons m l w :
  exec (seq (m :: l)) w =
    match result m w with
    | Ret _ => exec (seq l) (exec m w)
    | Throw _ => exec m w
    end.
Proof. cbn [seq]. apply exec_bind. Qed.

Lemma ticks_counting listeners (j : nat) : forall w n k a ev,
  counting w n k a ev -> Z.of_nat j <= n ->
  counting (exec (ticks listeners j) w) (n - Z.of_nat j) (k + Z.of_nat j) a ev.
Proof.
  induction j as [|j IH]; intros w n k a ev Hc Hj.
  - replace (n - Z.of_nat 0) with n by lia. replace (k + Z.of_nat 0) with k by lia.
    exact Hc.
  - unfold ticks. cbn [repeat]. rewrite exec_seq_cons.
    destruct (tick_counting listeners w n k a ev Hc) as [Hc' ->]; [lia|].
    replace (n - Z.of_nat (S j)) with (n - 1 - Z.of_nat j) by lia.
    replace (k + Z.of_nat (S j)) with (k + 1 + Z.of_nat j) by lia.
    apply IH; [exact Hc' | lia].
Qed.

Lemma last_tick listeners w k a ev :
  counting w 0 k a ev ->
  let stopped :=
    set_events (fun l => l ++ [TotalTimeSpent (Int (a + k))])
      (exec CountdownTimer.stopTimer w) in
  CountdownTimer.tick listeners w = run_listeners (listeners (Int (a + k))) stopped /\
  intervalId (timer stopped) = None /\
  accumulatedTime (timer stopped) = Int (a + k) /\
  totalTimeSpent (timer stopped) = Int 0 /\
  events stopped = ev ++ [TotalTimeSpent (Int (a + k))].
Proof.
  destruct w as [ap [tl [id|] tts acc [dsp|]] q f b s c e r i];
    unfold counting; cbn; intros (Hid & -> & -> & -> & ->); try congruence.
  all: run_timer; auto.
Qed.

(** C8. For every duration [d > 0], from a timer with [a] seconds
    accumulated and [k] seconds spent: after [startTimer d] and [d] ticks
    the timer is still running at zero and nothing was emitted; at the next
    tick it stops itself and emits [total-time-spent] once, with the total
    [a + k + d], before its listeners run. *)
Theorem timer_runs_to_zero listeners (w : world) (d a k : Z) :
  0 < d ->
  accumulatedTime (timer w) = Int a ->
  totalTimeSpent (timer w) = Int k ->
  let started := exec (CountdownTimer.startTimer (Num (Int d))) w in
  let at_zero := exec (ticks listeners (Z.to_nat d)) started in
  let stopped :=
    set_events (fun l => l ++ [TotalTimeSpent (Int (a + k + d))])
      (exec CountdownTimer.stopTimer at_zero) in
  (intervalId (timer at_zero) <> None /\ timeLeft (timer at_zero) = Int 0 /\
   events at_zero = events w) /\
  CountdownTimer.tick listeners at_zero =
    run_listeners (listeners (Int (a + k + d))) stopped /\
  intervalId (timer stopped) = None /\
  accumulatedTime (timer stopped) = Int (a + k + d) /\
  events stopped = events w ++ [TotalTimeSpent (Int (a + k + d))].
Proof.
  intros Hd Ha Hk.
  destruct (startTimer_counting w d a k Ha Hk) as (a' & k' & Hsum & Hc & _).
  pose proof (ticks_counting listeners (Z.to_nat d) _ _ _ _ _ Hc ltac:(lia)) as Hz.
  rewrite Z2Nat.id in Hz by lia. replace (d - d) with 0 in Hz by lia.
  pose proof (last_tick listeners _ _ _ _ Hz) as Hl. cbn zeta in Hl.
  replace (a' + (k' + d)) with (a + k + d) in Hl by lia.
  destruct Hl as (Ht & Hi & Hacc & _ & Hev).
  destruct Hz as (Hid & Htl & _ & _ & Hevz).
  cbn zeta. repeat split; assumption.
Qed.

(** C8, witness: three seconds on a fresh page. *)
Lemma timer_runs_to_zero_witness :
  let w := exec load_page (empty_world ∅) in
  let at_zero :=
    exec (ticks (fun _ => []) 3) (exec (CountdownTimer.startTimer (Num (Int 3))) w) in
  let stopped :=
    set_events (fun l => l ++ [TotalTimeSpent (Int 3)])
      (exec CountdownTimer.stopTimer at_zero) in
  (intervalId (timer at_zero) <> None /\ timeLeft (timer at_zero) = Int 0 /\
   events at_zero = []) /\
  CountdownTimer.tick (fun _ => []) at_zero = (Ret tt, stopped) /\
  intervalId (timer stopped) = None /\
  accumulatedTime (timer stopped) = Int 3 /\
  events stopped = [TotalTimeSpent (Int 3)].
Proof.
  exact (timer_runs_to_zero (fun _ => []) (exec load_page (empty_world ∅)) 3 0 0
           ltac:(lia) eq_refl eq_refl).
Defined.

(* ================================================================== *)
(** * JSON: reading what was written *)
(* ================================================================== *)

Section RoundTrip.


Lemma parse_string_escape c rest :
  parse_string (escape c ++ rest)
  = match parse_string rest with
    | Some (t, r) => Some (c :: t, r)
    | None => None
    end.
Proof.
  destruct c as [[] [] [] [] [] [] [] []]; simpl; destruct (parse_string rest) as [[]|];
    reflexivity.
Qed.

Lemma parse_string_quote s rest :
  parse_string (flat_map escape s ++ dquote :: rest) = Some (s, rest).
Proof.
  induction s as [|c s IH]; [reflexivity|].
  cbn [flat_map]. rewrite <- app_assoc, parse_string_escape, IH. reflexivity.
Qed.

Lemma digit_val_digit_char d :
  0 <= d <= 9 -> digit_val 10 (digit_char d) = Some d.
Proof.
  intros H.
  assert (Hd : d = 0 \/ d = 1 \/ d = 2 \/ d = 3 \/ d = 4 \/ d = 5 \/ d = 6 \/ d = 7
               \/ d = 8 \/ d = 9) by lia.
  repeat (destruct Hd as [->|Hd]; [reflexivity|]). subst d. reflexivity.
Qed.

Lemma digits_fuel_app fuel : forall n acc rest,
  digits_fuel fuel n acc ++ rest = digits_fuel fuel n (acc ++ rest).
Proof.
  induction fuel as [|fuel IH]; intros n acc rest; cbn; [reflexivity|].
  destruct (n / 10 =? 0); [reflexivity|]. apply IH.
Qed.

(** Reading the digits of [n] back, in front of [acc]. *)
Lemma read_digits_fuel fuel : forall n acc a c,
  0 <= n < 2 ^ Z.of_nat fuel ->
  exists k : nat,
    read_digits 10 (digits_fuel fuel n acc) a c
    = read_digits 10 acc (a * 10 ^ Z.of_nat k + n) (c + k)%nat.
Proof.
  induction fuel as [|fuel IH]; intros n acc a c Hn.
  - exists O. cbn in *. replace n with 0 by lia. f_equal; [lia | lia].
  - cbn [digits_fuel].
    pose proof (Z.mod_pos_bound n 10 ltac:(lia)) as Hm.
    pose proof (Z.div_mod n 10 ltac:(lia)) as Hdm.
    destruct (Z.eqb_spec (n / 10) 0) as [H0|H0].
    + exists 1%nat. cbn [read_digits]. rewrite digit_val_digit_char by lia.
      f_equal; [|lia]. change (10 ^ Z.of_nat 1) with 10. lia.
    + destruct (IH (n / 10) (digit_char (n mod 10) :: acc) a c) as [k Hk].
      { split; [apply Z.div_pos; lia|].
        apply Z.div_lt_upper_bound; [lia|].
        rewrite Nat2Z.inj_succ, Z.pow_succ_r in Hn by lia. lia. }
      exists (S k). rewrite Hk. cbn [read_digits].
      rewrite digit_val_digit_char by lia. f_equal; [|lia].
      rewrite Nat2Z.inj_succ, Z.pow_succ_r by lia. lia.
Qed.

Lemma digits_bound n : 0 <= n -> 0 <= n < 2 ^ Z.of_nat (S (Z.to_nat (Z.log2 n))).
Proof.
  intros Hn. split; [exact Hn|].
  rewrite Nat2Z.inj_succ, Z2Nat.id by apply Z.log2_nonneg.
  destruct (Z.eq_dec n 0) as [->|Hz]; [reflexivity|].
  apply Z.log2_spec. lia.
Qed.

(** The first digit of a positive number is not zero. *)
Lemma digits_fuel_head fuel : forall n acc,
  0 < n < 2 ^ Z.of_nat fuel ->
  exists d r, 1 <= d <= 9 /\ digits_fuel fuel n acc = digit_char d :: r.
Proof.
  induction fuel as [|fuel IH]; intros n acc Hn.
  - cbn in Hn. lia.
  - cbn [digits_fuel].
    pose proof (Z.mod_pos_bound n 10 ltac:(lia)) as Hm.
    pose proof (Z.div_mod n 10 ltac:(lia)) as Hdm.
    destruct (Z.eqb_spec (n / 10) 0) as [H0|H0].
    + exists (n mod 10), acc. split; [lia | reflexivity].
    + apply IH. split.
      * assert (0 <= n / 10) by (apply Z.div_pos; lia). lia.
      * apply Z.div_lt_upper_bound; [lia|].
        rewrite Nat2Z.inj_succ, Z.pow_succ_r in Hn by lia. lia.
Qed.

Lemma read_digits_number n r :
  0 <= n ->
  exists k, read_digits 10 (digits n ++ "}"%char :: r) 0 O = (n, k, "}"%char :: r).
Proof.
  intros Hn. unfold digits. rewrite digits_fuel_app. rewrite app_nil_l.
  destruct (read_digits_fuel _ n ("}"%char :: r) 0 O (digits_bound n Hn)) as [k Hk].
  exists k. rewrite Hk. reflexivity.
Qed.

Lemma parse_number_Int z r :
  safe z ->
  parse_number (num_text (Int z) ++ "}"%char :: r) = Some (Int z, "}"%char :: r).
Proof.
  intros Hs. unfold safe in Hs.
  assert (Hbig : Z.abs z < overflow_bound).
  { eapply Z.lt_trans; [exact Hs|]. reflexivity. }
  assert (Hmain : forall n (minus : bool), 0 <= n < overflow_bound ->
            parse_number ((if minus then ["-"%char] else []) ++ digits n ++ "}"%char :: r)
            = Some (scale minus n 0, "}"%char :: r)).
  { intros n minus [Hn Hb].
    destruct (read_digits_number n r Hn) as [k Hk].
    destruct (Z.eq_dec n 0) as [->|Hz].
    - destruct minus; reflexivity.
    - assert (Hpos : 0 < n) by lia.
      destruct (digits_fuel_head _ n [] (conj Hpos (proj2 (digits_bound n Hn))))
        as (d & t & Hd & Ht).
      fold (digits n) in Ht. rewrite Ht in Hk |- *.
      unfold parse_number.
      change ((if minus then ["-"%char] else []) ++ (digit_char d :: t) ++ "}"%char :: r)
        with ((if minus then ["-"%char] else []) ++ digit_char d :: (t ++ "}"%char :: r)).
      change ((digit_char d :: t) ++ "}"%char :: r)
        with (digit_char d :: (t ++ "}"%char :: r)) in Hk.
      assert (Hcase : d = 1 \/ d = 2 \/ d = 3 \/ d = 4 \/ d = 5 \/ d = 6 \/ d = 7
                      \/ d = 8 \/ d = 9) by lia.
      destruct Hcase as [->|[->|[->|[->|[->|[->|[->|[->| ->]]]]]]]];
        destruct minus;
        match goal with
        | H : context [digit_char ?d] |- _ =>
            let c := eval vm_compute in (digit_char d) in
            change (digit_char d) with c in *
        end;
        cbn -[read_digits scale]; rewrite Hk; cbn -[scale]; reflexivity. }
  unfold num_text. rewrite <- app_assoc.
  destruct (Z.ltb_spec z 0) as [Hneg|Hpos].
  - rewrite (Hmain (Z.abs z) true) by lia.
    f_equal. f_equal. unfold scale.
    destruct (Z.eqb_spec (Z.abs z) 0); [lia|]. cbn [Z.leb Z.compare].
    rewrite Z.pow_0_r, Z.mul_1_r.
    destruct (Z.leb_spec overflow_bound (Z.abs z)); [lia|]. f_equal. lia.
  - rewrite (Hmain (Z.abs z) false) by lia.
    f_equal. f_equal. unfold scale.
    destruct (Z.eqb_spec (Z.abs z) 0); [f_equal; lia|]. cbn [Z.leb Z.compare].
    rewrite Z.pow_0_r, Z.mul_1_r.
    destruct (Z.leb_spec overflow_bound (Z.abs z)); [lia|]. f_equal. lia.
Qed.

Lemma stringify_entry e : stringify (entry_value e) = Some (entry_chars e).
Proof.
  unfold entry_chars, entry_value. cbn -[quote num_text].
  rewrite <- !app_assoc. reflexivity.
Qed.

Lemma parse_string_quote_lit s rest :
  parse_string (flat_map escape s ++ "034"%char :: rest) = Some (s, rest).
Proof. exact (parse_string_quote s rest). Qed.

Lemma num_text_head z :
  exists d t, 0 <= d <= 10 /\
    num_text (Int z) = (if d =? 10 then "-"%char else digit_char d) :: t.
Proof.
  unfold num_text. destruct (Z.ltb_spec z 0) as [Hneg|Hpos].
  - exists 10, (digits (Z.abs z)). split; [lia | reflexivity].
  - cbn [Datatypes.app]. destruct (Z.eq_dec z 0) as [->|Hz].
    + exists 0, []. split; [lia | reflexivity].
    + assert (Ha : 0 < Z.abs z) by lia.
      assert (Hb : 0 <= Z.abs z) by lia.
      destruct (digits_fuel_head _ (Z.abs z) [] (conj Ha (proj2 (digits_bound _ Hb))))
        as (d & t & Hd & Ht).
      exists d, t. split; [lia|].
      destruct (Z.eqb_spec d 10); [lia | exact Ht].
Qed.

#[local] Arguments parse_string : simpl never.
#[local] Arguments parse_number : simpl never.
#[local] Arguments flat_map : simpl never.
#[local] Arguments num_text : simpl never.
#[local] Arguments list_ascii_of_string : simpl never.
#[local] Arguments string_of_list_ascii : simpl never.
#[local] Arguments fields_of : simpl never.

Lemma parse_value_Int f z r :
  safe z ->
  parse_value (S f) (num_text (Int z) ++ "}"%char :: r)
  = Some (Num (Int z), "}"%char :: r).
Proof.
  intros Hs. pose proof (parse_number_Int z r Hs) as Hp.
  destruct (num_text_head z) as (d & t & Hd & Ht).
  rewrite Ht in Hp |- *.
  assert (Hcase : d = 0 \/ d = 1 \/ d = 2 \/ d = 3 \/ d = 4 \/ d = 5 \/ d = 6 \/ d = 7
                  \/ d = 8 \/ d = 9 \/ d = 10) by lia.
  destruct Hcase as [->|[->|[->|[->|[->|[->|[->|[->|[->|[->| ->]]]]]]]]]];
    match goal with
    | H : context [if ?d =? 10 then _ else _] |- _ =>
        let c := eval vm_compute in (if d =? 10 then "-"%char else digit_char d) in
        change (if d =? 10 then "-"%char else digit_char d) with c in *
    end;
    simpl in Hp |- *; rewrite Hp; reflexivity.
Qed.

Lemma parse_value_object f r :
  parse_value (S f) ("{"%char :: dquote :: r)
  = match parse_members f (dquote :: r) with
    | Some (members, rest) => Some (Obj (fields_of members), rest)
    | None => None
    end.
Proof. reflexivity. Qed.

Lemma parse_value_string f r :
  parse_value (S f) (dquote :: r)
  = match parse_string r with
    | Some (t, rest) => Some (Str (string_of_list_ascii t), rest)
    | None => None
    end.
Proof. reflexivity. Qed.

(** A member [key : value] followed by a comma. *)
Lemma parse_members_more f r k v r2 r4 :
  parse_string r = Some (k, ":"%char :: r2) ->
  parse_value f r2 = Some (v, ","%char :: r4) ->
  parse_members (S f) (dquote :: r)
  = match parse_members f r4 with
    | Some (members, rest) => Some ((string_of_list_ascii k, v) :: members, rest)
    | None => None
    end.
Proof. intros H1 H2. simpl. rewrite H1. simpl. rewrite H2. reflexivity. Qed.

(** The last member [key : value], followed by the closing brace. *)
Lemma parse_members_last f r k v r2 r4 :
  parse_string r = Some (k, ":"%char :: r2) ->
  parse_value f r2 = Some (v, "}"%char :: r4) ->
  parse_members (S f) (dquote :: r) = Some ([(string_of_list_ascii k, v)], r4).
Proof. intros H1 H2. simpl. rewrite H1. simpl. rewrite H2. reflexivity. Qed.

Lemma parse_entry f e rest :
  safe (snd e) ->
  parse_value (4 + f) (entry_chars e ++ rest) = Some (entry_value e, rest).
Proof.
  intros Hs. destruct e as [n z]. unfold entry_chars, quote. cbn [fst snd] in *.
  repeat (rewrite <- ?app_assoc, <- ?app_comm_cons; cbn [Datatypes.app]).
  change (4 + f)%nat with (S (S (S (S f)))).
  rewrite parse_value_object.
  erewrite parse_members_more;
    [ | apply parse_string_quote
      | rewrite parse_value_string, parse_string_quote; reflexivity ].
  erewrite parse_members_last;
    [ | apply parse_string_quote | apply parse_value_Int, Hs ].
  unfold entry_value, fields_of. cbn [fst snd].
  rewrite !string_of_list_ascii_of_string. reflexivity.
Qed.

Lemma parse_value_array f r :
  parse_value (S f) ("["%char :: "{"%char :: r)
  = match parse_elements f ("{"%char :: r) with
    | Some (items, rest) => Some (Arr items, rest)
    | None => None
    end.
Proof. reflexivity. Qed.

Lemma parse_elements_last f s v r :
  parse_value f s = Some (v, "]"%char :: r) ->
  parse_elements (S f) s = Some ([v], r).
Proof. intros H. simpl. rewrite H. reflexivity. Qed.

Lemma parse_elements_more f s v r :
  parse_value f s = Some (v, ","%char :: r) ->
  parse_elements (S f) s
  = match parse_elements f r with
    | Some (items, rest) => Some (v :: items, rest)
    | None => None
    end.
Proof. intros H. simpl. rewrite H. reflexivity. Qed.

Lemma parse_elements_entries h : forall e f rest,
  safe_scores (e :: h) ->
  parse_elements (5 + length h + f) (join (map entry_chars (e :: h)) ++ "]"%char :: rest)
  = Some (map entry_value (e :: h), rest).
Proof.
  induction h as [|e' h IH]; intros e f rest Hs; inversion Hs as [|? ? He Hh]; subst.
  - cbn [map join length]. change (5 + 0 + f)%nat with (S (4 + f)).
    apply parse_elements_last. apply parse_entry, He.
  - cbn [map join length].
    change (5 + S (length h) + f)%nat with (S (4 + (S (length h + f)))).
    rewrite <- app_assoc. cbn [Datatypes.app].
    erewrite parse_elements_more; [|apply parse_entry, He].
    match goal with
    | |- context [parse_elements ?F ?s] =>
        replace (parse_elements F s) with (Some (map entry_value (e' :: h), rest))
          by (symmetry; exact (IH e' f rest Hh))
    end.
    reflexivity.
Qed.

Lemma stringify_history h :
  stringify (history h) = Some ("["%char :: join (map entry_chars h) ++ ["]"%char]).
Proof.
  unfold history. cbn [stringify]. rewrite map_map. do 4 f_equal.
  apply map_ext. intros e. rewrite stringify_entry. reflexivity.
Qed.

Lemma length_join_entries h : (length h <= length (join (map entry_chars h)))%nat.
Proof.
  induction h as [|e [|e' h] IH]; cbn [map join length] in *; [lia | |].
  - unfold entry_chars. cbn [length]. lia.
  - rewrite length_app. cbn [length]. lia.
Qed.

(** A history with scores that a double holds exactly is read back as it
    was written. *)
Lemma parse_stringify_history h :
  safe_scores h ->
  JSON_parse (Str (JSON_stringify (history h))) = Ret (history h).
Proof.
  intros Hs. unfold JSON_parse, JSON_stringify, parse_text.
  rewrite stringify_history. cbn [default from_option id to_text].
  rewrite list_ascii_of_string_of_list_ascii.
  destruct h as [|e h].
  - reflexivity.
  - set (text := join (map entry_chars (e :: h))).
    pose proof (length_join_entries (e :: h)) as Hlen. fold text in Hlen.
    cbn [length] in Hlen |- *. rewrite length_app. cbn [length].
    assert (Hhead : exists t, text = "{"%char :: t).
    { unfold text. cbn [map join]. destruct (map entry_chars h); eexists; reflexivity. }
    destruct Hhead as [t Ht].
    replace (2 * S (length text + 1) + 2)%nat
      with (S (5 + length h + (2 * length text - length h)))%nat by lia.
    pose proof (parse_elements_entries h e (2 * length text - length h) [] Hs) as Hp.
    fold text in Hp. rewrite Ht in Hp |- *.
    cbn [Datatypes.app] in Hp |- *. rewrite parse_value_array, Hp. reflexivity.
Qed.

End RoundTrip.

(* ================================================================== *)
(** * Sorting by score *)
(* ================================================================== *)

Section Sorting.
Variable compare : value -> value -> num.
Variable P : value -> Prop.
Variable le : value -> value -> Prop.
Hypothesis after_ge : forall a b, P a -> P b -> gt0 (compare a b) = true -> le b a.
Hypothesis before_le : forall a b, P a -> P b -> gt0 (compare a b) = false -> le a b.
Hypothesis le_trans : forall a b c, P a -> P b -> P c -> le a b -> le b c -> le a c.

Lemma insert_perm a l : Permutation (insert compare a l) (a :: l).
Proof.
  induction l as [|b l IH]; cbn; [reflexivity|].
  destruct (gt0 (compare a b)); [|reflexivity].
  rewrite IH. apply perm_swap.
Qed.

Lemma sort_perm l : Permutation (sort compare l) l.
Proof.
  induction l as [|a l IH]; cbn; [reflexivity|].
  rewrite insert_perm. now constructor.
Qed.

Lemma insert_sorted a l :
  P a -> Forall P l -> StronglySorted le l -> StronglySorted le (insert compare a l).
Proof.
  intros Pa Pl Hs. induction Hs as [|b l Hs IH Hb]; cbn.
  - repeat constructor.
  - inversion Pl as [|? ? Pb Pl']; subst.
    destruct (gt0 (compare a b)) eqn:Hc.
    + constructor; [apply IH; assumption|].
      rewrite (insert_perm a l). constructor; [apply after_ge; assumption | assumption].
    + pose proof (before_le a b Pa Pb Hc) as Hab.
      constructor; [constructor; assumption|].
      constructor; [assumption|].
      rewrite Forall_forall in Hb, Pl' |- *. intros c Hc'.
      apply (le_trans a b c); auto.
Qed.

Lemma sort_sorted l : Forall P l -> StronglySorted le (sort compare l).
Proof.
  induction l as [|a l IH]; cbn; intros Pl; [constructor|].
  inversion Pl; subst.
  apply insert_sorted; [assumption | | apply IH; assumption].
  rewrite (sort_perm l). assumption.
Qed.
End Sorting.

Lemma nsign_norm e : forall m, nsign (norm m e) = Some (m ?= 0).
Proof.
  induction e as [|e IH]; intros m; cbn; [reflexivity|].
  destruct (Z.eqb_spec (m mod 10) 0) as [H0|H0]; [|reflexivity].
  rewrite IH. f_equal.
  pose proof (Z.div_mod m 10 ltac:(lia)) as Hm. rewrite H0 in Hm.
  destruct (Z.compare_spec (m / 10) 0), (Z.compare_spec m 0); try reflexivity; lia.
Qed.

Lemma gt0_dec_add ma ea mb eb :
  gt0 (dec_add (ma, ea) (- mb, eb)) =
    negb (ma * 10 ^ Z.of_nat eb <=? mb * 10 ^ Z.of_nat ea).
Proof.
  unfold gt0, dec_add. rewrite nsign_norm. cbn [fst snd].
  set (E := Nat.max ea eb).
  assert (HT1 : 10 ^ Z.of_nat (E - ea) * 10 ^ Z.of_nat ea = 10 ^ Z.of_nat E).
  { rewrite <- Z.pow_add_r by lia. f_equal. lia. }
  assert (HT2 : 10 ^ Z.of_nat (E - eb) * 10 ^ Z.of_nat eb = 10 ^ Z.of_nat E).
  { rewrite <- Z.pow_add_r by lia. f_equal. lia. }
  assert (0 < 10 ^ Z.of_nat (E - ea)) by (apply Z.pow_pos_nonneg; lia).
  assert (0 < 10 ^ Z.of_nat (E - eb)) by (apply Z.pow_pos_nonneg; lia).
  assert (0 < 10 ^ Z.of_nat ea) by (apply Z.pow_pos_nonneg; lia).
  assert (0 < 10 ^ Z.of_nat eb) by (apply Z.pow_pos_nonneg; lia).
  assert (0 < 10 ^ Z.of_nat E) by (apply Z.pow_pos_nonneg; lia).
  generalize dependent (10 ^ Z.of_nat (E - ea)); intros pa.
  generalize dependent (10 ^ Z.of_nat (E - eb)); intros pb.
  generalize dependent (10 ^ Z.of_nat ea); intros qa.
  generalize dependent (10 ^ Z.of_nat eb); intros qb.
  generalize dependent (10 ^ Z.of_nat E); intros T. intros.
  assert (Hkey : (ma * pa + - mb * pb) * (qa * qb) = (ma * qb - mb * qa) * T).
  { transitivity (ma * qb * (pa * qa) - mb * qa * (pb * qb)); [ring|].
    rewrite HT1, HT2. ring. }
  assert (HQ : 0 < qa * qb) by nia.
  assert (Hiff : 0 < ma * pa + - mb * pb <-> 0 < ma * qb - mb * qa).
  { rewrite <- (Z.mul_pos_cancel_r _ (qa * qb)) by assumption.
    rewrite Hkey. apply Z.mul_pos_cancel_r. assumption. }
  destruct (Z.leb_spec (ma * qb) (mb * qa)), (Z.compare_spec (ma * pa + - mb * pb) 0);
    cbn; try reflexivity; lia.
Qed.

Lemma gt0_nsub a b :
  isNaN a = false -> isNaN b = false -> gt0 (nsub a b) = negb (num_leb a b).
Proof.
  destruct a as [x|m e| | |], b as [y|m' e'| | |]; cbn; intros; try congruence;
    try reflexivity.
  - unfold gt0. cbn. rewrite !Z.mul_1_r.
    destruct (Z.leb_spec x y), (Z.compare_spec (x - y) 0); cbn; try reflexivity; lia.
  - apply (gt0_dec_add x O m' (Pos.to_nat e')).
  - apply (gt0_dec_add m (Pos.to_nat e) y O).
  - apply (gt0_dec_add m (Pos.to_nat e) m' (Pos.to_nat e')).
Qed.

Lemma num_leb_trans a b c :
  num_leb a b = true -> num_leb b c = true -> num_leb a c = true.
Proof.
  assert (Hcross : forall ma mb mc pa pb pc,
             0 < pa -> 0 < pb -> 0 < pc ->
             ma * pb <= mb * pa -> mb * pc <= mc * pb -> ma * pc <= mc * pa).
  { intros. assert (ma * pc * pb <= mc * pa * pb) by nia. nia. }
  assert (Hpos : forall e : nat, 0 < 10 ^ Z.of_nat e)
    by (intros; apply Z.pow_pos_nonneg; lia).
  destruct a as [x|m e| | |], b as [y|m' e'| | |], c as [z|m'' e''| | |]; cbn;
    try congruence; rewrite !Z.leb_le;
    match goal with
    | |- ?ma * ?pb <= ?mb * ?pa -> ?mb * ?pc <= ?mc * ?pb -> _ =>
        apply (Hcross ma mb mc pa pb pc); auto; try lia
    end.
Qed.

Lemma StronglySorted_take {A} (R : A -> A -> Prop) (l : list A) n :
  StronglySorted R l -> StronglySorted R (take n l).
Proof.
  intros Hs. revert n. induction Hs as [|a l Hs IH Ha]; intros [|n]; cbn;
    try constructor.
  - apply IH.
  - apply Forall_take, Ha.
Qed.

Lemma has_score_number e :
  HighScore.has_score e = true ->
  exists n, prop e "score" = Num n /\ isNaN n = false /\ score_of e = n.
Proof.
  unfold HighScore.has_score, score_of. intros H.
  apply andb_true_iff in H as [_ H].
  destruct (prop e "score") as [| | |n| | |]; try discriminate.
  exists n. repeat split. apply negb_true_iff, H.
Qed.

Lemma by_score_after a b :
  HighScore.has_score a = true -> HighScore.has_score b = true ->
  gt0 (HighScore.by_score a b) = negb (num_leb (score_of a) (score_of b)).
Proof.
  intros (x & _ & Hx & Ha)%has_score_number (y & _ & Hy & Hb)%has_score_number.
  unfold HighScore.by_score. fold (score_of a) (score_of b). rewrite Ha, Hb.
  apply gt0_nsub; assumption.
Qed.

Lemma num_leb_total a b :
  isNaN a = false -> isNaN b = false -> num_leb a b = false -> num_leb b a = true.
Proof.
  destruct a as [x|m e| | |], b as [y|m' e'| | |]; cbn; try congruence;
    intros _ _; rewrite Z.leb_gt, Z.leb_le; lia.
Qed.

Lemma sort_by_score_sorted l :
  Forall (fun e => HighScore.has_score e = true) l ->
  StronglySorted score_le (sort HighScore.by_score l).
Proof.
  apply sort_sorted.
  - intros a b Ha Hb Hgt. rewrite by_score_after in Hgt by assumption.
    apply negb_true_iff in Hgt.
    destruct (has_score_number a Ha) as (x & _ & Hx & Hax).
    destruct (has_score_number b Hb) as (y & _ & Hy & Hby).
    unfold score_le. rewrite Hax, Hby in *. apply num_leb_total; assumption.
  - intros a b Ha Hb Hgt. rewrite by_score_after in Hgt by assumption.
    apply negb_false_iff in Hgt. exact Hgt.
  - intros a b c _ _ _. apply num_leb_trans.
Qed.


(* ================================================================== *)
(** * The persisted history *)
(* ================================================================== *)

Ltac run_storage :=
  cbv beta iota zeta delta
    [exec result mbind mret M_bind M_ret bind ret gets modify lift throw try_catch when
     console_log console_error console_error_exn getItem setItem removeItem fetch
     get_prop read_highScores fst snd];
  cbn [fst snd app timer question form board localStorage console events requests
       intervals set_app set_timer set_question set_form set_board set_localStorage
       set_console set_events set_requests set_intervals].

Lemma read_highScores_eq w :
  read_highScores w =
    (match localStorage w !! "highScores" with
     | None => Ret (Arr [])
     | Some text =>
         match JSON_parse (Str text) with
         | Throw e => Throw e
         | Ret v => Ret (if truthy v then v else Arr [])
         end
     end, w).
Proof.
  run_storage. destruct (localStorage w !! "highScores") as [text|].
  - destruct (JSON_parse (Str text)); reflexivity.
  - reflexivity.
Qed.

(** C3 (amended). Loading the history gives the empty history when the key
    is absent or when its text is JSON for a falsy value; a value that
    parses to something truthy is returned as it is; and when the text is
    not JSON, the [SyntaxError] of [JSON.parse] is thrown by the load, and
    with it by the constructor of the application and by
    [connectedCallback] and [render] of the board: nothing catches it. *)
Theorem load_history (w : world) :
  read_highScores w =
    (match localStorage w !! "highScores" with
     | None => Ret (Arr [])
     | Some text =>
         match JSON_parse (Str text) with
         | Throw e => Throw e
         | Ret v => Ret (if truthy v then v else Arr [])
         end
     end, w)
  /\ match result read_highScores w with
     | Ret _ => True
     | Throw e =>
         result QuizApplication.constructor w = Throw e
         /\ result HighScore.connectedCallback w = Throw e
         /\ result HighScore.render w = Throw e
     end.
Proof.
  split; [apply read_highScores_eq|].
  unfold result at 1. rewrite read_highScores_eq. cbn [fst].
  destruct (localStorage w !! "highScores") as [text|] eqn:Hs; [|exact I].
  destruct (JSON_parse (Str text)) as [v|e] eqn:Hp; [exact I|].
  unfold QuizApplication.constructor, HighScore.connectedCallback, HighScore.render.
  repeat split; rewrite !result_bind; cbn -[read_highScores];
    unfold result; rewrite read_highScores_eq; cbn [fst localStorage set_app];
    rewrite Hs, Hp; reflexivity.
Qed.

(** C3, counterexample: with [not json] under the key, loading throws a
    [SyntaxError] and so does loading the page; with [{}] under the key
    loading yields the object, not the empty history, and [render] throws
    a [TypeError]. *)
Lemma load_history_throws :
  let w := empty_world {[ "highScores" := "not json" ]} in
  result read_highScores w = Throw SyntaxError
  /\ result load_page w = Throw SyntaxError
  /\ result read_highScores (empty_world {[ "highScores" := "{}" ]}) = Ret (Obj [])
  /\ result HighScore.render (empty_world {[ "highScores" := "{}" ]}) = Throw TypeError.
Proof. vm_compute. repeat split. Qed.

(** C7 (amended). For every persisted history [l], [render] shows the
    lines of [topFiveScores l]: at most five entries, sorted ascending by
    score, the first five of the sorted list of the entries kept by the
    filter; an entry is kept exactly when it is truthy and its score is a
    number other than [NaN] (an infinite score is kept). *)
Theorem render_top_five (w : world) (l : list value) :
  result read_highScores w = Ret (Arr l) ->
  let top := HighScore.topFiveScores l in
  let kept := filter (fun e => HighScore.has_score e = true) l in
  HighScore.render w
  = (Ret tt, set_board (HighScore.set_items (imap HighScore.line top))
               (set_board (HighScore.set_scores (Arr l)) w))
  /\ (length top <= 5)%nat
  /\ StronglySorted score_le top
  /\ top = take 5 (sort HighScore.by_score kept)
  /\ Permutation (sort HighScore.by_score kept) kept
  /\ (forall e, e ∈ kept <->
        e ∈ l /\ truthy e = true
        /\ exists n, prop e "score" = Num n /\ isNaN n = false).
Proof.
  intros Hr top kept.
  assert (Hk : Forall (fun e => HighScore.has_score e = true) kept).
  { apply Forall_forall. intros e He.
    unfold kept in He. apply list_elem_of_filter in He. apply He. }
  split; [|split; [|split; [|split; [|split]]]].
  - unfold HighScore.render, mbind, M_bind, bind.
    unfold result in Hr. rewrite read_highScores_eq in Hr |- *. cbn [fst] in Hr.
    rewrite Hr. reflexivity.
  - apply firstn_le_length.
  - apply StronglySorted_take, sort_by_score_sorted, Hk.
  - reflexivity.
  - apply sort_perm.
  - intros e. unfold kept. rewrite list_elem_of_filter. split.
    + intros [He Hl]. split; [exact Hl|].
      destruct (has_score_number e He) as (n & Hn & Hnan & _).
      split; [|eauto]. unfold HighScore.has_score in He.
      apply andb_true_iff in He. apply He.
    + intros (Hl & Ht & n & Hn & Hnan). split; [|exact Hl].
      unfold HighScore.has_score. rewrite Ht, Hn, Hnan. reflexivity.
Qed.

(** C7, witness: the board of the completed example session. *)
Lemma render_top_five_witness :
  let w := Scenario.timed_out in
  let l := [Obj [("nickname", Str "Ada"); ("score", Num (Int 10))]] in
  (length (HighScore.topFiveScores l) <= 5)%nat
  /\ StronglySorted score_le (HighScore.topFiveScores l)
  /\ items (board (exec HighScore.render w)) = [("1. Ada", "10")].
Proof.
  intros w l.
  assert (Hr : result read_highScores w = Ret (Arr l)) by (vm_compute; reflexivity).
  destruct (render_top_five w l Hr) as (H1 & H2 & H3 & _).
  split; [exact H2|]. split; [exact H3|].
  unfold exec. rewrite H1. vm_compute. reflexivity.
Defined.

(** C7, counterexample: the score [1e999] reads as [Infinity], which is
    not a finite number, and the entry is shown. *)
Lemma infinite_score_is_shown :
  let text := "[" +:+ entry_text "Ada" "7" +:+ "," +:+ entry_text "Inf" "1e999" +:+ "]" in
  let w := exec HighScore.render (empty_world {[ "highScores" := text ]}) in
  items (board w) = [("1. Ada", "7"); ("2. Inf", "Infinity")]
  /\ exists e, e ∈ HighScore.topFiveScores
                     [Obj [("nickname", Str "Ada"); ("score", Num (Int 7))];
                      Obj [("nickname", Str "Inf"); ("score", Num PInf)]]
               /\ prop e "score" = Num PInf /\ isFinite PInf = false.
Proof.
  split; [vm_compute; reflexivity|].
  exists (Obj [("nickname", Str "Inf"); ("score", Num PInf)]).
  split; [|split; reflexivity].
  apply list_elem_of_In. vm_compute. right. left. reflexivity.
Qed.

(* ================================================================== *)
(** * The question display *)
(* ================================================================== *)

Ltac run_all :=
  cbv beta iota zeta delta
    [exec result mbind mret M_bind M_ret bind ret gets modify lift throw try_catch when
     console_log console_error console_error_exn getItem setItem removeItem fetch
     get_prop listener run_listeners dispatchEvent
     CountdownTimer.stopTimer CountdownTimer.startTimer CountdownTimer.updateDisplay
     CountdownTimer.setInterval CountdownTimer.tick CountdownTimer.interval
     CountdownTimer.resetAll CountdownTimer.resetTotalTimeSpent
     CountdownTimer.resetAccumulatedTime CountdownTimer.dispatchTotalTimeSpentEvent
     QuizQuestion.setQuestion QuizQuestion.handleAnswerClick QuizQuestion.type
     QuizQuestion.check QuizQuestion.click QuizQuestion.keydown
     QuizApplication.set_question_listeners QuizApplication.restartQuiz
     fst snd];
  cbn [fst snd app timer question form board localStorage console events requests
       intervals set_app set_timer set_question set_form set_board set_localStorage
       set_console set_events set_requests set_intervals
       timeLeft intervalId totalTimeSpent accumulatedTime display
       CountdownTimer.set_timeLeft CountdownTimer.set_intervalId
       CountdownTimer.set_totalTimeSpent CountdownTimer.set_accumulatedTime
       CountdownTimer.set_display isNaN
       currentQuestion currentSelectedAnswer questionContainer optionsContainer
       QuizQuestion.set_currentQuestion QuizQuestion.set_currentSelectedAnswer
       QuizQuestion.set_questionContainer QuizQuestion.set_optionsContainer].

Lemma truthy_not_nullish v : truthy v = true -> is_nullish v = false.
Proof. destruct v; cbn; congruence. Qed.

Lemma falsy_not_choice v : truthy v = false -> QuizQuestion.choice_mode v = false.
Proof. intros H. unfold QuizQuestion.choice_mode. rewrite H. reflexivity. Qed.

Lemma handleAnswerClick_text listeners w text tgt :
  optionsContainer (question w) = TextInput text ->
  is_nullish (currentQuestion (question w)) = false ->
  truthy (prop (currentQuestion (question w)) "alternatives") = false ->
  QuizQuestion.handleAnswerClick (Some tgt) listeners w
  = run_listeners (listeners (Str (trim text)))
      (set_events (fun l => l ++ [AnswerSelected (Str (trim text))])
         (set_question (QuizQuestion.set_currentSelectedAnswer (Str (trim text))) w)).
Proof.
  intros Ho Hn Halt.
  unfold QuizQuestion.handleAnswerClick, get_prop, dispatchEvent,
    mbind, mret, M_bind, M_ret, bind, ret, gets, modify.
  rewrite Hn. cbn beta iota. rewrite Halt, Ho. reflexivity.
Qed.

Lemma setQuestion_free_text w q text :
  truthy q = true ->
  truthy (prop q "alternatives") = false ->
  let shown := exec (QuizQuestion.type text) (exec (QuizQuestion.setQuestion q) w) in
  optionsContainer (question shown) = TextInput text
  /\ currentQuestion (question shown) = q
  /\ events shown = events w.
Proof.
  intros Hq Halt.
  pose proof (falsy_not_choice _ Halt) as Hc.
  unfold QuizQuestion.setQuestion, QuizQuestion.type. rewrite Hq, Hc.
  repeat split; reflexivity.
Qed.

(** Free text without alternatives. For a question whose [alternatives]
    field is missing or falsy, shown by [setQuestion], with [text] typed in
    the field: a click on the button and the Enter key both emit
    [answer-selected] with [trim text], also when that is the empty
    string, and then run its listeners. In choice mode with no radio
    button checked, a click emits nothing and changes nothing. *)
Theorem free_text_submit (listeners : value -> list (M unit)) :
  (forall w q text,
      truthy q = true ->
      truthy (prop q "alternatives") = false ->
      let shown := exec (QuizQuestion.type text) (exec (QuizQuestion.setQuestion q) w) in
      let emitted :=
        set_events (fun l => l ++ [AnswerSelected (Str (trim text))])
          (set_question (QuizQuestion.set_currentSelectedAnswer (Str (trim text))) shown) in
      optionsContainer (question shown) = TextInput text
      /\ QuizQuestion.click listeners shown
         = run_listeners (listeners (Str (trim text))) emitted
      /\ QuizQuestion.keydown "Enter" listeners shown
         = run_listeners (listeners (Str (trim text))) emitted
      /\ events emitted = events w ++ [AnswerSelected (Str (trim text))])
  /\ (forall w radios,
        optionsContainer (question w) = ChoiceForm radios None ->
        QuizQuestion.click listeners w = (Ret tt, w)).
Proof.
  split.
  - intros w q text Hq Halt shown emitted.
    destruct (setQuestion_free_text w q text Hq Halt) as (Ho & Hcur & Hev).
    fold shown in Ho, Hcur, Hev.
    assert (Hn : is_nullish (currentQuestion (question shown)) = false)
      by (rewrite Hcur; apply truthy_not_nullish, Hq).
    assert (Ha : truthy (prop (currentQuestion (question shown)) "alternatives") = false)
      by (rewrite Hcur; exact Halt).
    repeat split.
    + exact Ho.
    + unfold QuizQuestion.click, mbind, M_bind, bind, gets. rewrite Ho.
      apply handleAnswerClick_text; assumption.
    + unfold QuizQuestion.keydown, mbind, M_bind, bind, gets. rewrite Ho.
      cbn [String.eqb]. apply handleAnswerClick_text; assumption.
    + unfold emitted. cbn [events set_events set_question]. rewrite Hev. reflexivity.
  - intros w radios H. unfold QuizQuestion.click, mbind, M_bind, bind, gets.
    rewrite H. reflexivity.
Qed.

(** Three spaces typed in the example session are submitted as the empty
    answer. *)
Lemma free_text_submit_witness :
  let listeners := fun a => [QuizApplication.on_answer_selected a] in
  let q := app_currentQuestion (app Scenario.playing) in
  let shown :=
    exec (QuizQuestion.type "   ") (exec (QuizQuestion.setQuestion q) Scenario.playing) in
  let emitted :=
    set_events (fun l => l ++ [AnswerSelected (Str "")])
      (set_question (QuizQuestion.set_currentSelectedAnswer (Str "")) shown) in
  trim "   " = ""
  /\ QuizQuestion.click listeners shown = run_listeners (listeners (Str "")) emitted
  /\ events emitted = events Scenario.playing ++ [AnswerSelected (Str "")].
Proof.
  pose proof (proj1 (free_text_submit (fun a => [QuizApplication.on_answer_selected a]))
                Scenario.playing (app_currentQuestion (app Scenario.playing)) "   "
                eq_refl eq_refl) as (_ & H2 & _ & H4).
  split; [reflexivity|]. split; [exact H2 | exact H4].
Defined.

(** C10. The code at the failing input: a question whose alternatives are
    the empty object is shown with a text field, since it has fewer than
    two alternatives; with " 4 " typed, the trimmed input is "4", yet both
    the button and the Enter key emit [answer-selected] with [null]:
    [handleAnswerClick] tests only that [alternatives] is truthy and looks
    for a checked radio button. *)
Theorem empty_alternatives_emit_null :
  let q := Obj [("question", Str "2+2?"); ("alternatives", Obj []);
                ("nextURL", Str "/q/2")] in
  let shown :=
    exec (QuizQuestion.type " 4 ") (exec (QuizQuestion.setQuestion q) Scenario.playing) in
  QuizQuestion.choice_mode (prop q "alternatives") = false
  /\ optionsContainer (question shown) = TextInput " 4 "
  /\ trim " 4 " = "4"
  /\ events (exec click_submit shown) = events shown ++ [AnswerSelected Null]
  /\ events (exec (press "Enter") shown) = events shown ++ [AnswerSelected Null]
  /\ AnswerSelected (Str "4") ∉ events (exec click_submit shown).
Proof.
  vm_compute. repeat split; try reflexivity.
  intros H. repeat (apply elem_of_cons in H as [H | H]; [discriminate H|]).
  inversion H.
Qed.


(* ================================================================== *)
(** * The orchestrator *)
(* ================================================================== *)

Lemma listener_returns m w : result m w = Ret tt -> listener m w = m w.
Proof.
  unfold result, listener, try_catch. destruct (m w) as [[[]|e] w']; cbn; congruence.
Qed.

Lemma exec_dispatchEvent_two e l1 l2 w :
  exec (dispatchEvent e [l1; l2]) w
  = exec (listener l2) (exec (listener l1) (set_events (fun l => l ++ [e]) w)).
Proof.
  unfold dispatchEvent, run_listeners, exec, bind, modify, ret.
  pose proof (result_listener l1 (set_events (fun l => l ++ [e]) w)) as H1.
  unfold result in H1.
  destruct (listener l1 _) as [[[]|x] w1]; cbn in H1; [|discriminate].
  pose proof (result_listener l2 w1) as H2. unfold result in H2.
  cbn [snd]. destruct (listener l2 w1) as [[[]|x] w2]; cbn in H2; [|discriminate].
  reflexivity.
Qed.

Lemma startTimer_sets w d :
  let w' := exec (CountdownTimer.startTimer (Num (Int d))) w in
  result (CountdownTimer.startTimer (Num (Int d))) w = Ret tt
  /\ timeLeft (timer w') = Int d /\ intervalId (timer w') <> None
  /\ events w' = events w /\ question w' = question w /\ app w' = app w.
Proof.
  destruct w as [a [tl [id|] tts acc [dsp|]] q f b s c e r i]; run_all;
    repeat split; congruence.
Qed.

Lemma setQuestion_shows w q :
  truthy q = true ->
  let w' := exec (QuizQuestion.setQuestion q) w in
  result (QuizQuestion.setQuestion q) w = Ret tt
  /\ currentQuestion (question w') = q
  /\ timer w' = timer w /\ events w' = events w /\ app w' = app w.
Proof.
  intros Hq. unfold QuizQuestion.setQuestion. rewrite Hq. cbn [negb].
  destruct (QuizQuestion.choice_mode (prop q "alternatives")); repeat split; reflexivity.
Qed.

Lemma set_question_broadcast w q d :
  truthy q = true ->
  broadcast w
    (exec (dispatchEvent (SetQuestion q (Num (Int d)))
             (QuizApplication.set_question_listeners q (Num (Int d))))
       (set_app (QuizApplication.set_currentQuestion q) w))
    q d.
Proof.
  intros Hq. unfold QuizApplication.set_question_listeners.
  rewrite exec_dispatchEvent_two.
  set (w0 := set_events _ _).
  destruct (setQuestion_shows w0 q Hq) as (R1 & Hc & Ht & He & Ha).
  unfold exec at 2. rewrite (listener_returns _ _ R1). fold (exec (QuizQuestion.setQuestion q) w0).
  set (w1 := exec (QuizQuestion.setQuestion q) w0) in *.
  destruct (startTimer_sets w1 d) as (R2 & Htl & Hid & He2 & Hq2 & Ha2).
  unfold exec at 1. rewrite (listener_returns _ _ R2).
  fold (exec (CountdownTimer.startTimer (Num (Int d))) w1).
  unfold broadcast. rewrite He2, He, Hq2, Hc, Ha2, Ha. repeat split; try assumption.
Qed.

Lemma parseInt_falsy v : truthy v = false -> truthy (Num (parseInt v)) = false.
Proof.
  destruct v as [| |[]|[z|m e| | |]|s|l|fs]; cbn [truthy]; try discriminate.
  - reflexivity.
  - reflexivity.
  - reflexivity.
  - intros H. apply negb_false_iff, Z.eqb_eq in H. subst z. reflexivity.
  - reflexivity.
  - intros H. apply negb_false_iff, String.eqb_eq in H. subst s. reflexivity.
Qed.

(** C1 (amended). For a fetched question [q], on the first fetch and on a
    follow-up fetch alike: when [parseInt] reads the [limit] field as a
    non-zero integer [d], positive or negative, the duration is [d]; when
    the field is missing or falsy (the number zero, null, the empty
    string), the duration is 20. The question and this duration are
    broadcast in one [set-question] event, and the timer starts from it. *)
Theorem question_duration (w : world) (text : string) (q : value) (d : Z) :
  JSON_parse (Str text) = Ret q ->
  truthy q = true ->
  (parseInt (prop q "limit") = Int d /\ d <> 0)
  \/ (truthy (prop q "limit") = false /\ d = 20) ->
  (result (QuizApplication.fetchQuestions_resume (Body text)) w = Ret tt
   /\ broadcast w (exec (QuizApplication.fetchQuestions_resume (Body text)) w) q d)
  /\ (result (QuizApplication.fetchNextQuestion_resume (Body text)) w = Ret tt
      /\ broadcast w (exec (QuizApplication.fetchNextQuestion_resume (Body text)) w) q d).
Proof.
  intros Hp Hq Hd.
  pose proof (truthy_not_nullish q Hq) as Hn.
  assert (H1 : (if truthy (prop q "limit") then Num (parseInt (prop q "limit"))
                else Num (Int 20)) = Num (Int d)).
  { destruct Hd as [[Hi Hd]|[Hf ->]].
    - destruct (truthy (prop q "limit")) eqn:Ht; [congruence|].
      apply parseInt_falsy in Ht. rewrite Hi in Ht. cbn in Ht.
      apply negb_false_iff, Z.eqb_eq in Ht. contradiction.
    - rewrite Hf. reflexivity. }
  assert (H2 : (if truthy (Num (parseInt (prop q "limit")))
                then Num (parseInt (prop q "limit")) else Num (Int 20)) = Num (Int d)).
  { destruct Hd as [[Hi Hd]|[Hf ->]].
    - rewrite Hi. cbn. destruct (Z.eqb_spec d 0); [contradiction | reflexivity].
    - rewrite (parseInt_falsy _ Hf). reflexivity. }
  split.
  - unfold QuizApplication.fetchQuestions_resume, json, get_prop, lift, try_catch,
      mbind, M_bind, bind, modify, ret.
    rewrite Hp, Hn, H1.
    pose proof (set_question_broadcast w q d Hq) as Hb.
    pose proof (result_dispatchEvent (SetQuestion q (Num (Int d)))
                  (QuizApplication.set_question_listeners q (Num (Int d)))
                  (set_app (QuizApplication.set_currentQuestion q) w)) as Hr.
    unfold exec, result in *.
    destruct (dispatchEvent _ _ _) as [[[]|e] w']; cbn in Hr; [|discriminate].
    split; [reflexivity | exact Hb].
  - unfold QuizApplication.fetchNextQuestion_resume, json, get_prop, lift, try_catch,
      mbind, M_bind, bind, modify, ret.
    rewrite Hp, Hn, H2, Hq.
    pose proof (set_question_broadcast w q d Hq) as Hb.
    pose proof (result_dispatchEvent (SetQuestion q (Num (Int d)))
                  (QuizApplication.set_question_listeners q (Num (Int d)))
                  (set_app (QuizApplication.set_currentQuestion q) w)) as Hr.
    unfold exec, result in *.
    destruct (dispatchEvent _ _ _) as [[[]|e] w']; cbn in Hr; [|discriminate].
    split; [reflexivity | exact Hb].
Qed.

(** C1, witness: a question with a limit of ten seconds. *)
Lemma question_duration_witness :
  let text := question_text "2+2?" "/q/2" "10" in
  let q := Obj [("question", Str "2+2?"); ("nextURL", Str "/q/2"); ("limit", Num (Int 10))] in
  let w := exec (seq [load_page; NicknameForm.type "Ada"; submit_nickname])
             (empty_world ∅) in
  broadcast w (exec (QuizApplication.fetchQuestions_resume (Body text)) w) q 10
  /\ broadcast w (exec (QuizApplication.fetchNextQuestion_resume (Body text)) w) q 10.
Proof.
  intros text q w.
  assert (Hp : JSON_parse (Str text) = Ret q) by (vm_compute; reflexivity).
  assert (Hq : truthy q = true) by reflexivity.
  assert (Hl : parseInt (prop q "limit") = Int 10) by (vm_compute; reflexivity).
  assert (Hd : (10 : Z) <> 0) by lia.
  destruct (question_duration w text q 10 Hp Hq (or_introl (conj Hl Hd)))
    as [[_ H1] [_ H2]].
  split; [exact H1 | exact H2].
Defined.

(** C1, counterexample: a limit of -5 is broadcast as -5 and the timer
    starts at -5, on both paths; the duration is not 20. *)
Lemma negative_limit_is_kept :
  let text := question_text "2+2?" "/q/2" "-5" in
  let w := exec (seq [load_page; NicknameForm.type "Ada"; submit_nickname])
             (empty_world ∅) in
  let first := exec (QuizApplication.fetchQuestions_resume (Body text)) w in
  let next := exec (QuizApplication.fetchNextQuestion_resume (Body text)) w in
  (exists q, events first = events w ++ [SetQuestion q (Num (Int (-5)))])
  /\ timeLeft (timer first) = Int (-5)
  /\ timeLeft (timer first) <> Int 20
  /\ (exists q, events next = events w ++ [SetQuestion q (Num (Int (-5)))])
  /\ timeLeft (timer next) = Int (-5)
  /\ timeLeft (timer next) <> Int 20.
Proof.
  vm_compute. repeat split; try discriminate; eexists; reflexivity.
Qed.

(** C4 (amended). When the response to a question fetch cannot be read
    (the request failed or the body is not JSON): on the first fetch the
    orchestrator only logs the error, and the rest of the world is
    unchanged; on a follow-up fetch it logs the error and then runs the
    completion handling with the last total time, which sets the completion
    guard. In neither case is a request issued. *)
Theorem fetch_failure (w : world) (r : response) (e : error) :
  failure r = Some e ->
  let logged := set_console (fun c => c ++ [LogException e]) w in
  QuizApplication.fetchQuestions_resume r w = (Ret tt, logged)
  /\ QuizApplication.fetchNextQuestion_resume r w =
       QuizApplication.showHighScore (totalTime (app w)) logged
  /\ requests (exec (QuizApplication.fetchNextQuestion_resume r) w) = requests w
  /\ highScoreShown (app (exec (QuizApplication.fetchNextQuestion_resume r) w)) = true.
Proof.
  intros Hf logged.
  assert (Hj : json r w = (Throw e, w)).
  { destruct r as [|text]; cbn in Hf |- *.
    - injection Hf as <-. reflexivity.
    - unfold lift. destruct (JSON_parse (Str text)); [discriminate|]. congruence. }
  assert (H1 : QuizApplication.fetchQuestions_resume r w = (Ret tt, logged)).
  { unfold QuizApplication.fetchQuestions_resume, try_catch, mbind, M_bind, bind.
    rewrite Hj. reflexivity. }
  assert (H2 : QuizApplication.fetchNextQuestion_resume r w =
               QuizApplication.showHighScore (totalTime (app w)) logged).
  { unfold QuizApplication.fetchNextQuestion_resume, try_catch, mbind, M_bind, bind.
    rewrite Hj. reflexivity. }
  repeat split; [exact H1 | exact H2 | |].
  - unfold exec at 1. rewrite H2.
    apply (showHighScore_keeps_requests (requests w) (totalTime (app w)) logged).
    reflexivity.
  - unfold exec at 1. rewrite H2. apply showHighScore_sets_guard.
Qed.

(** C4, witness: a network error on the first fetch and on a follow-up fetch. *)
Lemma fetch_failure_witness :
  QuizApplication.fetchQuestions_resume NetworkError Scenario.playing =
    (Ret tt, set_console (fun c => c ++ [LogException TypeError]) Scenario.playing)
  /\ requests (exec (QuizApplication.fetchNextQuestion_resume NetworkError)
                 Scenario.answered) = requests Scenario.answered.
Proof.
  split.
  - apply (fetch_failure Scenario.playing NetworkError TypeError eq_refl).
  - apply (fetch_failure Scenario.answered NetworkError TypeError eq_refl).
Defined.

(** C4, counterexample: a network error on the follow-up fetch moves the
    session to the high-score state: the guard is set, the question is
    hidden, the board is shown and an entry is persisted. *)
Lemma next_fetch_failure_completes :
  let w := exec (run (NextQuestionArrives NetworkError)) Scenario.answered in
  highScoreShown (app Scenario.answered) = false
  /\ board_hidden (app Scenario.answered) = true
  /\ localStorage Scenario.answered !! "highScores" = None
  /\ highScoreShown (app w) = true
  /\ board_hidden (app w) = false
  /\ question_hidden (app w) = true
  /\ localStorage w !! "highScores" = Some ("[{" +:+ lit "nickname" +:+ ":" +:+ lit "Ada" +:+ "}]").
Proof. vm_compute. repeat split. Qed.

Lemma restart_resets_guard w :
  highScoreShown (app (exec (run ClickTryAgain) w)) = false.
Proof.
  destruct w as [a [tl [id|] tts acc [d|]] q f b s c e r i]; reflexivity.
Qed.

(** C5. The completion handling sets the guard flag; once the flag is set,
    a further call of the handling returns at once and leaves the world as
    it is, every action other than the restart (a second passing, a
    timeout, the answer of the server, a failed fetch, ...) keeps the flag
    set and leaves the persisted history, the board and its visibility
    untouched, and the restart clears the flag. *)
Theorem completion_runs_once :
  (forall w acc, highScoreShown (app (exec (QuizApplication.showHighScore acc) w)) = true)
  /\ (forall w, highScoreShown (app w) = true ->
        (forall acc, QuizApplication.showHighScore acc w = (Ret tt, w))
        /\ (forall a, is_restart a = false ->
              highScoreShown (app (exec (run a) w)) = true
              /\ completion_state (exec (run a) w) = completion_state w)
        /\ highScoreShown (app (exec (run ClickTryAgain) w)) = false).
Proof.
  split; [intros; apply showHighScore_sets_guard|].
  intros w Hg. repeat split.
  - intros acc. apply showHighScore_dropped, Hg.
  - apply (completed_run (completion_state w) a H w). split; [exact Hg | reflexivity].
  - apply (completed_run (completion_state w) a H w). split; [exact Hg | reflexivity].
  - apply restart_resets_guard.
Qed.

(** C5, witness: after the timeout of the example session, a late answer of the server changes nothing. *)
Lemma completion_runs_once_witness :
  QuizApplication.showHighScore (Num (Int 3)) Scenario.timed_out = (Ret tt, Scenario.timed_out)
  /\ completion_state
       (exec (run (AnswerJudged (Body (next_text "")))) Scenario.timed_out)
     = completion_state Scenario.timed_out.
Proof.
  destruct completion_runs_once as [_ H].
  destruct (H Scenario.timed_out eq_refl) as (H1 & H2 & _).
  split; [apply H1 | apply (H2 (AnswerJudged (Body (next_text ""))) eq_refl)].
Defined.

(** C9 (amended). [restartQuiz] never throws; it empties the nickname
    field, removes the persisted nickname, resets the score, the question
    index, the completion guard and the timer's accumulated and spent time,
    and leaves the nickname, the current question and the last total time
    that the application holds as they were; it shows the nickname form and
    hides the question, the timer and the board; and the storage is its
    old self without the keys [nickname] and [quizScore], so the persisted
    history is untouched. *)
Theorem restart_effects (w : world) :
  let w' := exec QuizApplication.restartQuiz w in
  result QuizApplication.restartQuiz w = Ret tt
  /\ input (form w') = ""
  /\ localStorage w' !! "nickname" = None
  /\ (score (app w') = Num (Int 0)
      /\ currentQuestionIndex (app w') = Num (Int 0)
      /\ highScoreShown (app w') = false
      /\ intervalId (timer w') = None
      /\ totalTimeSpent (timer w') = Int 0
      /\ accumulatedTime (timer w') = Int 0)
  /\ (nickname (app w') = nickname (app w)
      /\ app_currentQuestion (app w') = app_currentQuestion (app w)
      /\ totalTime (app w') = totalTime (app w))
  /\ (form_hidden (app w') = false
      /\ question_hidden (app w') = true
      /\ timer_hidden (app w') = true
      /\ board_hidden (app w') = true)
  /\ localStorage w' !! "highScores" = localStorage w !! "highScores"
  /\ localStorage w' = delete "nickname" (delete "quizScore" (localStorage w)).
Proof.
  assert (Hs : localStorage (exec QuizApplication.restartQuiz w)
               = delete "nickname" (delete "quizScore" (localStorage w))).
  { destruct w as [a [tl [id|] tts acc [d|]] q f b s c e r i]; reflexivity. }
  cbn zeta. rewrite Hs.
  repeat split;
    try (destruct w as [a [tl [id|] tts acc [d|]] q f b s c e r i]; reflexivity).
  - apply lookup_delete_eq.
  - rewrite !lookup_delete_ne by discriminate. reflexivity.
Qed.

(** C9, counterexample: after the example session has timed out, a restart
    leaves the nickname Ada, her question and her total of ten seconds in
    the application: the session state is not cleared. An answer judged
    after the restart then records Ada again, with a score of zero. *)
Lemma restart_keeps_the_session :
  let w := exec QuizApplication.restartQuiz Scenario.timed_out in
  nickname (app w) = Str "Ada"
  /\ nickname (app w) <> Undefined
  /\ app_currentQuestion (app w)
     = Obj [("question", Str "2+2?"); ("nextURL", Str "/q/2"); ("limit", Num (Int 10))]
  /\ totalTime (app w) = Num (Int 10)
  /\ localStorage Scenario.timed_out !! "highScores"
     = Some (JSON_stringify (history [("Ada", 10)]))
  /\ localStorage (exec (run (AnswerJudged (Body "{}"))) w) !! "highScores"
     = Some (JSON_stringify (history [("Ada", 10); ("Ada", 0)])).
Proof. vm_compute. repeat split; congruence. Qed.


Lemma same_entry_value n s e :
  HighScore.same_entry (Str n) (Num (Int s)) (entry_value e)
  = Ret (bool_decide (e = (n, s))).
Proof.
  destruct e as [n' s']. unfold HighScore.same_entry, entry_value. cbn.
  f_equal. destruct (String.eqb_spec n' n) as [->|Hn], (Z.eqb_spec s' s) as [->|Hs]; cbn.
  - rewrite bool_decide_eq_true_2; reflexivity.
  - rewrite bool_decide_eq_false_2; [reflexivity | congruence].
  - rewrite bool_decide_eq_false_2; [reflexivity | congruence].
  - rewrite bool_decide_eq_false_2; [reflexivity | congruence].
Qed.

Lemma find_history_absent n s h : forall i,
  (n, s) ∉ h ->
  find_from i (HighScore.same_entry (Str n) (Num (Int s))) (map entry_value h) = Ret None.
Proof.
  induction h as [|e h IH]; intros i Hin; cbn [map find_from]; [reflexivity|].
  rewrite same_entry_value. apply not_elem_of_cons in Hin as [Hne Hin].
  rewrite bool_decide_eq_false_2 by congruence. apply IH, Hin.
Qed.

Lemma find_history_present n s h : forall i,
  (n, s) ∈ h ->
  exists j, find_from i (HighScore.same_entry (Str n) (Num (Int s))) (map entry_value h)
            = Ret (Some (j, entry_value (n, s))).
Proof.
  induction h as [|e h IH]; intros i Hin; [inversion Hin|].
  cbn [map find_from]. rewrite same_entry_value.
  destruct (decide (e = (n, s))) as [->|Hne].
  - exists i. rewrite bool_decide_eq_true_2; reflexivity.
  - rewrite bool_decide_eq_false_2 by exact Hne.
    apply elem_of_cons in Hin as [Heq|Hin]; [congruence|]. apply IH, Hin.
Qed.

Lemma history_app h e : history (h ++ [e]) = Arr (map entry_value h ++ [entry_value e]).
Proof. unfold history. rewrite map_app. reflexivity. Qed.

Ltac open_show :=
  cbv beta iota zeta delta
    [exec result mbind mret M_bind M_ret bind ret gets modify lift throw try_catch when
     getItem setItem read_highScores QuizApplication.showHighScore fst snd];
  cbn [fst snd Page.app timer question form board localStorage console events requests
       intervals set_app set_timer set_question set_form set_board set_localStorage
       set_console set_events set_requests set_intervals
       scores items listening HighScore.set_scores HighScore.set_items
       HighScore.set_listening
       score highScores allowTimeoutAction nickname totalTime app_currentQuestion
       currentQuestionIndex highScoreShown form_hidden question_hidden timer_hidden
       board_hidden
       QuizApplication.set_highScoreShown QuizApplication.set_form_hidden
       QuizApplication.set_question_hidden QuizApplication.set_timer_hidden
       QuizApplication.set_board_hidden].

Ltac open_board :=
  cbv beta iota zeta delta
    [exec result mbind mret M_bind M_ret bind ret gets modify lift throw try_catch when
     getItem setItem read_highScores listener run_listeners dispatchEvent
     HighScore.high_score_listeners HighScore.on_high_score HighScore.render
     fst snd];
  cbn [fst snd Page.app timer question form board localStorage console events requests
       intervals set_app set_timer set_question set_form set_board set_localStorage
       set_console set_events set_requests set_intervals
       scores items listening HighScore.set_scores HighScore.set_items
       HighScore.set_listening
       score highScores allowTimeoutAction nickname totalTime app_currentQuestion
       currentQuestionIndex highScoreShown form_hidden question_hidden timer_hidden
       board_hidden
       QuizApplication.set_highScoreShown QuizApplication.set_form_hidden
       QuizApplication.set_question_hidden QuizApplication.set_timer_hidden
       QuizApplication.set_board_hidden].

Lemma stop_timer_frame w :
  let w1 := exec (dispatchEvent StopTimer [CountdownTimer.stopTimer]) w in
  dispatchEvent StopTimer [CountdownTimer.stopTimer] w = (Ret tt, w1)
  /\ app w1 = app w /\ board w1 = board w /\ localStorage w1 = localStorage w
  /\ form w1 = form w /\ question w1 = question w /\ requests w1 = requests w.
Proof.
  destruct w as [a [tl [id|] tts acc [dsp|]] q f b st c e r i]; repeat split; reflexivity.
Qed.

Lemma showHighScore_records (w : world) (h : list (string * Z)) (n : string) (s : Z) :
  persisted w h ->
  safe_scores h -> safe s ->
  highScoreShown (app w) = false ->
  nickname (app w) = Str n ->
  trim n <> "" ->
  let w' := exec (QuizApplication.showHighScore (Num (Int s))) w in
  result (QuizApplication.showHighScore (Num (Int s))) w = Ret tt
  /\ persisted w' (record (n, s) h).
Proof.
  intros (Hst & Hsc & Hli) Hh Hs Hg Hn Ht.
  assert (Hne : String.eqb (trim n) "" = false) by (apply String.eqb_neq, Ht).
  destruct (stop_timer_frame w) as (Hd & Ha & Hb & Hl & _).
  set (w1 := exec (dispatchEvent StopTimer [CountdownTimer.stopTimer]) w) in *.
  clearbody w1.
  assert (Hrd : exists v,
            JSON_parse
              match localStorage w1 !! "highScores" with
              | Some text => Str text
              | None => Null
              end = Ret v
            /\ (if truthy v then v else Arr []) = Arr (map entry_value h)).
  { rewrite Hl. destruct Hst as [Hst|[Hst ->]]; rewrite Hst.
    - exists (history h). split; [apply parse_stringify_history, Hh | reflexivity].
    - exists Null. split; reflexivity. }
  destruct Hrd as (v & Hv & Hvh).
  open_show. rewrite Hg. open_show. rewrite Hd. open_show.
  pose proof Hsc as Hsc'. unfold history in Hsc'.
  rewrite Hv, Hvh, Hn. open_show. rewrite Hne. cbn [negb].
  open_show. unfold find, record.
  destruct (decide ((n, s) ∈ h)) as [Hin|Hin].
  - destruct (find_history_present n s h O Hin) as [j Hj]. rewrite Hj.
    open_show. split; [reflexivity|].
    unfold persisted. cbn [localStorage board set_app]. rewrite Hl, Hb. auto.
  - rewrite (find_history_absent n s h O Hin).
    open_board. rewrite Hb, Hli. open_board. rewrite ?Hb, Hsc'.
    open_board. unfold find. rewrite (find_history_absent n s h O Hin).
    open_board. cbn [negb]. open_board. rewrite lookup_insert_eq.
    replace (Arr (map entry_value h ++ [Obj [("nickname", Str n); ("score", Num (Int s))]]))
      with (history (h ++ [(n, s)])) by apply history_app.
    assert (Hh' : safe_scores (h ++ [(n, s)])).
    { apply Forall_app. split; [exact Hh|]. constructor; [exact Hs | constructor]. }
    rewrite (parse_stringify_history _ Hh').
    change (truthy (history (h ++ [(n, s)]))) with true. cbv iota.
    split; [reflexivity|].
    unfold persisted, history. open_board.
    rewrite lookup_insert_eq, Hb, Hli. auto.
Qed.

Lemma showHighScore_keeps_nickname x acc :
  preserves (fun w => nickname (app w) = x) (QuizApplication.showHighScore acc).
Proof. repeat preserve_step ltac:(idtac; no_special). Qed.

Lemma restart_frame w :
  let w' := exec QuizApplication.restartQuiz w in
  board w' = board w
  /\ nickname (app w') = nickname (app w)
  /\ highScoreShown (app w') = false
  /\ localStorage w' !! "highScores" = localStorage w !! "highScores".
Proof.
  assert (Hs : localStorage (exec QuizApplication.restartQuiz w)
               = delete "nickname" (delete "quizScore" (localStorage w))).
  { destruct w as [a [tl [id|] tts acc [d|]] q f b s c e r i]; reflexivity. }
  cbn zeta. rewrite Hs. rewrite !lookup_delete_ne by discriminate.
  destruct w as [a [tl [id|] tts acc [d|]] q f b s c e r i]; repeat split; reflexivity.
Qed.

Lemma count_record (e : string * Z) h :
  length (filter (fun x => x = e) (record e h))
  = Nat.max 1 (length (filter (fun x => x = e) h)).
Proof.
  unfold record. destruct (decide (e ∈ h)) as [Hin|Hin].
  - assert (1 <= length (filter (fun x => x = e) h))%nat; [|lia].
    assert (He : e ∈ filter (fun x => x = e) h) by (apply list_elem_of_filter; auto).
    destruct (filter (fun x => x = e) h); [inversion He | cbn; lia].
  - rewrite filter_app, length_app.
    assert (H0 : filter (fun x => x = e) h = []).
    { clear -Hin. induction h as [|x h IH]; [reflexivity|].
      apply not_elem_of_cons in Hin as [Hne Hin].
      rewrite filter_cons_False by congruence. apply IH, Hin. }
    rewrite H0. cbn. rewrite decide_True by reflexivity. reflexivity.
Qed.

(** C6. From a persisted history [h] (with scores that a double holds
    exactly), completing a session of nickname [n] with score [s] leaves
    the history [record (n, s) h] persisted: [h] itself when the pair is
    there, [h] with the pair appended when it is not. Recording the same
    pair again in a later session leaves the same history, so the pair is
    stored once when [h] did not hold it. *)
Theorem recorded_once (w : world) (h : list (string * Z)) (n : string) (s : Z) :
  persisted w h ->
  safe_scores h -> safe s ->
  highScoreShown (app w) = false ->
  nickname (app w) = Str n ->
  trim n <> "" ->
  let e := (n, s) in
  let w' := exec (QuizApplication.showHighScore (Num (Int s))) w in
  let again :=
    exec (QuizApplication.showHighScore (Num (Int s)))
      (exec QuizApplication.restartQuiz w') in
  persisted w' (record e h)
  /\ persisted again (record e h)
  /\ (e ∈ h -> record e h = h)
  /\ (e ∉ h -> record e h = h ++ [e])
  /\ length (filter (fun x => x = e) (record e h))
     = Nat.max 1 (length (filter (fun x => x = e) h)).
Proof.
  intros Hp Hh Hs Hg Hn Ht e w' again.
  destruct (showHighScore_records w h n s Hp Hh Hs Hg Hn Ht) as [_ Hp'].
  fold w' e in Hp'.
  assert (Hh' : safe_scores (record e h)).
  { unfold record. destruct (decide (e ∈ h)); [exact Hh|].
    apply Forall_app. split; [exact Hh|]. constructor; [exact Hs | constructor]. }
  assert (Hidem : record e (record e h) = record e h).
  { unfold record at 1. rewrite decide_True; [reflexivity|].
    unfold record. destruct (decide (e ∈ h)); [assumption|].
    apply elem_of_app. right. constructor. }
  split; [exact Hp'|]. split.
  - destruct (restart_frame w') as (Hb & Hnick & Hguard & Hst).
    assert (Hn' : nickname (app w') = Str n).
    { unfold w'. pose proof (showHighScore_keeps_nickname (Str n) (Num (Int s)) w Hn).
      assumption. }
    assert (Hpr : persisted (exec QuizApplication.restartQuiz w') (record e h)).
    { destruct Hp' as (H1 & H2 & H3). unfold persisted. rewrite Hst, Hb. auto. }
    destruct (showHighScore_records _ (record e h) n s Hpr Hh' Hs Hguard
                ltac:(rewrite Hnick; exact Hn') Ht) as [_ Hp''].
    fold e in Hp''. rewrite Hidem in Hp''. exact Hp''.
  - split; [|split].
    + intros Hin. unfold record. rewrite decide_True by exact Hin. reflexivity.
    + intros Hin. unfold record. rewrite decide_False by exact Hin. reflexivity.
    + apply count_record.
Qed.

(** C6, witness: Ada completes twice with a score of three seconds. *)
Lemma recorded_once_witness :
  let w := Scenario.playing in
  let w' := exec (QuizApplication.showHighScore (Num (Int 3))) w in
  let again :=
    exec (QuizApplication.showHighScore (Num (Int 3)))
      (exec QuizApplication.restartQuiz w') in
  persisted w' [("Ada", 3)] /\ persisted again [("Ada", 3)].
Proof.
  assert (Hp : persisted Scenario.playing []).
  { split; [right; split; reflexivity | split; reflexivity]. }
  assert (Hh : safe_scores []) by constructor.
  assert (Hs : safe 3) by (unfold safe; cbn; lia).
  assert (Ht : trim "Ada" <> "") by discriminate.
  destruct (recorded_once Scenario.playing [] "Ada" 3 Hp Hh Hs eq_refl eq_refl Ht)
    as (H1 & H2 & _).
  split; [exact H1 | exact H2].
Defined.

(* ================================================================== *)
(** * The countdown timer: stopping, starting, and the unused paths *)
(* ================================================================== *)

Ltac run_timer_more :=
  cbv beta iota zeta delta
    [exec result mbind mret M_bind M_ret bind ret gets modify lift throw try_catch when
     console_log console_error console_error_exn
     listener run_listeners dispatchEvent
     CountdownTimer.stopTimer CountdownTimer.startTimer CountdownTimer.updateDisplay
     CountdownTimer.setInterval CountdownTimer.tick CountdownTimer.interval
     CountdownTimer.resetAll CountdownTimer.resetTotalTimeSpent
     CountdownTimer.resetAccumulatedTime CountdownTimer.dispatchTotalTimeSpentEvent
     CountdownTimer.accumulateTime CountdownTimer.getTotalTimeSpent
     fst snd];
  cbn.

Lemma stopTimer_returns w :
  CountdownTimer.stopTimer w = (Ret tt, exec CountdownTimer.stopTimer w).
Proof. destruct w as [a [tl [id|] tts acc dsp] q f b s c e r i]; reflexivity. Qed.

Lemma stopTimer_frame w :
  let w' := exec CountdownTimer.stopTimer w in
  stopped w' /\ app w' = app w /\ board w' = board w /\ localStorage w' = localStorage w
  /\ requests w' = requests w.
Proof.
  destruct w as [a [tl [id|] tts acc dsp] q f b s c e r i]; repeat split; reflexivity.
Qed.

Lemma stopTimer_running w a k :
  intervalId (timer w) <> None ->
  accumulatedTime (timer w) = Int a ->
  totalTimeSpent (timer w) = Int k ->
  accumulatedTime (timer (exec CountdownTimer.stopTimer w)) = Int (a + k).
Proof.
  destruct w as [ap [tl [id|] tts acc dsp] q f b s c e r i]; cbn; intros H -> ->;
    [reflexivity | congruence].
Qed.

(** X1. Stopping a stopped timer does nothing: after [stopTimer] the timer
    has no interval, and a second [stopTimer] returns at once, leaving the
    accumulators and the console as they are. *)
Theorem stopTimer_twice (w : world) :
  let w' := exec CountdownTimer.stopTimer w in
  intervalId (timer w') = None
  /\ CountdownTimer.stopTimer w' = (Ret tt, w').
Proof.
  destruct w as [a [tl [id|] tts acc dsp] q f b s c e r i]; run_timer; auto.
Qed.

(** X2. [stopTimer] moves the seconds spent on the question into the
    accumulated time: their sum is the same before and after, the time left
    is not touched, and a running timer is left with zero seconds spent. *)
Theorem stopTimer_folds_spent (w : world) (a k : Z) :
  accumulatedTime (timer w) = Int a ->
  totalTimeSpent (timer w) = Int k ->
  let w' := exec CountdownTimer.stopTimer w in
  (exists a' k',
      accumulatedTime (timer w') = Int a' /\ totalTimeSpent (timer w') = Int k'
      /\ a' + k' = a + k)
  /\ timeLeft (timer w') = timeLeft (timer w)
  /\ (intervalId (timer w) <> None ->
      accumulatedTime (timer w') = Int (a + k) /\ totalTimeSpent (timer w') = Int 0).
Proof.
  destruct w as [ap [tl [id|] tts acc dsp] q f b s c e r i]; cbn; intros -> ->;
    run_timer.
  - split; [exists (a + k), 0; repeat split; lia|]. auto.
  - split; [exists a, k; repeat split; lia|]. split; [reflexivity|congruence].
Qed.

(** X2, witness: three seconds into the question of the example session. *)
Lemma stopTimer_folds_spent_witness :
  let w := exec (seq [tick; tick; tick]) Scenario.playing in
  let w' := exec CountdownTimer.stopTimer w in
  (exists a' k',
      accumulatedTime (timer w') = Int a' /\ totalTimeSpent (timer w') = Int k'
      /\ a' + k' = 0 + 3)
  /\ timeLeft (timer w') = timeLeft (timer w)
  /\ (intervalId (timer w) <> None ->
      accumulatedTime (timer w') = Int (0 + 3) /\ totalTimeSpent (timer w') = Int 0).
Proof.
  apply (stopTimer_folds_spent (exec (seq [tick; tick; tick]) Scenario.playing) 0 3);
    vm_compute; reflexivity.
Defined.

(** X3. A duration that is not a number, or is [NaN], is replaced by 20
    seconds: [startTimer] logs the error and goes on as with 20, so the
    countdown runs from 20. A string of digits is not a number. *)
Theorem startTimer_invalid_duration (w : world) (duration : value) :
  is_number duration = false \/ duration = Num NaN ->
  let logged :=
    set_console
      (fun c => c ++ [LogError "Invalid duration value, using default of 20 seconds"])
      w in
  let w' := exec (CountdownTimer.startTimer duration) w in
  CountdownTimer.startTimer duration w = CountdownTimer.startTimer (Num (Int 20)) logged
  /\ result (CountdownTimer.startTimer duration) w = Ret tt
  /\ timeLeft (timer w') = Int 20
  /\ intervalId (timer w') <> None.
Proof.
  intros H logged w'.
  assert (He : CountdownTimer.startTimer duration w
               = CountdownTimer.startTimer (Num (Int 20)) logged).
  { destruct H as [H | ->]; [destruct duration; try discriminate H|]; reflexivity. }
  split; [exact He|].
  unfold w', result, exec. rewrite He.
  destruct logged as [ap [tl [id|] tts acc [dsp|]] q f b s c e r i];
    repeat split; discriminate.
Qed.

(** X3, witness: the string of digits 10 starts a countdown from 20. *)
Lemma startTimer_invalid_duration_witness :
  let w' := exec (CountdownTimer.startTimer (Str "10")) Scenario.playing in
  timeLeft (timer w') = Int 20 /\ intervalId (timer w') <> None.
Proof.
  destruct (startTimer_invalid_duration Scenario.playing (Str "10") (or_introl eq_refl))
    as (_ & _ & H1 & H2).
  split; [exact H1 | exact H2].
Defined.

(** X4. [accumulateTime] adds nothing: it clears the seconds spent before
    it adds them, so the accumulated time is what it was, whatever was
    spent; it logs that value. *)
Theorem accumulateTime_adds_nothing (w : world) (a : Z) :
  accumulatedTime (timer w) = Int a ->
  let w' := exec CountdownTimer.accumulateTime w in
  result CountdownTimer.accumulateTime w = Ret tt
  /\ accumulatedTime (timer w') = Int a
  /\ totalTimeSpent (timer w') = Int 0
  /\ console w' = console w ++ [Log ("Accumulated Time: " +:+ ToString (Num (Int a)))].
Proof.
  destruct w as [ap [tl id tts acc dsp] q f b s c e r i]; cbn; intros ->.
  run_timer_more. rewrite Z.add_0_r. auto.
Qed.

(** X4, witness: three seconds spent in the example session are dropped. *)
Lemma accumulateTime_adds_nothing_witness :
  let w := exec (seq [tick; tick; tick]) Scenario.playing in
  let w' := exec CountdownTimer.accumulateTime w in
  totalTimeSpent (timer w) = Int 3
  /\ accumulatedTime (timer w') = Int 0
  /\ totalTimeSpent (timer w') = Int 0.
Proof.
  assert (H0 : accumulatedTime (timer (exec (seq [tick; tick; tick]) Scenario.playing))
               = Int 0) by (vm_compute; reflexivity).
  pose proof (accumulateTime_adds_nothing
                (exec (seq [tick; tick; tick]) Scenario.playing) 0 H0) as H.
  cbv zeta in H. destruct H as (_ & Ha & Hk & _).
  split; [vm_compute; reflexivity|]. split; [exact Ha | exact Hk].
Defined.

Lemma getTotalTimeSpent_counting listeners w n k a ev :
  counting w n k a ev -> 0 <= n ->
  CountdownTimer.getTotalTimeSpent listeners w
  = run_listeners (listeners (Int (k + n)))
      (set_events (fun l => l ++ [TotalTimeSpent (Int (k + n))])
         (set_timer (CountdownTimer.set_totalTimeSpent (Int (k + n))) w)).
Proof.
  destruct w as [ap [tl id tts acc dsp] q f b s c e r i];
    unfold counting; cbn; intros (Hid & -> & -> & -> & ->) Hn.
  run_timer_more. unfold gt0; cbn.
  destruct (Z.compare_spec n 0); try lia; run_timer_more.
  - subst n. rewrite Z.add_0_r. reflexivity.
  - reflexivity.
Qed.

Lemma startTimer_fresh w d a :
  accumulatedTime (timer w) = Int a -> totalTimeSpent (timer w) = Int 0 ->
  counting (exec (CountdownTimer.startTimer (Num (Int d))) w) d 0 a (events w).
Proof.
  destruct w as [ap [tl [id|] tts acc [dsp|]] q f b s c e r i]; cbn; intros -> ->;
    unfold counting; run_timer.
  all: rewrite ?Z.add_0_r; repeat split; congruence.
Qed.

(** X5. [getTotalTimeSpent] reports the whole duration of the question,
    not the seconds that passed: on a timer started for [d] seconds, after
    any [j <= d] seconds, it adds the time left to the time spent and emits
    [total-time-spent] with [d]. *)
Theorem getTotalTimeSpent_whole_duration listeners (w : world) (d a : Z) (j : nat) :
  accumulatedTime (timer w) = Int a ->
  totalTimeSpent (timer w) = Int 0 ->
  Z.of_nat j <= d ->
  let now := exec (ticks listeners j) (exec (CountdownTimer.startTimer (Num (Int d))) w) in
  timeLeft (timer now) = Int (d - Z.of_nat j)
  /\ CountdownTimer.getTotalTimeSpent listeners now
     = run_listeners (listeners (Int d))
         (set_events (fun l => l ++ [TotalTimeSpent (Int d)])
            (set_timer (CountdownTimer.set_totalTimeSpent (Int d)) now))
  /\ events now = events w.
Proof.
  intros Ha Hk Hj now.
  pose proof (startTimer_fresh w d a Ha Hk) as Hc.
  pose proof (ticks_counting listeners j _ _ _ _ _ Hc Hj) as Hn.
  fold now in Hn.
  split; [apply Hn|]. split; [|apply Hn].
  rewrite (getTotalTimeSpent_counting listeners now _ _ _ _ Hn) by lia.
  replace (0 + Z.of_nat j + (d - Z.of_nat j)) with d by lia. reflexivity.
Qed.

(** X5, witness: three seconds into a countdown from ten, ten is reported. *)
Lemma getTotalTimeSpent_whole_duration_witness :
  let w := exec load_page (empty_world ∅) in
  let now := exec (ticks (fun _ => []) 3)
               (exec (CountdownTimer.startTimer (Num (Int 10))) w) in
  timeLeft (timer now) = Int (10 - Z.of_nat 3)
  /\ CountdownTimer.getTotalTimeSpent (fun _ => []) now
     = run_listeners []
         (set_events (fun l => l ++ [TotalTimeSpent (Int 10)])
            (set_timer (CountdownTimer.set_totalTimeSpent (Int 10)) now))
  /\ events now = events w.
Proof.
  apply (getTotalTimeSpent_whole_duration (fun _ => [])
           (exec load_page (empty_world ∅)) 10 0 3);
    [vm_compute; reflexivity | vm_compute; reflexivity | simpl; lia].
Defined.

Lemma shows_stopTimer : preserves shows_time_left CountdownTimer.stopTimer.
Proof.
  intros [a [tl [id|] tts acc dsp] q f b s c e r i] H; exact H.
Qed.

Lemma shows_updateDisplay w :
  display (timer w) <> None -> shows_time_left (exec CountdownTimer.updateDisplay w).
Proof.
  destruct w as [a [tl id tts acc [dsp|]] q f b s c e r i]; cbn; intros H;
    [reflexivity | congruence].
Qed.

Lemma shows_startTimer duration w :
  display (timer w) <> None ->
  shows_time_left (exec (CountdownTimer.startTimer duration) w).
Proof.
  destruct w as [a [tl [id|] tts acc [dsp|]] q f b s c e r i]; cbn; intros H;
    try congruence.
  all: destruct duration as [| | |[| | | |]| | |]; reflexivity.
Qed.

Lemma shows_rendered w : shows_time_left w -> display (timer w) <> None.
Proof. unfold shows_time_left. intros ->. discriminate. Qed.

Lemma shows_resetAll : preserves shows_time_left CountdownTimer.resetAll.
Proof.
  intros [a [tl [id|] tts acc [dsp|]] q f b s c e r i] H;
    first [discriminate H | reflexivity].
Qed.

Lemma shows_tick listeners :
  (forall n, Forall (preserves shows_time_left) (listeners n)) ->
  preserves shows_time_left (CountdownTimer.tick listeners).
Proof.
  intros Hl. unfold CountdownTimer.tick.
  apply preserves_bind; [apply preserves_gets | intros t].
  destruct (intervalId t); [|apply preserves_ret].
  unfold CountdownTimer.interval.
  apply preserves_bind; [apply preserves_gets | intros t'].
  destruct (gt0 (timeLeft t')).
  - intros [a [tl id tts acc [dsp|]] q f b s c e r i] H;
      first [discriminate H | reflexivity].
  - apply preserves_bind; [apply shows_stopTimer | intros _].
    unfold CountdownTimer.dispatchTotalTimeSpentEvent.
    apply preserves_bind; [apply preserves_gets | intros t''].
    apply preserves_dispatchEvent;
      [intros ? ? H; exact H | intros ? ? H; exact H | apply Hl].
Qed.

Ltac shows_special :=
  lazymatch goal with
  | |- preserves _ CountdownTimer.stopTimer => apply shows_stopTimer
  | |- preserves _ CountdownTimer.resetAll => apply shows_resetAll
  | |- preserves _ (CountdownTimer.startTimer _) =>
      let w := fresh "w" in let H := fresh "H" in
      intros w H; apply shows_startTimer, shows_rendered, H
  | |- preserves _ (CountdownTimer.tick _) =>
      apply shows_tick; intros ?; constructor; [|constructor]
  end.

(** X6. Once a countdown has been started on the rendered timer, the
    display always shows the time left: [startTimer] writes it, and every
    handler of the page (a second passing, a response arriving, an answer,
    a completion, a restart) leaves the display in step with the time
    left. *)
Theorem display_shows_time_left :
  (forall w duration,
      display (timer w) <> None ->
      shows_time_left (exec (CountdownTimer.startTimer duration) w))
  /\ (forall a w, shows_time_left w -> shows_time_left (exec (run a) w)).
Proof.
  split; [intros w d; apply shows_startTimer|].
  intros a. change (preserves shows_time_left (run a)).
  destruct a; unfold run, Browser.tick;
    repeat preserve_step ltac:(idtac; shows_special).
Qed.

(** X6, witness: a second of the example session, and a restart after its completion. *)
Lemma display_shows_time_left_witness :
  shows_time_left (exec (run Second) Scenario.playing)
  /\ shows_time_left (exec (run ClickTryAgain) Scenario.timed_out).
Proof.
  destruct display_shows_time_left as [_ H].
  split; apply H; vm_compute; reflexivity.
Defined.

(* ================================================================== *)
(** * The question display: alternatives, and the unused paths *)
(* ================================================================== *)

Lemma choice_mode_truthy v : QuizQuestion.choice_mode v = true -> truthy v = true.
Proof.
  unfold QuizQuestion.choice_mode. destruct (truthy v); [reflexivity|discriminate].
Qed.

Lemma handleAnswerClick_choice listeners w radios checked tgt :
  optionsContainer (question w) = ChoiceForm radios checked ->
  truthy (prop (currentQuestion (question w)) "alternatives") = true ->
  is_nullish (currentQuestion (question w)) = false ->
  let answer := match checked with Some key => Str key | None => Null end in
  QuizQuestion.handleAnswerClick (Some tgt) listeners w
  = run_listeners (listeners answer)
      (set_events (fun l => l ++ [AnswerSelected answer])
         (set_question (QuizQuestion.set_currentSelectedAnswer answer) w)).
Proof.
  intros Ho Halt Hn.
  unfold QuizQuestion.handleAnswerClick, get_prop, dispatchEvent,
    mbind, mret, M_bind, M_ret, bind, ret, gets, modify.
  rewrite Hn. cbn beta iota. rewrite Halt, Ho. destruct checked; reflexivity.
Qed.

Lemma handleAnswerClick_no_radio listeners w text tgt :
  optionsContainer (question w) = TextInput text ->
  truthy (prop (currentQuestion (question w)) "alternatives") = true ->
  is_nullish (currentQuestion (question w)) = false ->
  QuizQuestion.handleAnswerClick (Some tgt) listeners w
  = run_listeners (listeners Null)
      (set_events (fun l => l ++ [AnswerSelected Null])
         (set_question (QuizQuestion.set_currentSelectedAnswer Null) w)).
Proof.
  intros Ho Halt Hn.
  unfold QuizQuestion.handleAnswerClick, get_prop, dispatchEvent,
    mbind, mret, M_bind, M_ret, bind, ret, gets, modify.
  rewrite Hn. cbn beta iota. rewrite Halt, Ho. reflexivity.
Qed.

(** X7. A question with two to ten alternatives is shown as a form with
    one radio button per alternative, none checked. With the button of
    [key] checked, a click on the submit button emits [answer-selected]
    with [key], records it as the selected answer and runs the listeners;
    with none checked a click emits nothing and changes nothing. *)
Theorem choice_submit (listeners : value -> list (M unit)) (w : world) (q : value)
    (key : string) :
  truthy q = true ->
  QuizQuestion.choice_mode (prop q "alternatives") = true ->
  existsb (fun r => String.eqb (fst r) key) (entries (prop q "alternatives")) = true ->
  let asked := exec (QuizQuestion.setQuestion q) w in
  let shown := exec (QuizQuestion.check key) asked in
  let emitted :=
    set_events (fun l => l ++ [AnswerSelected (Str key)])
      (set_question (QuizQuestion.set_currentSelectedAnswer (Str key)) shown) in
  (exists radios,
      Permutation radios (entries (prop q "alternatives"))
      /\ optionsContainer (question asked) = ChoiceForm radios None
      /\ optionsContainer (question shown) = ChoiceForm radios (Some key))
  /\ QuizQuestion.click listeners asked = (Ret tt, asked)
  /\ QuizQuestion.click listeners shown = run_listeners (listeners (Str key)) emitted.
Proof.
  intros Hq Hc Hk asked shown emitted.
  assert (Ha : optionsContainer (question asked)
               = ChoiceForm (entries (prop q "alternatives")) None).
  { unfold asked, QuizQuestion.setQuestion. rewrite Hq, Hc. reflexivity. }
  assert (Hcur : currentQuestion (question asked) = q).
  { unfold asked, QuizQuestion.setQuestion. rewrite Hq, Hc. reflexivity. }
  assert (Hs : question shown
               = QuizQuestion.set_optionsContainer
                   (ChoiceForm (entries (prop q "alternatives")) (Some key))
                   (question asked)).
  { unfold shown, QuizQuestion.check, exec, modify. cbn [snd question set_question].
    rewrite Ha, Hk. reflexivity. }
  split; [|split].
  - exists (entries (prop q "alternatives")).
    split; [reflexivity|]. split; [exact Ha | rewrite Hs; reflexivity].
  - unfold QuizQuestion.click, mbind, M_bind, bind, gets. rewrite Ha. reflexivity.
  - unfold QuizQuestion.click, mbind, M_bind, bind, gets. rewrite Hs.
    cbn [optionsContainer QuizQuestion.set_optionsContainer].
    apply (handleAnswerClick_choice listeners shown
             (entries (prop q "alternatives")) (Some key) QuizQuestion.Radio).
    + rewrite Hs. reflexivity.
    + rewrite Hs. cbn [currentQuestion QuizQuestion.set_optionsContainer].
      rewrite Hcur. apply choice_mode_truthy, Hc.
    + rewrite Hs. cbn [currentQuestion QuizQuestion.set_optionsContainer].
      rewrite Hcur. apply truthy_not_nullish, Hq.
Qed.

(** X7, witness: a question with two alternatives, the first one checked. *)
Lemma choice_submit_witness :
  let listeners := fun a => [QuizApplication.on_answer_selected a] in
  let q := Obj [("question", Str "1+1?");
                ("alternatives", Obj [("alt1", Str "2"); ("alt2", Str "3")]);
                ("nextURL", Str "/a/2")] in
  let asked := exec (QuizQuestion.setQuestion q) Scenario.playing in
  let shown := exec (QuizQuestion.check "alt1") asked in
  let emitted :=
    set_events (fun l => l ++ [AnswerSelected (Str "alt1")])
      (set_question (QuizQuestion.set_currentSelectedAnswer (Str "alt1")) shown) in
  QuizQuestion.click listeners asked = (Ret tt, asked)
  /\ QuizQuestion.click listeners shown = run_listeners (listeners (Str "alt1")) emitted.
Proof.
  pose proof (choice_submit (fun a => [QuizApplication.on_answer_selected a])
                Scenario.playing
                (Obj [("question", Str "1+1?");
                      ("alternatives", Obj [("alt1", Str "2"); ("alt2", Str "3")]);
                      ("nextURL", Str "/a/2")])
                "alt1" eq_refl eq_refl eq_refl) as (_ & H2 & H3).
  split; [exact H2 | exact H3].
Defined.

(** X8. Alternatives that are there but cannot be offered (fewer than two,
    more than ten, or not an object) give a text field, and what is typed
    in it is never sent: the handler looks for a checked radio button,
    finds none, and both the button and the Enter key emit
    [answer-selected] with [null]. *)
Theorem unusable_alternatives_lose_text (listeners : value -> list (M unit)) (w : world)
    (q : value) (text : string) :
  truthy q = true ->
  truthy (prop q "alternatives") = true ->
  QuizQuestion.choice_mode (prop q "alternatives") = false ->
  let shown := exec (QuizQuestion.type text) (exec (QuizQuestion.setQuestion q) w) in
  let emitted :=
    set_events (fun l => l ++ [AnswerSelected Null])
      (set_question (QuizQuestion.set_currentSelectedAnswer Null) shown) in
  optionsContainer (question shown) = TextInput text
  /\ QuizQuestion.click listeners shown = run_listeners (listeners Null) emitted
  /\ QuizQuestion.keydown "Enter" listeners shown = run_listeners (listeners Null) emitted.
Proof.
  intros Hq Halt Hc shown emitted.
  assert (Ho : optionsContainer (question shown) = TextInput text).
  { unfold shown, QuizQuestion.setQuestion, QuizQuestion.type. rewrite Hq, Hc.
    reflexivity. }
  assert (Hcur : currentQuestion (question shown) = q).
  { unfold shown, QuizQuestion.setQuestion, QuizQuestion.type. rewrite Hq, Hc.
    reflexivity. }
  assert (Hn : is_nullish (currentQuestion (question shown)) = false)
    by (rewrite Hcur; apply truthy_not_nullish, Hq).
  assert (Ha : truthy (prop (currentQuestion (question shown)) "alternatives") = true)
    by (rewrite Hcur; exact Halt).
  split; [exact Ho|]. split.
  - unfold QuizQuestion.click, mbind, M_bind, bind, gets. rewrite Ho.
    apply (handleAnswerClick_no_radio listeners shown text QuizQuestion.Input); assumption.
  - unfold QuizQuestion.keydown, mbind, M_bind, bind, gets. rewrite Ho.
    cbn [String.eqb].
    apply (handleAnswerClick_no_radio listeners shown text QuizQuestion.Input); assumption.
Qed.

(** X8, witness: a question with a single alternative. *)
Lemma unusable_alternatives_lose_text_witness :
  let listeners := fun a => [QuizApplication.on_answer_selected a] in
  let q := Obj [("question", Str "1+1?"); ("alternatives", Obj [("alt1", Str "2")]);
                ("nextURL", Str "/a/2")] in
  let shown := exec (QuizQuestion.type "2") (exec (QuizQuestion.setQuestion q)
                                                 Scenario.playing) in
  let emitted :=
    set_events (fun l => l ++ [AnswerSelected Null])
      (set_question (QuizQuestion.set_currentSelectedAnswer Null) shown) in
  optionsContainer (question shown) = TextInput "2"
  /\ QuizQuestion.click listeners shown = run_listeners (listeners Null) emitted
  /\ QuizQuestion.keydown "Enter" listeners shown = run_listeners (listeners Null) emitted.
Proof.
  apply (unusable_alternatives_lose_text
           (fun a => [QuizApplication.on_answer_selected a]) Scenario.playing
           (Obj [("question", Str "1+1?"); ("alternatives", Obj [("alt1", Str "2")]);
                 ("nextURL", Str "/a/2")])
           "2"); reflexivity.
Defined.

(** X9. [handleTextAnswer] never emits an empty answer: with a text field
    whose trimmed text is not empty it emits [answer-selected] with that
    text and runs the listeners, leaving the selected answer as it was;
    in every other state it returns and changes nothing. *)
Theorem handleTextAnswer_never_empty (listeners : value -> list (M unit)) (w : world) :
  (exists text,
      optionsContainer (question w) = TextInput text /\ trim text <> ""
      /\ QuizQuestion.handleTextAnswer listeners w
         = run_listeners (listeners (Str (trim text)))
             (set_events (fun l => l ++ [AnswerSelected (Str (trim text))]) w))
  \/ ((forall text, optionsContainer (question w) = TextInput text -> trim text = "")
      /\ QuizQuestion.handleTextAnswer listeners w = (Ret tt, w)).
Proof.
  unfold QuizQuestion.handleTextAnswer, dispatchEvent, mbind, mret, M_bind, M_ret,
    bind, ret, gets, modify.
  destruct (optionsContainer (question w)) as [| radios checked | text] eqn:Ho.
  - right. split; [intros text H; discriminate H | reflexivity].
  - right. split; [intros text H; discriminate H | reflexivity].
  - destruct (String.eqb (trim text) "") eqn:He.
    + right. apply String.eqb_eq in He.
      split; [intros t [= <-]; exact He | reflexivity].
    + left. exists text. apply String.eqb_neq in He. auto.
Qed.

(** X9, witness: three spaces typed in the example session are not sent. *)
Lemma handleTextAnswer_never_empty_witness :
  QuizQuestion.handleTextAnswer (fun _ => [])
    (exec (QuizQuestion.type "   ") Scenario.playing)
  = (Ret tt, exec (QuizQuestion.type "   ") Scenario.playing).
Proof.
  destruct (handleTextAnswer_never_empty (fun _ => [])
              (exec (QuizQuestion.type "   ") Scenario.playing))
    as [(text & Ho & Hne & _) | [_ H]]; [|exact H].
  exfalso. apply Hne.
  assert (E : optionsContainer (question (exec (QuizQuestion.type "   ") Scenario.playing))
              = TextInput "   ") by (vm_compute; reflexivity).
  rewrite E in Ho. injection Ho as <-. vm_compute. reflexivity.
Defined.

(** X10. [validateQuestionFormat] is truthy exactly for a truthy question
    whose [question] field is a string and whose [nextURL] is truthy, and
    then its value is that [nextURL], not [true]: a question without a next
    URL does not pass. *)
Theorem validateQuestionFormat_result (q : value) :
  truthy (QuizQuestion.validateQuestionFormat q)
  = truthy q
    && match typeof (prop q "question") with TString => true | _ => false end
    && truthy (prop q "nextURL")
  /\ (truthy (QuizQuestion.validateQuestionFormat q) = true ->
      QuizQuestion.validateQuestionFormat q = prop q "nextURL").
Proof.
  unfold QuizQuestion.validateQuestionFormat.
  destruct (truthy q) eqn:Hq; cbn [andb].
  - destruct (typeof (prop q "question")); cbn;
      (split; [reflexivity | intros H; first [reflexivity | discriminate H]]).
  - rewrite Hq. split; [reflexivity | discriminate].
Qed.

(** X10, witness: the question of the example session gives its next URL. *)
Lemma validateQuestionFormat_result_witness :
  QuizQuestion.validateQuestionFormat (app_currentQuestion (app Scenario.playing))
  = Str "/q/2".
Proof.
  apply (proj2 (validateQuestionFormat_result
                  (app_currentQuestion (app Scenario.playing)))).
  vm_compute. reflexivity.
Defined.

(* ================================================================== *)
(** * The orchestrator: nickname, answers, and failures *)
(* ================================================================== *)

Ltac run_app :=
  cbv beta iota zeta delta
    [exec result mbind mret M_bind M_ret bind ret gets modify lift throw try_catch when
     console_log console_error console_error_exn getItem setItem removeItem fetch
     get_prop json listener run_listeners dispatchEvent
     NicknameForm.submit submit_nickname
     QuizApplication.on_nickname QuizApplication.fetchQuestions
     QuizApplication.fetchNextQuestion QuizApplication.submitAnswer
     QuizApplication.submitAnswer_resume QuizApplication.on_answer_selected
     fst snd];
  cbn [fst snd Page.app timer question form board localStorage console events requests
       intervals set_app set_timer set_question set_form set_board set_localStorage
       set_console set_events set_requests set_intervals input
       score highScores allowTimeoutAction nickname totalTime app_currentQuestion
       currentQuestionIndex highScoreShown form_hidden question_hidden timer_hidden
       board_hidden
       QuizApplication.set_score QuizApplication.set_nickname
       QuizApplication.set_totalTime QuizApplication.set_currentQuestion
       QuizApplication.set_currentQuestionIndex QuizApplication.set_highScoreShown
       QuizApplication.set_form_hidden QuizApplication.set_question_hidden
       QuizApplication.set_timer_hidden QuizApplication.set_board_hidden].

(** X11. Submitting the nickname form: a field that is empty or holds
    white space only emits nothing and changes nothing. Otherwise the
    trimmed nickname is emitted once; the application keeps it, stores it
    under the key [nickname], sets the score to zero, hides the form, shows
    the question and the timer, and requests the first question. The
    completion guard is left as it was. *)
Theorem nickname_submission (w : world) :
  let n := trim (input (form w)) in
  let w' := exec submit_nickname w in
  (n = "" -> submit_nickname w = (Ret tt, w))
  /\ (n <> "" ->
      result submit_nickname w = Ret tt
      /\ events w' = events w ++ [Nickname n]
      /\ nickname (app w') = Str n
      /\ localStorage w' = <["nickname" := n]> (localStorage w)
      /\ score (app w') = Num (Int 0)
      /\ requests w' = requests w ++ [GET (Str "https://courselab.lnu.se/quiz/question/1")]
      /\ (form_hidden (app w'), question_hidden (app w'), timer_hidden (app w'))
         = (true, false, false)
      /\ highScoreShown (app w') = highScoreShown (app w)
      /\ board_hidden (app w') = board_hidden (app w)).
Proof.
  intros n w'. subst w'. split; intros Hn.
  - run_app. unfold truthy. fold n. rewrite Hn. reflexivity.
  - apply String.eqb_neq in Hn. run_app. unfold truthy. fold n. rewrite Hn.
    cbn [negb]. run_app. repeat split; reflexivity.
Qed.

(** X11, witness: a blank field, and a nickname with spaces around it. *)
Lemma nickname_submission_witness :
  submit_nickname (exec (NicknameForm.type "   ") (exec load_page (empty_world ∅)))
  = (Ret tt, exec (NicknameForm.type "   ") (exec load_page (empty_world ∅)))
  /\ nickname (app (exec submit_nickname
                      (exec (NicknameForm.type " Ada ") (exec load_page (empty_world ∅)))))
     = Str "Ada".
Proof.
  split.
  - apply (proj1 (nickname_submission
                    (exec (NicknameForm.type "   ") (exec load_page (empty_world ∅))))).
    vm_compute. reflexivity.
  - assert (H : trim (input (form (exec (NicknameForm.type " Ada ")
                                     (exec load_page (empty_world ∅))))) <> "")
      by (vm_compute; discriminate).
    apply (proj2 (nickname_submission
                    (exec (NicknameForm.type " Ada ") (exec load_page (empty_world ∅))))
             H).
Defined.

Lemma result_try_catch_log (m : M unit) w :
  result (try_catch m console_error_exn) w = Ret tt.
Proof.
  unfold result, try_catch. destruct (m w) as [[[]|e] w']; reflexivity.
Qed.

(** X12. No failure escapes [fetchQuestions] or [submitAnswer]: whatever
    the response and the state of the page, each stretch of them between
    two [await]s returns; an error is caught and logged. *)
Theorem fetch_and_submit_never_throw (w : world) (r : response) (answer : value) :
  result (QuizApplication.fetchQuestions_resume r) w = Ret tt
  /\ result (QuizApplication.submitAnswer answer) w = Ret tt
  /\ result (QuizApplication.submitAnswer_resume r) w = Ret tt
  /\ result (QuizApplication.submitAnswer_next r) w = Ret tt.
Proof. repeat split; apply result_try_catch_log. Qed.

Lemma exec_try_catch_log (P : world -> Prop) (m : M unit) w :
  (forall f w, P w -> P (set_console f w)) ->
  P (exec m w) -> P (exec (try_catch m console_error_exn) w).
Proof.
  intros Hc. unfold exec, try_catch. destruct (m w) as [[[]|e] w']; cbn [snd].
  - exact id.
  - apply Hc.
Qed.

Lemma stopped_stopTimer : preserves stopped CountdownTimer.stopTimer.
Proof. intros [a [tl [id|] tts acc dsp] q f b s c e r i] H; first [exact H | reflexivity]. Qed.

Ltac stopped_special :=
  lazymatch goal with
  | |- preserves _ CountdownTimer.stopTimer => apply stopped_stopTimer
  end.

Lemma stopped_showHighScore acc : preserves stopped (QuizApplication.showHighScore acc).
Proof. repeat preserve_step ltac:(idtac; stopped_special). Qed.

Lemma stopTimer_keeps_requests x : preserves (fun w => requests w = x) CountdownTimer.stopTimer.
Proof. repeat preserve_step ltac:(idtac; no_special). Qed.

Lemma json_body text data w : JSON_parse (Str text) = Ret data -> json (Body text) w = (Ret data, w).
Proof. intros H. unfold json, lift. rewrite H. reflexivity. Qed.

(** X13. An answer of the server that names no next question ends the
    session, whether it is the last answer or a wrong one: the timer is
    stopped, and the completion handling runs with the accumulated time,
    which includes the seconds spent on this question; what it throws is
    caught and logged. Afterwards the guard is set, the timer is stopped
    and no request was issued. *)
Theorem final_answer_completes (w : world) (text : string) (data : value) (a k : Z) :
  JSON_parse (Str text) = Ret data ->
  names_no_next data ->
  intervalId (timer w) <> None ->
  accumulatedTime (timer w) = Int a ->
  totalTimeSpent (timer w) = Int k ->
  let w1 := exec CountdownTimer.stopTimer w in
  let w' := exec (QuizApplication.submitAnswer_resume (Body text)) w in
  QuizApplication.submitAnswer_resume (Body text) w
  = try_catch (QuizApplication.showHighScore (Num (Int (a + k)))) console_error_exn w1
  /\ highScoreShown (app w') = true
  /\ stopped w'
  /\ requests w' = requests w.
Proof.
  intros Hp Hno Hrun Ha Hk w1 w'.
  assert (Hacc : accumulatedTime (timer w1) = Int (a + k)).
  { apply stopTimer_running; assumption. }
  assert (Hst : CountdownTimer.stopTimer w = (Ret tt, w1)) by apply stopTimer_returns.
  assert (Heq : QuizApplication.submitAnswer_resume (Body text) w
                = try_catch (QuizApplication.showHighScore (Num (Int (a + k))))
                    console_error_exn w1).
  { unfold QuizApplication.submitAnswer_resume, try_catch at 1 3.
    unfold mbind, M_bind, bind at 1. rewrite (json_body text data w Hp).
    unfold names_no_next in Hno. rewrite Hno.
    unfold mbind, M_bind, bind at 1. rewrite Hst.
    unfold bind, gets. cbn beta iota. rewrite Hacc. reflexivity. }
  split; [exact Heq|].
  unfold w', exec. rewrite Heq.
  change (snd (try_catch (QuizApplication.showHighScore (Num (Int (a + k))))
                 console_error_exn w1))
    with (exec (try_catch (QuizApplication.showHighScore (Num (Int (a + k))))
                  console_error_exn) w1).
  split; [|split].
  - apply (exec_try_catch_log (fun w => highScoreShown (app w) = true));
      [intros ? ? H; exact H | apply showHighScore_sets_guard].
  - apply (exec_try_catch_log stopped); [intros ? ? H; exact H|].
    apply stopped_showHighScore. unfold w1.
    destruct (stopTimer_frame w) as [H _]. exact H.
  - apply (exec_try_catch_log (fun w' => requests w' = requests w));
      [intros ? ? H; exact H|].
    apply showHighScore_keeps_requests. unfold w1.
    apply stopTimer_keeps_requests. reflexivity.
Qed.

(** X13, witness: the answer of the server is the empty object, three seconds into the question. *)
Lemma final_answer_completes_witness :
  let w := exec (seq [tick; tick; tick]) Scenario.playing in
  let w' := exec (QuizApplication.submitAnswer_resume (Body "{}")) w in
  highScoreShown (app w') = true /\ stopped w' /\ requests w' = requests w
  /\ localStorage w' !! "highScores" = Some (JSON_stringify (history [("Ada", 3)])).
Proof.
  assert (H1 : JSON_parse (Str "{}") = Ret (Obj [])) by (vm_compute; reflexivity).
  assert (H3 : intervalId (timer (exec (seq [tick; tick; tick]) Scenario.playing)) <> None)
    by (vm_compute; discriminate).
  assert (H4 : accumulatedTime (timer (exec (seq [tick; tick; tick]) Scenario.playing))
               = Int 0) by (vm_compute; reflexivity).
  assert (H5 : totalTimeSpent (timer (exec (seq [tick; tick; tick]) Scenario.playing))
               = Int 3) by (vm_compute; reflexivity).
  pose proof (final_answer_completes (exec (seq [tick; tick; tick]) Scenario.playing)
                "{}" (Obj []) 0 3 H1 eq_refl H3 H4 H5) as (_ & Hg & Hs & Hr).
  split; [exact Hg|]. split; [exact Hs|]. split; [exact Hr|].
  vm_compute. reflexivity.
Defined.

(** X14. An answer of the server that names a next question makes the
    application request that question and nothing else: no event, no
    change of the timer or of the page. *)
Theorem next_question_is_requested (w : world) (text : string) (data : value) :
  JSON_parse (Str text) = Ret data ->
  truthy data = true ->
  truthy (prop data "nextURL") = true ->
  QuizApplication.submitAnswer_resume (Body text) w
  = (Ret tt, set_requests (fun l => l ++ [GET (prop data "nextURL")]) w).
Proof.
  intros Hp Hd Hn.
  unfold QuizApplication.submitAnswer_resume, try_catch at 1.
  unfold mbind, M_bind, bind at 1. rewrite (json_body text data w Hp).
  rewrite Hd, Hn. reflexivity.
Qed.

(** X14, witness: the server names the third question. *)
Lemma next_question_is_requested_witness :
  QuizApplication.submitAnswer_resume (Body (next_text "/q/3")) Scenario.playing
  = (Ret tt, set_requests (fun l => l ++ [GET (Str "/q/3")]) Scenario.playing).
Proof.
  assert (H : JSON_parse (Str (next_text "/q/3")) = Ret (Obj [("nextURL", Str "/q/3")]))
    by (vm_compute; reflexivity).
  exact (next_question_is_requested Scenario.playing (next_text "/q/3")
           (Obj [("nextURL", Str "/q/3")]) H eq_refl eq_refl).
Defined.

Lemma stringify_answer s :
  stringify (Obj [("answer", Str s)])
  = Some ("{"%char :: dquote :: flat_map escape (list_ascii_of_string "answer")
            ++ dquote :: ":"%char :: dquote :: flat_map escape (list_ascii_of_string s)
            ++ [dquote; "}"%char]).
Proof.
  cbn [stringify flat_map snd fst join Datatypes.app]. unfold quote.
  rewrite ?app_nil_r.
  repeat (rewrite <- ?app_assoc, <- ?app_comm_cons; cbn [Datatypes.app]).
  reflexivity.
Qed.

Lemma parse_answer_body s :
  JSON_parse (Str (JSON_stringify (Obj [("answer", Str s)]))) = Ret (Obj [("answer", Str s)]).
Proof.
  unfold JSON_parse, JSON_stringify, parse_text.
  rewrite stringify_answer. cbn [default from_option id to_text].
  rewrite list_ascii_of_string_of_list_ascii.
  set (body := flat_map escape (list_ascii_of_string s) ++ [dquote; "}"%char]).
  cbn [length]. 
  match goal with
  | |- context [parse_value ?n _] =>
      replace n with (S (S (S (n - 3)))) by lia
  end.
  rewrite parse_value_object.
  erewrite parse_members_last;
    [ | apply (parse_string_quote (list_ascii_of_string "answer"))
      | rewrite parse_value_string; unfold body;
        change [dquote; "}"%char] with (dquote :: ["}"%char]);
        rewrite parse_string_quote; reflexivity ].
  unfold fields_of. cbn. rewrite string_of_list_ascii_of_string. reflexivity.
Qed.

(** X15. [submitAnswer] posts the answer to the [nextURL] of the current
    question, as the JSON text of [{answer}]; for an answer that is a
    string, whatever its characters, that text reads back as an object whose
    [answer] is the string. With no current question nothing is sent: the
    [TypeError] is caught and logged. *)
Theorem submitAnswer_posts (w : world) (answer : value) :
  (is_nullish (app_currentQuestion (app w)) = false ->
   QuizApplication.submitAnswer answer w
   = (Ret tt,
      set_requests
        (fun l => l ++ [POST (prop (app_currentQuestion (app w)) "nextURL")
                          (JSON_stringify (Obj [("answer", answer)]))]) w))
  /\ (is_nullish (app_currentQuestion (app w)) = true ->
      QuizApplication.submitAnswer answer w
      = (Ret tt, set_console (fun c => c ++ [LogException TypeError]) w))
  /\ (forall s, answer = Str s ->
        JSON_parse (Str (JSON_stringify (Obj [("answer", answer)])))
        = Ret (Obj [("answer", Str s)])).
Proof.
  split; [|split].
  - intros H. unfold QuizApplication.submitAnswer. run_app. rewrite H. reflexivity.
  - intros H. unfold QuizApplication.submitAnswer. run_app. rewrite H. reflexivity.
  - intros s ->. apply parse_answer_body.
Qed.

(** X15, witness: the answer 4 in the example session. *)
Lemma submitAnswer_posts_witness :
  QuizApplication.submitAnswer (Str "4") Scenario.playing
  = (Ret tt,
     set_requests
       (fun l => l ++ [POST (Str "/q/2") (JSON_stringify (Obj [("answer", Str "4")]))])
       Scenario.playing).
Proof.
  apply (proj1 (submitAnswer_posts Scenario.playing (Str "4"))).
  vm_compute. reflexivity.
Defined.

(* ================================================================== *)
(** * The history: loading the page, and the board *)
(* ================================================================== *)

(** X16. What the program writes under [highScores] it reads back
    unchanged: when the key holds the JSON text of a history whose scores
    are integers that a double holds exactly, each load of the history
    returns that history and leaves the page as it is. *)
Theorem history_read_back (w : world) (h : list (string * Z)) :
  localStorage w !! "highScores" = Some (JSON_stringify (history h)) ->
  safe_scores h ->
  read_highScores w = (Ret (history h), w).
Proof.
  intros Hst Hs. rewrite read_highScores_eq, Hst.
  rewrite (parse_stringify_history h Hs). reflexivity.
Qed.

(** X16, witness: the history left by the example session that timed out. *)
Lemma history_read_back_witness :
  read_highScores Scenario.timed_out = (Ret (history [("Ada", 10)]), Scenario.timed_out).
Proof.
  apply (history_read_back Scenario.timed_out [("Ada", 10)]).
  - vm_compute. reflexivity.
  - repeat constructor.
Defined.

Lemma read_history w h :
  (localStorage w !! "highScores" = Some (JSON_stringify (history h))
   \/ (localStorage w !! "highScores" = None /\ h = [])) ->
  safe_scores h ->
  read_highScores w = (Ret (Arr (map entry_value h)), w).
Proof.
  intros [Hst | [Hst ->]] Hs.
  - rewrite read_highScores_eq, Hst, (parse_stringify_history h Hs). reflexivity.
  - rewrite read_highScores_eq, Hst. reflexivity.
Qed.

Ltac run_load :=
  cbv beta iota zeta delta
    [exec result mbind mret M_bind M_ret bind ret gets modify lift throw try_catch when
     listener run_listeners
     load_page empty_world
     QuizApplication.constructor QuizApplication.render
     QuizApplication.initializeComponents QuizApplication.connectedCallback
     NicknameForm.render NicknameForm.connectedCallback
     QuizQuestion.constructor QuizQuestion.render QuizQuestion.connectedCallback
     CountdownTimer.constructor CountdownTimer.render CountdownTimer.connectedCallback
     HighScore.constructor HighScore.render HighScore.connectedCallback
     fst snd];
  cbn [fst snd Page.app timer question form board localStorage console events requests
       intervals set_app set_timer set_question set_form set_board set_localStorage
       set_console set_events set_requests set_intervals
       scores items listening HighScore.set_scores HighScore.set_items
       HighScore.set_listening
       score highScores allowTimeoutAction nickname totalTime app_currentQuestion
       currentQuestionIndex highScoreShown form_hidden question_hidden timer_hidden
       board_hidden
       QuizApplication.set_score
       QuizApplication.set_highScoreShown QuizApplication.set_form_hidden
       QuizApplication.set_question_hidden QuizApplication.set_timer_hidden
       QuizApplication.set_board_hidden].

Lemma load_page_state storage h :
  (storage !! "highScores" = Some (JSON_stringify (history h))
   \/ (storage !! "highScores" = None /\ h = [])) ->
  safe_scores h ->
  let w := exec load_page (empty_world storage) in
  result load_page (empty_world storage) = Ret tt
  /\ persisted w h
  /\ highScores (app w) = history h
  /\ items (board w) = imap HighScore.line (HighScore.topFiveScores (map entry_value h))
  /\ localStorage w = storage
  /\ (form_hidden (app w), question_hidden (app w), timer_hidden (app w),
      board_hidden (app w)) = (false, false, true, true)
  /\ highScoreShown (app w) = false
  /\ stopped w
  /\ accumulatedTime (timer w) = Int 0
  /\ totalTimeSpent (timer w) = Int 0.
Proof.
  intros Hst Hs.
  assert (Hr : forall w, localStorage w = storage ->
                 read_highScores w = (Ret (Arr (map entry_value h)), w)).
  { intros w Hw. apply read_history; [rewrite Hw; exact Hst | exact Hs]. }
  run_load.
  rewrite Hr by reflexivity. run_load.
  rewrite Hr by reflexivity. run_load.
  rewrite Hr by reflexivity. run_load.
  unfold persisted, stopped.
  cbn [localStorage board scores listening timer intervalId accumulatedTime
         totalTimeSpent].
  repeat split; try reflexivity. exact Hst.
Qed.

(** X17. Loading the page over a storage that holds a history written by
    the program (or none) succeeds and leaves the board in step with the
    storage and listening, as the completion handling expects: the
    application and the board hold the history, the board lists its five
    best entries, the storage is untouched, the form and the question
    component are visible, the timer and the board are hidden, the timer is
    stopped and the completion guard is unset. *)
Theorem load_page_persisted (storage : gmap string string) (h : list (string * Z)) :
  (storage !! "highScores" = Some (JSON_stringify (history h))
   \/ (storage !! "highScores" = None /\ h = [])) ->
  safe_scores h ->
  let w := exec load_page (empty_world storage) in
  result load_page (empty_world storage) = Ret tt
  /\ persisted w h
  /\ highScores (app w) = history h
  /\ items (board w) = imap HighScore.line (HighScore.topFiveScores (map entry_value h))
  /\ localStorage w = storage
  /\ (form_hidden (app w), question_hidden (app w), timer_hidden (app w),
      board_hidden (app w)) = (false, false, true, true)
  /\ highScoreShown (app w) = false
  /\ stopped w.
Proof.
  intros Hst Hs.
  destruct (load_page_state storage h Hst Hs)
    as (H1 & H2 & H3 & H4 & H5 & H6 & H7 & H8 & _).
  auto 10.
Qed.

(** X17, witness: a stored history of two entries, listed best first. *)
Lemma load_page_persisted_witness :
  let storage : gmap string string :=
    {[ "highScores" := JSON_stringify (history [("Ada", 3); ("Bo", 2)]) ]} in
  let w := exec load_page (empty_world storage) in
  persisted w [("Ada", 3); ("Bo", 2)]
  /\ items (board w) = [("1. Bo", "2"); ("2. Ada", "3")].
Proof.
  assert (H1 : ({[ "highScores" := JSON_stringify (history [("Ada", 3); ("Bo", 2)]) ]}
                 : gmap string string) !! "highScores"
               = Some (JSON_stringify (history [("Ada", 3); ("Bo", 2)])))
    by apply lookup_singleton_eq.
  assert (H2 : safe_scores [("Ada", 3); ("Bo", 2)]).
  { repeat constructor; unfold safe; cbn; lia. }
  pose proof (load_page_persisted _ [("Ada", 3); ("Bo", 2)] (or_introl H1) H2)
    as (_ & Hp & _ & Hi & _).
  split; [exact Hp|]. rewrite Hi. vm_compute. reflexivity.
Defined.

Lemma StronglySorted_app_le {A} (R : A -> A -> Prop) (l1 l2 : list A) :
  StronglySorted R (l1 ++ l2) -> forall x y, x ∈ l1 -> y ∈ l2 -> R x y.
Proof.
  induction l1 as [|a l1 IH]; intros Hs x y Hx Hy.
  - inversion Hx.
  - cbn [Datatypes.app] in Hs. apply StronglySorted_inv in Hs as [Hs Ha].
    apply elem_of_cons in Hx as [-> | Hx].
    + rewrite Forall_forall in Ha. apply Ha, elem_of_app. right. exact Hy.
    + apply IH; assumption.
Qed.

(** X18. The board shows the best entries: an entry of the stored history
    that passes the filter and is not among the (at most five) entries
    shown has a score that is not below the score of any entry shown. *)
Theorem top_five_are_smallest (l : list value) (e s : value) :
  e ∈ l ->
  HighScore.has_score e = true ->
  e ∉ HighScore.topFiveScores l ->
  s ∈ HighScore.topFiveScores l ->
  score_le s e.
Proof.
  intros He Hs Hout Hin. unfold HighScore.topFiveScores in *.
  set (kept := filter (fun e => HighScore.has_score e = true) l) in *.
  set (sorted := sort HighScore.by_score kept) in *.
  assert (Hk : Forall (fun e => HighScore.has_score e = true) kept).
  { apply Forall_forall. intros x Hx. unfold kept in Hx.
    apply list_elem_of_filter in Hx. apply Hx. }
  pose proof (sort_by_score_sorted kept Hk) as Hsorted. fold sorted in Hsorted.
  assert (Hes : e ∈ sorted).
  { unfold sorted. rewrite (sort_perm HighScore.by_score kept).
    unfold kept. apply list_elem_of_filter. split; assumption. }
  rewrite <- (take_drop 5 sorted) in Hes, Hsorted.
  apply elem_of_app in Hes as [Hes | Hes]; [contradiction|].
  exact (StronglySorted_app_le _ _ _ Hsorted s e Hin Hes).
Qed.

(** X18, witness: six entries, of which the one with nine seconds is not shown. *)
Lemma top_five_are_smallest_witness :
  let entry (n : Z) := Obj [("nickname", Str "Ada"); ("score", Num (Int n))] in
  score_le (entry 5) (entry 9).
Proof.
  intros entry.
  apply (top_five_are_smallest
           [entry 9; entry 1; entry 2; entry 3; entry 4; entry 5] (entry 9) (entry 5)).
  - apply list_elem_of_here.
  - reflexivity.
  - vm_compute. intros H.
    repeat (apply elem_of_cons in H as [H | H]; [discriminate H|]).
    inversion H.
  - vm_compute. do 4 apply list_elem_of_further. apply list_elem_of_here.
Defined.

(* ================================================================== *)
(** * Completion and restart: the edges *)
(* ================================================================== *)

(** X19. Completion needs a nickname. When no nickname has been given
    (the field of the application is not a string) and the stored history
    can be read, the first completion hides the question, the timer and
    the form, sets the guard, and then fails with a [TypeError] on
    [nickname.trim]: nothing is stored, and the board is not revealed. *)
Theorem showHighScore_needs_nickname (w : world) (accumulatedTime hs : value) :
  highScoreShown (app w) = false ->
  result read_highScores w = Ret hs ->
  (forall s, nickname (app w) <> Str s) ->
  let w' := exec (QuizApplication.showHighScore accumulatedTime) w in
  result (QuizApplication.showHighScore accumulatedTime) w = Throw TypeError
  /\ highScoreShown (app w') = true
  /\ (form_hidden (app w'), question_hidden (app w'), timer_hidden (app w'))
     = (true, true, true)
  /\ board_hidden (app w') = board_hidden (app w)
  /\ localStorage w' = localStorage w
  /\ board w' = board w.
Proof.
  intros Hg Hr Hn.
  destruct (stop_timer_frame w) as (Hd & Ha & Hb & Hl & _).
  set (w1 := exec (dispatchEvent StopTimer [CountdownTimer.stopTimer]) w) in *.
  clearbody w1.
  unfold result in Hr. rewrite read_highScores_eq in Hr. cbn [fst] in Hr.
  assert (Hrd : exists v,
            JSON_parse
              match localStorage w1 !! "highScores" with
              | Some text => Str text
              | None => Null
              end = Ret v).
  { rewrite Hl. destruct (localStorage w !! "highScores") as [text|].
    - destruct (JSON_parse (Str text)) as [v|e]; [eauto | discriminate Hr].
    - exists Null. reflexivity. }
  destruct Hrd as (v & Hv).
  open_show. rewrite Hg. open_show. rewrite Hd. open_show. rewrite Hv.
  destruct (nickname (app w)) as [| | | | s | |] eqn:Hnick;
    try (open_show; rewrite ?Ha, ?Hl, ?Hb; repeat split; reflexivity).
  exfalso. exact (Hn s eq_refl).
Qed.

(** X19, witness: a completion right after the page is loaded. *)
Lemma showHighScore_needs_nickname_witness :
  let w := exec load_page (empty_world ∅) in
  let w' := exec (QuizApplication.showHighScore (Num (Int 3))) w in
  result (QuizApplication.showHighScore (Num (Int 3))) w = Throw TypeError
  /\ highScoreShown (app w') = true
  /\ board_hidden (app w') = true.
Proof.
  assert (H1 : highScoreShown (app (exec load_page (empty_world ∅))) = false)
    by (vm_compute; reflexivity).
  assert (H2 : result read_highScores (exec load_page (empty_world ∅)) = Ret (Arr []))
    by (vm_compute; reflexivity).
  assert (H3 : forall s, nickname (app (exec load_page (empty_world ∅))) <> Str s)
    by (intros s; vm_compute; discriminate).
  pose proof (showHighScore_needs_nickname (exec load_page (empty_world ∅))
                (Num (Int 3)) (Arr []) H1 H2 H3) as (Hr & Hg & _ & Hb & _).
  split; [exact Hr|]. split; [exact Hg|]. rewrite Hb. vm_compute. reflexivity.
Defined.

Lemma exec_stopped_showHighScore acc w :
  stopped w -> stopped (exec (QuizApplication.showHighScore acc) w).
Proof. apply stopped_showHighScore. Qed.

(** X20. [handleTimeout] always leaves the session completed: whatever the
    state of the page, and whether the completion handling returns or
    throws, afterwards the timer is stopped and the completion guard is
    set. The time it logs and the time it passes on are the accumulated
    time after the stop. *)
Theorem handleTimeout_completes (w : world) :
  let w1 := exec CountdownTimer.stopTimer w in
  let logged :=
    set_console
      (fun c => c ++ [Log ("Timeout occurred. Total Time Spent: "
                           +:+ ToString (Num (accumulatedTime (timer w1))))]) w1 in
  let w' := exec QuizApplication.handleTimeout w in
  QuizApplication.handleTimeout w
  = QuizApplication.showHighScore (Num (accumulatedTime (timer w1))) logged
  /\ stopped w'
  /\ highScoreShown (app w') = true.
Proof.
  intros w1 logged w'.
  assert (Heq : QuizApplication.handleTimeout w
                = QuizApplication.showHighScore (Num (accumulatedTime (timer w1))) logged).
  { assert (Hst : CountdownTimer.stopTimer w = (Ret tt, w1)) by apply stopTimer_returns.
    unfold QuizApplication.handleTimeout, mbind, M_bind.
    unfold bind at 1. rewrite Hst.
    unfold bind, gets, console_log, modify. cbn beta iota.
    destruct (truthy (Num (accumulatedTime (timer w1)))); reflexivity. }
  split; [exact Heq|].
  unfold w', exec. rewrite Heq.
  change (snd (QuizApplication.showHighScore (Num (accumulatedTime (timer w1))) logged))
    with (exec (QuizApplication.showHighScore (Num (accumulatedTime (timer w1)))) logged).
  split.
  - apply exec_stopped_showHighScore. unfold logged, stopped.
    cbn [timer set_console]. unfold w1. destruct (stopTimer_frame w) as [H _]. exact H.
  - apply showHighScore_sets_guard.
Qed.

Ltac run_restart :=
  cbv beta iota zeta delta
    [exec result mbind mret M_bind M_ret bind ret gets modify lift throw try_catch when
     console_log console_error console_error_exn getItem setItem removeItem
     listener run_listeners dispatchEvent
     CountdownTimer.stopTimer CountdownTimer.updateDisplay
     CountdownTimer.resetAll CountdownTimer.resetTotalTimeSpent
     CountdownTimer.resetAccumulatedTime
     QuizApplication.restartQuiz QuizApplication.on_try_again
     HighScore.tryAgain click_try_again
     fst snd Page.app timer question form board localStorage console events requests
     intervals set_app set_timer set_question set_form set_board set_localStorage
     set_console set_events set_requests set_intervals
     timeLeft intervalId totalTimeSpent accumulatedTime display
     CountdownTimer.set_timeLeft CountdownTimer.set_intervalId
     CountdownTimer.set_totalTimeSpent CountdownTimer.set_accumulatedTime
     CountdownTimer.set_display
     score highScores allowTimeoutAction nickname totalTime app_currentQuestion
     currentQuestionIndex highScoreShown form_hidden question_hidden timer_hidden
     board_hidden
     QuizApplication.set_score QuizApplication.set_currentQuestionIndex
     QuizApplication.set_highScoreShown QuizApplication.set_form_hidden
     QuizApplication.set_question_hidden QuizApplication.set_timer_hidden
     QuizApplication.set_board_hidden].

(** X21. A click on [Try Again] is the restart and nothing more: the
    event is dispatched, the application restarts the quiz, and the reset
    that the timer makes as second listener finds the timer already reset
    and changes nothing. The board stays as it is, still listening for
    the next result. *)
Theorem try_again_is_restart (w : world) :
  let w' := exec QuizApplication.restartQuiz
              (set_events (fun l => l ++ [TryAgain]) w) in
  click_try_again w = (Ret tt, w')
  /\ CountdownTimer.resetAll w' = (Ret tt, w')
  /\ board w' = board w
  /\ events w' = events w ++ [TryAgain; StopTimer].
Proof.
  destruct w as [a [tl [id|] tts acc [dsp|]] q f b s c e r i]; run_restart;
    (split; [reflexivity|]); (split; [reflexivity|]); (split; [reflexivity|]);
    rewrite <- app_assoc; reflexivity.
Qed.

(* ================================================================== *)
(** * Trimming twice *)
(* ================================================================== *)

Lemma trimStart_rec (P : list ascii -> Prop) :
  P [] ->
  (forall c1 r1, ws1 c1 = true -> P r1 -> P (c1 :: r1)) ->
  (forall c1 c2 r2, ws1 c1 = false -> ws2 c1 c2 = true -> P r2 -> P (c1 :: c2 :: r2)) ->
  (forall c1 c2 c3 r3, ws1 c1 = false -> ws2 c1 c2 = false -> ws3 c1 c2 c3 = true ->
     P r3 -> P (c1 :: c2 :: c3 :: r3)) ->
  (forall s, no_space_before s -> P s) ->
  forall s, P s.
Proof.
  intros H0 H1 H2 H3 H4 s.
  assert (H : forall n s, (length s <= n)%nat -> P s).
  { clear s. induction n as [|n IH]; intros s Hn.
    - destruct s; [exact H0 | cbn in Hn; lia].
    - destruct s as [|c1 r1]; [exact H0|].
      destruct (ws1 c1) eqn:E1; [apply H1; [exact E1 | apply IH; cbn in Hn; lia]|].
      destruct r1 as [|c2 r2]; [apply H4; cbn; auto|].
      destruct (ws2 c1 c2) eqn:E2; [apply H2; auto; apply IH; cbn in Hn; lia|].
      destruct r2 as [|c3 r3]; [apply H4; cbn; auto|].
      destruct (ws3 c1 c2 c3) eqn:E3; [apply H3; auto; apply IH; cbn in Hn; lia|].
      apply H4. cbn. auto. }
  apply (H (length s)). lia.
Qed.

Lemma trimStart_rev_rec (P : list ascii -> Prop) :
  P [] ->
  (forall c1 r1, ws1 c1 = true -> P r1 -> P (c1 :: r1)) ->
  (forall c1 c2 r2, ws1 c1 = false -> ws2 c2 c1 = true -> P r2 -> P (c1 :: c2 :: r2)) ->
  (forall c1 c2 c3 r3, ws1 c1 = false -> ws2 c2 c1 = false -> ws3 c3 c2 c1 = true ->
     P r3 -> P (c1 :: c2 :: c3 :: r3)) ->
  (forall s, no_space_after s -> P s) ->
  forall s, P s.
Proof.
  intros H0 H1 H2 H3 H4 s.
  assert (H : forall n s, (length s <= n)%nat -> P s).
  { clear s. induction n as [|n IH]; intros s Hn.
    - destruct s; [exact H0 | cbn in Hn; lia].
    - destruct s as [|c1 r1]; [exact H0|].
      destruct (ws1 c1) eqn:E1; [apply H1; [exact E1 | apply IH; cbn in Hn; lia]|].
      destruct r1 as [|c2 r2]; [apply H4; cbn; auto|].
      destruct (ws2 c2 c1) eqn:E2; [apply H2; auto; apply IH; cbn in Hn; lia|].
      destruct r2 as [|c3 r3]; [apply H4; cbn; auto|].
      destruct (ws3 c3 c2 c1) eqn:E3; [apply H3; auto; apply IH; cbn in Hn; lia|].
      apply H4. cbn. auto. }
  apply (H (length s)). lia.
Qed.

Lemma trimStart_clean s : no_space_before s -> trimStart s = s.
Proof.
  destruct s as [|c1 [|c2 [|c3 r3]]]; cbn [no_space_before trimStart].
  - reflexivity.
  - intros [-> _]. reflexivity.
  - intros (-> & -> & _). reflexivity.
  - intros (-> & -> & ->). reflexivity.
Qed.

Lemma trimStart_rev_clean s : no_space_after s -> trimStart_rev s = s.
Proof.
  destruct s as [|c1 [|c2 [|c3 r3]]]; cbn [no_space_after trimStart_rev].
  - reflexivity.
  - intros [-> _]. reflexivity.
  - intros (-> & -> & _). reflexivity.
  - intros (-> & -> & ->). reflexivity.
Qed.

Lemma trimStart_no_space s : no_space_before (trimStart s).
Proof.
  induction s using trimStart_rec.
  - exact I.
  - cbn [trimStart]. rewrite H. exact IHs.
  - cbn [trimStart]. rewrite H, H0. exact IHs.
  - cbn [trimStart]. rewrite H, H0, H1. exact IHs.
  - rewrite trimStart_clean; assumption.
Qed.

Lemma trimStart_rev_no_space s : no_space_after (trimStart_rev s).
Proof.
  induction s using trimStart_rev_rec.
  - exact I.
  - cbn [trimStart_rev]. rewrite H. exact IHs.
  - cbn [trimStart_rev]. rewrite H, H0. exact IHs.
  - cbn [trimStart_rev]. rewrite H, H0, H1. exact IHs.
  - rewrite trimStart_rev_clean; assumption.
Qed.

Lemma trimStart_rev_suffix s : exists p, s = p ++ trimStart_rev s.
Proof.
  induction s using trimStart_rev_rec.
  - exists []. reflexivity.
  - destruct IHs as [p Hp]. exists (c1 :: p). cbn [trimStart_rev]. rewrite H.
    cbn [Datatypes.app]. congruence.
  - destruct IHs as [p Hp]. exists (c1 :: c2 :: p). cbn [trimStart_rev].
    rewrite H, H0. cbn [Datatypes.app]. congruence.
  - destruct IHs as [p Hp]. exists (c1 :: c2 :: c3 :: p). cbn [trimStart_rev].
    rewrite H, H0, H1. cbn [Datatypes.app]. congruence.
  - exists []. rewrite trimStart_rev_clean; [reflexivity | assumption].
Qed.

Lemma no_space_before_prefix t p : no_space_before (t ++ p) -> no_space_before t.
Proof.
  destruct t as [|c1 [|c2 [|c3 r3]]]; cbn [no_space_before Datatypes.app].
  - auto.
  - intros [H _]. auto.
  - intros (H1 & H2 & _). auto.
  - auto.
Qed.

Lemma trimEnd_prefix u : exists p, u = trimEnd u ++ p.
Proof.
  unfold trimEnd. destruct (trimStart_rev_suffix (rev u)) as [p Hp].
  exists (rev p). rewrite <- rev_app_distr, <- Hp, rev_involutive. reflexivity.
Qed.

Lemma trim_twice s : trim (trim s) = trim s.
Proof.
  unfold trim. rewrite list_ascii_of_string_of_list_ascii.
  set (u := trimStart (list_ascii_of_string s)).
  assert (Ht : trimStart (trimEnd u) = trimEnd u).
  { apply trimStart_clean. destruct (trimEnd_prefix u) as [p Hp].
    apply (no_space_before_prefix _ p). rewrite <- Hp. apply trimStart_no_space. }
  rewrite Ht. unfold trimEnd. rewrite rev_involutive.
  rewrite (trimStart_rev_clean _ (trimStart_rev_no_space _)). reflexivity.
Qed.

(** X22. A nickname that the form lets through is never blank for the
    completion handling: the form emits the trimmed text of the field when
    it is not empty, and trimming that nickname again, as [showHighScore]
    does before it records the result, gives the same text. *)
Theorem accepted_nickname_is_recorded (w : world) :
  let n := trim (input (form w)) in
  n <> "" ->
  nickname (app (exec submit_nickname w)) = Str n
  /\ trim n = n
  /\ String.eqb (trim n) "" = false.
Proof.
  intros n Hn.
  assert (Ht : trim n = n) by apply trim_twice.
  split; [|split; [exact Ht | rewrite Ht; apply String.eqb_neq, Hn]].
  run_app. unfold truthy. fold n. apply String.eqb_neq in Hn. rewrite Hn.
  cbn [negb]. run_app. reflexivity.
Qed.

(** X22, witness: a nickname of two words with spaces around it. *)
Lemma accepted_nickname_is_recorded_witness :
  let w := exec (NicknameForm.type "  Ada Lovelace ") (exec load_page (empty_world ∅)) in
  nickname (app (exec submit_nickname w)) = Str "Ada Lovelace"
  /\ trim "Ada Lovelace" = "Ada Lovelace".
Proof.
  assert (H : trim (input (form (exec (NicknameForm.type "  Ada Lovelace ")
                                   (exec load_page (empty_world ∅))))) <> "")
    by (vm_compute; discriminate).
  pose proof (accepted_nickname_is_recorded _ H) as (H1 & H2 & _).
  split; [exact H1 | exact H2].
Defined.

(* ================================================================== *)
(** * A whole session *)
(* ================================================================== *)

Lemma tick_frame listeners w n k a ev :
  counting w n k a ev -> 0 < n ->
  frame_of (exec (CountdownTimer.tick listeners) w) = frame_of w.
Proof.
  destruct w as [ap [tl [id|] tts acc [dsp|]] q f b s c e r i];
    unfold counting; cbn; intros (Hid & -> & -> & -> & ->) Hn; try congruence.
  all: run_timer; unfold gt0; cbn; destruct (Z.compare_spec n 0); try lia; reflexivity.
Qed.

Lemma ticks_frame listeners (j : nat) : forall w n k a ev,
  counting w n k a ev -> Z.of_nat j <= n ->
  frame_of (exec (ticks listeners j) w) = frame_of w.
Proof.
  induction j as [|j IH]; intros w n k a ev Hc Hj; [reflexivity|].
  unfold ticks. cbn [repeat]. rewrite exec_seq_cons.
  destruct (tick_counting listeners w n k a ev Hc) as [Hc' ->]; [lia|].
  fold (ticks listeners j).
  rewrite (IH _ _ _ _ _ Hc') by lia.
  apply (tick_frame listeners w n k a ev Hc). lia.
Qed.

Lemma in_session_frame w w' h n :
  frame_of w' = frame_of w -> in_session w h n -> in_session w' h n.
Proof.
  unfold frame_of, in_session, persisted. intros [= -> -> ->]. exact id.
Qed.

Lemma in_session_fetchQuestions h n r :
  preserves (fun w => in_session w h n) (QuizApplication.fetchQuestions_resume r).
Proof. repeat preserve_step ltac:(idtac; no_special). Qed.

Lemma fetchQuestions_first w text q d :
  JSON_parse (Str text) = Ret q ->
  truthy q = true ->
  parseInt (prop q "limit") = Int d ->
  d <> 0 ->
  exec (QuizApplication.fetchQuestions_resume (Body text)) w
  = exec (CountdownTimer.startTimer (Num (Int d)))
      (exec (QuizQuestion.setQuestion q)
         (set_events (fun l => l ++ [SetQuestion q (Num (Int d))])
            (set_app (QuizApplication.set_currentQuestion q) w))).
Proof.
  intros Hp Hq Hi Hd.
  pose proof (truthy_not_nullish q Hq) as Hn.
  assert (H1 : (if truthy (prop q "limit") then Num (parseInt (prop q "limit"))
                else Num (Int 20)) = Num (Int d)).
  { destruct (truthy (prop q "limit")) eqn:Ht; [congruence|].
    apply parseInt_falsy in Ht. rewrite Hi in Ht. cbn in Ht.
    apply negb_false_iff, Z.eqb_eq in Ht. contradiction. }
  set (w0 := set_app (QuizApplication.set_currentQuestion q) w).
  set (w1 := set_events (fun l => l ++ [SetQuestion q (Num (Int d))]) w0).
  destruct (setQuestion_shows w1 q Hq) as (R1 & _).
  destruct (startTimer_sets (exec (QuizQuestion.setQuestion q) w1) d) as (R2 & _).
  assert (He : exec (dispatchEvent (SetQuestion q (Num (Int d)))
                       (QuizApplication.set_question_listeners q (Num (Int d)))) w0
               = exec (CountdownTimer.startTimer (Num (Int d)))
                   (exec (QuizQuestion.setQuestion q) w1)).
  { unfold QuizApplication.set_question_listeners. rewrite exec_dispatchEvent_two.
    fold w1. unfold exec at 2. rewrite (listener_returns _ _ R1).
    fold (exec (QuizQuestion.setQuestion q) w1).
    unfold exec at 1. rewrite (listener_returns _ _ R2). reflexivity. }
  rewrite <- He.
  unfold QuizApplication.fetchQuestions_resume, json, get_prop, lift, try_catch,
    mbind, M_bind, bind, modify, ret.
  rewrite Hp, Hn, H1. fold w0.
  pose proof (result_dispatchEvent (SetQuestion q (Num (Int d)))
                (QuizApplication.set_question_listeners q (Num (Int d))) w0) as Hr.
  unfold exec, result in *.
  destruct (dispatchEvent _ _ _) as [[[]|e] w']; cbn in Hr; [reflexivity | discriminate].
Qed.

Lemma fetchQuestions_counting w text q d a :
  JSON_parse (Str text) = Ret q ->
  truthy q = true ->
  parseInt (prop q "limit") = Int d ->
  d <> 0 ->
  accumulatedTime (timer w) = Int a ->
  totalTimeSpent (timer w) = Int 0 ->
  exists ev, counting (exec (QuizApplication.fetchQuestions_resume (Body text)) w) d 0 a ev.
Proof.
  intros Hp Hq Hi Hd Ha Hk.
  rewrite (fetchQuestions_first w text q d Hp Hq Hi Hd).
  set (w1 := set_events _ _).
  destruct (setQuestion_shows w1 q Hq) as (_ & _ & Ht & _).
  eexists. apply startTimer_fresh; rewrite Ht; assumption.
Qed.

(** [m] ends in a state where [Q] holds, when it returns. *)
Lemma returns_bind {A} (Q : world -> Prop) (m : M A) (k : A -> M unit) w :
  result (m ≫= k) w = Ret tt ->
  (forall a w', result (k a) w' = Ret tt -> Q (exec (k a) w')) ->
  Q (exec (m ≫= k) w).
Proof.
  intros Hr Hk. rewrite exec_bind. rewrite result_bind in Hr.
  destruct (result m w) as [a|e]; [apply Hk, Hr | discriminate Hr].
Qed.

Lemma showHighScore_reveals acc w :
  highScoreShown (app w) = false ->
  result (QuizApplication.showHighScore acc) w = Ret tt ->
  board_hidden (app (exec (QuizApplication.showHighScore acc) w)) = false.
Proof.
  intros Hg Hr. unfold QuizApplication.showHighScore in *.
  rewrite exec_bind. rewrite result_bind in Hr.
  cbn [result exec gets fst snd] in *. rewrite Hg in *.
  repeat (apply (returns_bind (fun w => board_hidden (app w) = false)); [exact Hr|];
          clear Hr; intros ? ? Hr).
  reflexivity.
Qed.

Lemma showHighScore_hides acc w :
  highScoreShown (app w) = false ->
  others_hidden (exec (QuizApplication.showHighScore acc) w).
Proof.
  intros Hg. unfold QuizApplication.showHighScore.
  rewrite exec_bind. cbn [result exec gets fst snd]. rewrite Hg.
  rewrite exec_bind, result_dispatchEvent.
  do 4 (rewrite exec_bind; cbn [result modify fst]).
  match goal with
  | |- others_hidden (exec ?m ?w0) =>
      enough (H : preserves others_hidden m)
        by (apply (H w0); repeat split; reflexivity)
  end.
  repeat preserve_step ltac:(idtac; no_special).
Qed.

Lemma submit_nickname_session w h :
  let n := trim (input (form w)) in
  n <> "" ->
  persisted w h ->
  highScoreShown (app w) = false ->
  let w' := exec submit_nickname w in
  in_session w' h n /\ timer w' = timer w.
Proof.
  intros n Hn (Hst & Hsc & Hli) Hg.
  apply String.eqb_neq in Hn.
  run_app. unfold truthy. fold n. rewrite Hn. cbn [negb]. run_app.
  unfold in_session, persisted.
  cbn [localStorage board Page.app nickname highScoreShown timer set_app
         set_localStorage set_requests set_events
         QuizApplication.set_score QuizApplication.set_nickname
         QuizApplication.set_form_hidden QuizApplication.set_question_hidden
         QuizApplication.set_timer_hidden].
  rewrite lookup_insert_ne by discriminate. auto 10.
Qed.

Lemma safe_between j d : safe d -> 0 <= j <= d -> safe j.
Proof. unfold safe. lia. Qed.

(** X23. A whole session. Over a storage that holds a history [h] written
    by the program (or none): the page is loaded, a nickname that is not
    blank is typed and submitted, the first question arrives with a limit
    of [d > 0] seconds, [j <= d] seconds pass, and the server judges the
    answer without naming a next question. Then the result, the trimmed
    nickname with [j] seconds, is recorded in the history unless that pair
    was there, the storage and the board hold the new history, the session
    is completed, the timer is stopped, and only the board is shown. *)
Theorem session_records_time (storage : gmap string string) (h : list (string * Z))
    (typed qtext atext : string) (q data : value) (d : Z) (j : nat) :
  (storage !! "highScores" = Some (JSON_stringify (history h))
   \/ (storage !! "highScores" = None /\ h = [])) ->
  safe_scores h ->
  trim typed <> "" ->
  JSON_parse (Str qtext) = Ret q ->
  truthy q = true ->
  parseInt (prop q "limit") = Int d ->
  safe d ->
  0 < d ->
  Z.of_nat j <= d ->
  JSON_parse (Str atext) = Ret data ->
  names_no_next data ->
  let w :=
    exec (QuizApplication.submitAnswer_resume (Body atext))
      (exec (ticks (fun acc => [QuizApplication.on_total_time_spent acc]) j)
         (exec (QuizApplication.fetchQuestions_resume (Body qtext))
            (exec submit_nickname
               (exec (NicknameForm.type typed)
                  (exec load_page (empty_world storage)))))) in
  persisted w (record (trim typed, Z.of_nat j) h)
  /\ highScoreShown (app w) = true
  /\ stopped w
  /\ board_hidden (app w) = false
  /\ others_hidden w.
Proof.
  intros Hst Hs Hn Hq Hqt Hl Hsd Hd Hj Ha Hno.
  destruct (load_page_state storage h Hst Hs)
    as (_ & Hp0 & _ & _ & _ & _ & Hg0 & _ & Ha0 & Hk0).
  set (w0 := exec load_page (empty_world storage)) in *.
  set (w1 := exec (NicknameForm.type typed) w0).
  assert (H1 : trim (input (form w1)) = trim typed) by reflexivity.
  assert (Hn1 : trim (input (form w1)) <> "") by (rewrite H1; exact Hn).
  destruct (submit_nickname_session w1 h Hn1 Hp0 Hg0) as (Hs2 & Ht2).
  rewrite H1 in Hs2.
  set (w2 := exec submit_nickname w1) in *.
  assert (Hd0 : d <> 0) by lia.
  pose proof (in_session_fetchQuestions h (trim typed) (Body qtext) w2 Hs2) as Hs3.
  destruct (fetchQuestions_counting w2 qtext q d 0 Hq Hqt Hl Hd0) as [ev Hc3];
    [rewrite Ht2; exact Ha0 | rewrite Ht2; exact Hk0 |].
  set (w3 := exec (QuizApplication.fetchQuestions_resume (Body qtext)) w2) in *.
  set (ls := fun acc => [QuizApplication.on_total_time_spent acc]).
  pose proof (ticks_counting ls j w3 d 0 0 ev Hc3 Hj) as Hc4.
  pose proof (in_session_frame _ _ h (trim typed)
                (ticks_frame ls j w3 d 0 0 ev Hc3 Hj) Hs3) as Hs4.
  set (w4 := exec (ticks ls j) w3) in *.
  destruct Hc4 as (Hid4 & _ & Hk4 & Ha4 & _).
  destruct (stopTimer_frame w4) as (Hst5 & Hap5 & Hb5 & Hl5 & _).
  pose proof (stopTimer_running w4 0 (0 + Z.of_nat j) Hid4 Ha4 Hk4) as Hacc.
  replace (0 + (0 + Z.of_nat j)) with (Z.of_nat j) in Hacc by lia.
  set (w5 := exec CountdownTimer.stopTimer w4) in *.
  assert (Hs5 : in_session w5 h (trim typed)).
  { apply (in_session_frame w4); [|exact Hs4]. unfold frame_of. congruence. }
  destruct Hs5 as (Hp5 & Hnick5 & Hg5).
  assert (Hsj : safe (Z.of_nat j)) by (apply (safe_between _ d); [exact Hsd | lia]).
  assert (Htt : trim (trim typed) <> "") by (rewrite trim_twice; exact Hn).
  destruct (showHighScore_records w5 h (trim typed) (Z.of_nat j) Hp5 Hs Hsj Hg5 Hnick5 Htt)
    as (Hr6 & Hp6).
  assert (Heq : QuizApplication.submitAnswer_resume (Body atext) w4
                = QuizApplication.showHighScore (Num (Int (Z.of_nat j))) w5).
  { unfold QuizApplication.submitAnswer_resume, try_catch at 1.
    unfold mbind, M_bind, bind at 1. rewrite (json_body atext data w4 Ha).
    unfold names_no_next in Hno. rewrite Hno.
    unfold mbind, M_bind, bind at 1. rewrite (stopTimer_returns w4). fold w5.
    unfold bind, gets. cbn beta iota. rewrite Hacc.
    unfold try_catch. unfold result in Hr6.
    destruct (QuizApplication.showHighScore (Num (Int (Z.of_nat j))) w5) as [[[]|e] w6];
      [reflexivity | discriminate Hr6]. }
  unfold exec at 1. rewrite Heq.
  fold (exec (QuizApplication.showHighScore (Num (Int (Z.of_nat j)))) w5).
  split; [exact Hp6|]. split; [apply showHighScore_sets_guard|].
  split; [apply exec_stopped_showHighScore, Hst5|].
  split; [apply showHighScore_reveals; assumption | apply showHighScore_hides, Hg5].
Qed.

(** X23, witness: Ada answers her only question after three seconds. *)
Lemma session_records_time_witness :
  let w :=
    exec (QuizApplication.submitAnswer_resume (Body "{}"))
      (exec (ticks (fun acc => [QuizApplication.on_total_time_spent acc]) 3)
         (exec (QuizApplication.fetchQuestions_resume
                  (Body (question_text "2+2?" "/q/2" "10")))
            (exec submit_nickname
               (exec (NicknameForm.type " Ada ")
                  (exec load_page (empty_world ∅)))))) in
  persisted w (record ("Ada", 3) [])
  /\ highScoreShown (app w) = true
  /\ board_hidden (app w) = false.
Proof.
  assert (H1 : (∅ : gmap string string) !! "highScores"
               = Some (JSON_stringify (history []))
               \/ ((∅ : gmap string string) !! "highScores" = None
                   /\ ([] : list (string * Z)) = []))
    by (right; split; reflexivity).
  assert (H2 : safe_scores []) by constructor.
  assert (H3 : trim " Ada " <> "") by (vm_compute; discriminate).
  assert (H4 : JSON_parse (Str (question_text "2+2?" "/q/2" "10"))
               = Ret (Obj [("question", Str "2+2?"); ("nextURL", Str "/q/2");
                           ("limit", Num (Int 10))]))
    by (vm_compute; reflexivity).
  assert (H6 : parseInt (prop (Obj [("question", Str "2+2?"); ("nextURL", Str "/q/2");
                                    ("limit", Num (Int 10))]) "limit") = Int 10)
    by (vm_compute; reflexivity).
  assert (H7 : safe 10) by (unfold safe; cbn; lia).
  assert (H8 : 0 < 10) by lia.
  assert (H9 : Z.of_nat 3 <= 10) by (cbn; lia).
  assert (H10 : JSON_parse (Str "{}") = Ret (Obj [])) by (vm_compute; reflexivity).
  pose proof (session_records_time ∅ [] " Ada " (question_text "2+2?" "/q/2" "10") "{}"
                _ _ 10 3 H1 H2 H3 H4 eq_refl H6 H7 H8 H9 H10 eq_refl)
    as (Hp & Hg & _ & Hb & _).
  split; [exact Hp|]. split; [exact Hg | exact Hb].
Defined.

(** X24. What a completion shows: the first completion of a session hides
    the form, the question and the timer, whether it then returns or
    throws; when it returns, the board is revealed. *)
Theorem completion_shows_only_board (w : world) (accumulatedTime : value) :
  highScoreShown (app w) = false ->
  let w' := exec (QuizApplication.showHighScore accumulatedTime) w in
  others_hidden w'
  /\ (result (QuizApplication.showHighScore accumulatedTime) w = Ret tt ->
      board_hidden (app w') = false).
Proof.
  intros Hg. split; [apply showHighScore_hides, Hg|].
  intros Hr. apply showHighScore_reveals; assumption.
Qed.

(** X24, witness: a completion of the example session. *)
Lemma completion_shows_only_board_witness :
  let w' := exec (QuizApplication.showHighScore (Num (Int 3))) Scenario.playing in
  others_hidden w' /\ board_hidden (app w') = false.
Proof.
  assert (Hg : highScoreShown (app Scenario.playing) = false) by (vm_compute; reflexivity).
  destruct (completion_shows_only_board Scenario.playing (Num (Int 3)) Hg) as [H1 H2].
  split; [exact H1|]. apply H2. vm_compute. reflexivity.
Defined.

Lemma on_high_score_present w h n s :
  persisted w h -> (n, s) ∈ h ->
  HighScore.on_high_score (Str n) (Num (Int s)) w = (Ret tt, w).
Proof.
  intros (Hst & Hsc & Hli) Hin. unfold history in Hsc.
  open_board. rewrite Hsc. open_board. unfold find.
  destruct (find_history_present n s h O Hin) as [j Hj]. rewrite Hj.
  reflexivity.
Qed.

Lemma on_high_score_absent w h n s :
  persisted w h -> safe_scores h -> safe s -> (n, s) ∉ h ->
  result (HighScore.on_high_score (Str n) (Num (Int s))) w = Ret tt
  /\ persisted (exec (HighScore.on_high_score (Str n) (Num (Int s))) w) (h ++ [(n, s)]).
Proof.
  intros (Hst & Hsc & Hli) Hh Hs Hin. unfold history in Hsc.
  open_board. rewrite Hsc. open_board. unfold find.
  rewrite (find_history_absent n s h O Hin).
  open_board. cbn [negb]. open_board. rewrite lookup_insert_eq.
  replace (Arr (map entry_value h ++ [Obj [("nickname", Str n); ("score", Num (Int s))]]))
    with (history (h ++ [(n, s)])) by apply history_app.
  assert (Hh' : safe_scores (h ++ [(n, s)])).
  { apply Forall_app. split; [exact Hh|]. constructor; [exact Hs | constructor]. }
  rewrite (parse_stringify_history _ Hh').
  change (truthy (history (h ++ [(n, s)]))) with true. cbv iota.
  split; [reflexivity|].
  unfold persisted, history. open_board.
  rewrite lookup_insert_eq, Hli. auto.
Qed.

(** X25. The listener of the board records a result once: on a board in
    step with the storage, a [high-score] event appends the entry to the
    history unless the same nickname and score are there, and the same
    event dispatched again changes nothing. *)
Theorem board_records_once (w : world) (h : list (string * Z)) (n : string) (s : Z) :
  persisted w h ->
  safe_scores h -> safe s ->
  let w' := exec (HighScore.on_high_score (Str n) (Num (Int s))) w in
  result (HighScore.on_high_score (Str n) (Num (Int s))) w = Ret tt
  /\ persisted w' (record (n, s) h)
  /\ HighScore.on_high_score (Str n) (Num (Int s)) w' = (Ret tt, w').
Proof.
  intros Hp Hh Hs. unfold record.
  destruct (decide ((n, s) ∈ h)) as [Hin|Hin].
  - pose proof (on_high_score_present w h n s Hp Hin) as He.
    unfold result, exec. rewrite He. cbn [fst snd]. auto.
  - destruct (on_high_score_absent w h n s Hp Hh Hs Hin) as [Hr Hp'].
    split; [exact Hr|]. split; [exact Hp'|].
    apply (on_high_score_present _ (h ++ [(n, s)]) n s Hp').
    apply elem_of_app. right. apply list_elem_of_here.
Qed.

(** X25, witness: a second player on the board of the example session. *)
Lemma board_records_once_witness :
  let w := Scenario.timed_out in
  let w' := exec (HighScore.on_high_score (Str "Bo") (Num (Int 4))) w in
  persisted w' (record ("Bo", 4) [("Ada", 10)])
  /\ HighScore.on_high_score (Str "Bo") (Num (Int 4)) w' = (Ret tt, w').
Proof.
  assert (Hp : persisted Scenario.timed_out [("Ada", 10)]).
  { unfold persisted. split; [left; vm_compute; reflexivity|].
    split; vm_compute; reflexivity. }
  assert (Hh : safe_scores [("Ada", 10)]).
  { repeat constructor; unfold safe; cbn; lia. }
  assert (Hs : safe 4) by (unfold safe; cbn; lia).
  destruct (board_records_once Scenario.timed_out [("Ada", 10)] "Bo" 4 Hp Hh Hs)
    as (_ & H2 & H3).
  split; [exact H2 | exact H3].
Defined.

Lemma tick_stopped listeners w :
  stopped w -> CountdownTimer.tick listeners w = (Ret tt, w).
Proof.
  unfold stopped, CountdownTimer.tick, mbind, M_bind, bind, gets. intros ->. reflexivity.
Qed.

Lemma ticks_stopped listeners (m : nat) w :
  stopped w -> exec (ticks listeners m) w = w.
Proof.
  intros Hs. induction m as [|m IH]; [reflexivity|].
  unfold ticks. cbn [repeat]. rewrite exec_seq_cons.
  unfold result, exec at 2 3. rewrite (tick_stopped listeners w Hs). exact IH.
Qed.

Lemma showHighScore_keeps_totalTime x acc :
  preserves (fun w => totalTime (app w) = x) (QuizApplication.showHighScore acc).
Proof. repeat preserve_step ltac:(idtac; no_special). Qed.

Lemma fired_dispatch (pre : list event) e l :
  (forall t, e <> TotalTimeSpent t) ->
  Forall (preserves (fired_once pre)) l ->
  preserves (fired_once pre) (dispatchEvent e l).
Proof.
  intros He Hl. apply (preserves_bind (fired_once pre) (modify _)).
  - apply preserves_modify. intros w (rest & Hr & Hn).
    exists (rest ++ [e]). cbn [events set_events]. rewrite Hr, app_assoc.
    split; [reflexivity|]. apply Forall_app. split; [exact Hn|].
    constructor; [exact He | constructor].
  - intros _. apply preserves_run_listeners; [intros ? ? H; exact H | exact Hl].
Qed.

Ltac fired_special :=
  lazymatch goal with
  | |- preserves _ (dispatchEvent _ _) =>
      apply fired_dispatch; [intros ?; discriminate | each_listener]
  end.

Lemma fired_showHighScore pre acc :
  preserves (fired_once pre) (QuizApplication.showHighScore acc).
Proof. repeat preserve_step ltac:(idtac; fired_special). Qed.

Lemma exec_listener_log (P : world -> Prop) (m : M unit) w :
  (forall f w, P w -> P (set_console f w)) ->
  P (exec m w) -> P (exec (listener m) w).
Proof.
  intros Hc. unfold exec, listener, try_catch, modify.
  destruct (m w) as [[[]|e] w0]; cbn [snd]; [exact id | apply Hc].
Qed.

Lemma exec_run_listeners_one m w : exec (run_listeners [m]) w = exec (listener m) w.
Proof.
  unfold run_listeners, exec, bind, ret.
  destruct (listener m w) as [[[]|e] w0]; reflexivity.
Qed.

(** X26. The countdown fires once. At the second after the time left
    reached zero the timer stops itself and emits [total-time-spent] once,
    with the accumulated time including the seconds spent on this
    question; the application records that total and runs the completion
    handling, so the session is completed. The timer is then stopped, and
    however many more seconds pass, nothing happens: no further event, no
    change of the page. *)
Theorem timer_fires_once (w : world) (k a : Z) (ev : list event) (m : nat) :
  counting w 0 k a ev ->
  let w' := exec tick w in
  (exists rest,
      events w' = (ev ++ [TotalTimeSpent (Int (a + k))]) ++ rest
      /\ Forall (fun e => forall t, e <> TotalTimeSpent t) rest)
  /\ totalTime (app w') = Num (Int (a + k))
  /\ highScoreShown (app w') = true
  /\ stopped w'
  /\ exec (ticks (fun acc => [QuizApplication.on_total_time_spent acc]) m) w' = w'.
Proof.
  intros Hc w'.
  destruct (last_tick (fun acc => [QuizApplication.on_total_time_spent acc]) w k a ev Hc)
    as (Ht & Hid & _ & _ & Hev).
  set (w0 := set_events (fun l => l ++ [TotalTimeSpent (Int (a + k))])
               (exec CountdownTimer.stopTimer w)) in *.
  set (w1 := set_app (QuizApplication.set_totalTime (Num (Int (a + k)))) w0).
  assert (He : w' = exec (listener (QuizApplication.on_total_time_spent (Int (a + k)))) w0).
  { unfold w', Browser.tick, exec at 1. rewrite Ht. apply exec_run_listeners_one. }
  assert (Hm : exec (QuizApplication.on_total_time_spent (Int (a + k))) w0
               = exec (QuizApplication.showHighScore (Num (Int (a + k)))) w1)
    by reflexivity.
  assert (Hs : stopped w').
  { rewrite He. apply (exec_listener_log stopped); [intros ? ? H; exact H|].
    rewrite Hm. apply stopped_showHighScore. exact Hid. }
  split; [|split; [|split; [|split]]].
  - rewrite He.
    apply (exec_listener_log (fired_once (ev ++ [TotalTimeSpent (Int (a + k))])));
      [intros ? ? H; exact H|].
    rewrite Hm. apply fired_showHighScore.
    exists []. split; [rewrite app_nil_r; exact Hev | constructor].
  - rewrite He.
    apply (exec_listener_log (fun w => totalTime (app w) = Num (Int (a + k))));
      [intros ? ? H; exact H|].
    rewrite Hm. apply showHighScore_keeps_totalTime. reflexivity.
  - rewrite He.
    apply (exec_listener_log (fun w => highScoreShown (app w) = true));
      [intros ? ? H; exact H|].
    rewrite Hm. apply showHighScore_sets_guard.
  - exact Hs.
  - apply ticks_stopped, Hs.
Qed.

(** X26, witness: the example session, ten seconds after its question
    arrived. *)
Lemma timer_fires_once_witness :
  let w := exec (seq (repeat tick 10)) Scenario.playing in
  let w' := exec tick w in
  (exists rest,
      events w' = (events w ++ [TotalTimeSpent (Int (0 + 10))]) ++ rest
      /\ Forall (fun e => forall t, e <> TotalTimeSpent t) rest)
  /\ totalTime (app w') = Num (Int (0 + 10))
  /\ highScoreShown (app w') = true
  /\ stopped w'
  /\ exec (ticks (fun acc => [QuizApplication.on_total_time_spent acc]) 5) w' = w'.
Proof.
  assert (Hc : counting (exec (seq (repeat tick 10)) Scenario.playing) 0 10 0
                 (events (exec (seq (repeat tick 10)) Scenario.playing))).
  { unfold counting. repeat split; vm_compute; congruence. }
  exact (timer_fires_once _ 10 0 _ 5 Hc).
Defined.

(** X27. A limit that is there but is not a number (for which [parseInt]
    gives [NaN]) leads to a countdown of 20 seconds on both paths, by two
    different routes: the first fetch broadcasts [NaN] and the timer
    replaces it by its default, a follow-up fetch broadcasts 20 itself. *)
Theorem unreadable_limit (w : world) (text : string) (q : value) :
  JSON_parse (Str text) = Ret q ->
  truthy q = true ->
  truthy (prop q "limit") = true ->
  parseInt (prop q "limit") = NaN ->
  let first := exec (QuizApplication.fetchQuestions_resume (Body text)) w in
  let next := exec (QuizApplication.fetchNextQuestion_resume (Body text)) w in
  events first = events w ++ [SetQuestion q (Num NaN)]
  /\ timeLeft (timer first) = Int 20
  /\ intervalId (timer first) <> None
  /\ events next = events w ++ [SetQuestion q (Num (Int 20))]
  /\ timeLeft (timer next) = Int 20
  /\ intervalId (timer next) <> None.
Proof.
  intros Hp Hq Ht Hi first next.
  pose proof (truthy_not_nullish q Hq) as Hn.
  assert (Hfirst : events first = events w ++ [SetQuestion q (Num NaN)]
                   /\ timeLeft (timer first) = Int 20
                   /\ intervalId (timer first) <> None).
  { unfold first.
    set (w0 := set_app (QuizApplication.set_currentQuestion q) w).
    set (w1 := set_events (fun l => l ++ [SetQuestion q (Num NaN)]) w0).
    destruct (setQuestion_shows w1 q Hq) as (R1 & _ & _ & He1 & _).
    set (w2 := exec (QuizQuestion.setQuestion q) w1) in *.
    set (w3 := set_console
                 (fun c => c ++ [LogError
                    "Invalid duration value, using default of 20 seconds"]) w2).
    destruct (startTimer_sets w3 20) as (R2 & Htl & Hid & He2 & _).
    assert (R2' : result (CountdownTimer.startTimer (Num NaN)) w2 = Ret tt) by exact R2.
    assert (He : exec (QuizApplication.fetchQuestions_resume (Body text)) w
                 = exec (CountdownTimer.startTimer (Num (Int 20))) w3).
    { transitivity (exec (dispatchEvent (SetQuestion q (Num NaN))
                            (QuizApplication.set_question_listeners q (Num NaN))) w0).
      - unfold QuizApplication.fetchQuestions_resume, json, get_prop, lift, try_catch,
          mbind, M_bind, bind, modify, ret.
        rewrite Hp, Hn, Ht, Hi. fold w0.
        pose proof (result_dispatchEvent (SetQuestion q (Num NaN))
                      (QuizApplication.set_question_listeners q (Num NaN)) w0) as Hr.
        unfold exec, result in *.
        destruct (dispatchEvent _ _ _) as [[[]|e] w']; cbn in Hr;
          [reflexivity | discriminate].
      - unfold QuizApplication.set_question_listeners. rewrite exec_dispatchEvent_two.
        fold w1. unfold exec at 2. rewrite (listener_returns _ _ R1).
        fold (exec (QuizQuestion.setQuestion q) w1). fold w2.
        unfold exec at 1. rewrite (listener_returns _ _ R2'). reflexivity. }
    rewrite He. split; [|split; assumption].
    rewrite He2. unfold w3. cbn [events set_console]. rewrite He1. reflexivity. }
  assert (Hnext : broadcast w next q 20).
  { unfold next.
    pose proof (set_question_broadcast w q 20 Hq) as Hb.
    unfold QuizApplication.fetchNextQuestion_resume, json, get_prop, lift, try_catch,
      mbind, M_bind, bind, modify, ret.
    rewrite Hp, Hn, Hi, Hq. cbn [truthy].
    pose proof (result_dispatchEvent (SetQuestion q (Num (Int 20)))
                  (QuizApplication.set_question_listeners q (Num (Int 20)))
                  (set_app (QuizApplication.set_currentQuestion q) w)) as Hr.
    unfold exec, result in *.
    destruct (dispatchEvent _ _ _) as [[[]|e] w']; cbn in Hr; [exact Hb | discriminate]. }
  destruct Hfirst as (H1 & H2 & H3). destruct Hnext as (H4 & H5 & H6 & _).
  auto 10.
Qed.

(** X27, witness: a question whose limit is the word soon. *)
Lemma unreadable_limit_witness :
  let text := question_text "2+2?" "/q/2" (lit "soon") in
  let first := exec (QuizApplication.fetchQuestions_resume (Body text)) Scenario.playing in
  let next :=
    exec (QuizApplication.fetchNextQuestion_resume (Body text)) Scenario.playing in
  timeLeft (timer first) = Int 20 /\ timeLeft (timer next) = Int 20.
Proof.
  assert (Hp : JSON_parse (Str (question_text "2+2?" "/q/2" (lit "soon")))
               = Ret (Obj [("question", Str "2+2?"); ("nextURL", Str "/q/2");
                           ("limit", Str "soon")]))
    by (vm_compute; reflexivity).
  assert (Hi : parseInt (prop (Obj [("question", Str "2+2?"); ("nextURL", Str "/q/2");
                                    ("limit", Str "soon")]) "limit") = NaN)
    by (vm_compute; reflexivity).
  destruct (unreadable_limit Scenario.playing _ _ Hp eq_refl eq_refl Hi)
    as (_ & H1 & _ & _ & H2 & _).
  split; [exact H1 | exact H2].
Defined.
